(** * alpaca_rest_api: the fetcher, the cleaner, the aggregator and the driver

    A shallow embedding of [cmds/alpaca_requests.py], [cmds/data_prep.py] and
    [scripts/download_data.py].

    - Python exceptions are values of [exn]; a call that can raise returns a
      [result].
    - A pandas DataFrame is the list of its rows, in row order; the index is a
      field of the row.  Boolean-mask indexing [df[mask]] is [select].
    - An insertion-ordered Python [dict] with string keys is an association
      list whose keys are distinct, in insertion order.
    - The network is a script of responses that [requests.get] consumes one at
      a time; the requests sent and the seconds slept are logged in the
      [world]. *)

From Stdlib Require Import ZArith List Ascii String Bool Lia Sorted Permutation
  QArith_base DecimalString.
Import ListNotations.

Local Open Scope string_scope.
Local Open Scope list_scope.
Local Open Scope Z_scope.

Set Implicit Arguments.

(* ===================================================================== *)
(** * Python values and exceptions *)

Module Py.

Inductive exn : Type :=
| ValueError (msg : string)
| KeyError (key : string)
| AttributeError (msg : string)
| IndexError (msg : string)
| UnboundLocalError (name : string)
| JSONDecodeError.

Inductive result (A : Type) : Type :=
| Ok (a : A)
| Err (e : exn).
Arguments Ok {A} a.
Arguments Err {A} e.

Definition bind {A B} (r : result A) (k : A -> result B) : result B :=
  match r with
  | Ok a => k a
  | Err e => Err e
  end.

(** [df[mask]] and [arr[mask]]: the entries whose mask entry is true. *)
Fixpoint select {A} (mask : list bool) (l : list A) : list A :=
  match mask, l with
  | m :: mask', x :: l' => if m then x :: select mask' l' else select mask' l'
  | _, _ => []
  end.

(** An insertion-ordered [dict] with string keys. *)
Definition dict (V : Type) : Type := list (string * V).

Fixpoint get {V} (d : dict V) (k : string) : option V :=
  match d with
  | [] => None
  | (k', v) :: d' => if String.eqb k k' then Some v else get d' k
  end.

Definition keys {V} (d : dict V) : list string := map fst d.
Definition values {V} (d : dict V) : list V := map snd d.

(** [d[k] = v]: an existing key keeps its place, a new key goes last. *)
Fixpoint set {V} (d : dict V) (k : string) (v : V) : dict V :=
  match d with
  | [] => [(k, v)]
  | (k', v') :: d' =>
      if String.eqb k k' then (k', v) :: d' else (k', v') :: set d' k v
  end.

(** Truth value of a string or [None]: [None] and the empty string are
    false. *)
Definition truthy (s : option string) : bool :=
  match s with
  | None => false
  | Some s' => negb (String.eqb s' EmptyString)
  end.

End Py.
Import Py.

(* ===================================================================== *)
(** * pandas and numpy operations used by the cleaner *)

Module Pandas.

(** [np.unique] on integers: the distinct values in ascending order. *)
Fixpoint insert_unique (x : Z) (l : list Z) : list Z :=
  match l with
  | [] => [x]
  | y :: l' =>
      if x <? y then x :: l
      else if x =? y then l
      else y :: insert_unique x l'
  end.

Definition np_unique (l : list Z) : list Z := fold_right insert_unique [] l.

(** [Index.duplicated(keep='first')]: an entry is marked when its value
    occurred at an earlier position. *)
Fixpoint duplicated_from (seen : list Z) (idx : list Z) : list bool :=
  match idx with
  | [] => []
  | i :: idx' => existsb (Z.eqb i) seen :: duplicated_from (i :: seen) idx'
  end.

Definition duplicated (idx : list Z) : list bool := duplicated_from [] idx.

(** [mask.sum()] *)
Definition mask_sum (mask : list bool) : nat :=
  List.length (filter (fun b => b) mask).

(** [pd.concat(objs, axis=0)]: rows of the frames in list order, indices
    kept; an empty list of frames raises. *)
Definition concat {R} (objs : list (list R)) : result (list R) :=
  match objs with
  | [] => Err (ValueError "No objects to concatenate")
  | _ => Ok (List.concat objs)
  end.

End Pandas.
Import Pandas.

(* ===================================================================== *)
(** * Data model *)

(** One record of the vendor's bar JSON, with the JSON field names.  [t] is
    the bar's instant in nanoseconds since the epoch (UTC), as
    [pd.to_datetime(..., utc=True)] reads it; the numbers are carried along and
    never computed with. *)
Module Bar.
Record bar : Type := mk
  { t : Z; o : Q; h : Q; l : Q; c : Q; v : Z; n : Z; vw : Q }.
End Bar.
Definition bar : Type := Bar.bar.

(** A row of the cleaned frame before the symbol column is added: the index
    and the columns in the canonical order. *)
Record row : Type := mk_row
  { index : Z; open : Q; high : Q; low : Q; close : Q;
    volume : Z; count : Z; vwap : Q }.

(** A row of a returned frame: tagged with its symbol. *)
Record srow : Type := mk_srow { data : row; symbol : string }.

Definition DataFrame : Type := list srow.

(** [pd.DataFrame(bars)], the column renaming of line 134 and the reordering
    of line 145; the [datetime] column is the one line 141 makes the index.
    The numbers of a bar are kept as the JSON gives them: the dtype pandas
    chooses for a column (float64 for a column that mixes integers and
    fractions, which rounds an integer above 2^53) is not modelled. *)
Definition rename (b : bar) : row :=
  {| index := Bar.t b; open := Bar.o b; high := Bar.h b; low := Bar.l b;
     close := Bar.c b; volume := Bar.v b; count := Bar.n b; vwap := Bar.vw b |}.

(** The library functions the program calls on text and on instants. *)
Record library : Type := mk_library
  { (** zoneinfo, [US/Eastern]: the offset from UTC in force at an instant, in
        nanoseconds *)
    utcoffset : Z -> Z;
    (** [int(s)] on a string; [None] when it raises [ValueError] *)
    int_of_str : string -> option Z;
    (** [pd.to_datetime(s).date()] as it is printed; [None] when it raises *)
    to_date : string -> option string }.

(** What a global name of [cmds/alpaca_requests.py] can be bound to. *)
Inductive pyobject : Type :=
| time_module      (* the module [time] *)
| datetime_time.   (* the class [datetime.time] *)

Definition hasattr (obj : pyobject) (name : string) : bool :=
  match obj with
  | time_module =>
      existsb (String.eqb name)
        ["time"; "sleep"; "monotonic"; "perf_counter"; "gmtime"; "localtime";
         "mktime"; "strftime"; "strptime"; "time_ns"]
  | datetime_time =>
      existsb (String.eqb name)
        ["min"; "max"; "resolution"; "hour"; "minute"; "second";
         "microsecond"; "tzinfo"; "fold"; "replace"; "isoformat";
         "fromisoformat"; "strftime"; "utcoffset"; "dst"; "tzname"]
  end.

(** The globals of [cmds/alpaca_requests.py]: line 4 binds [dt], line 5
    ([from datetime import time]) binds [time]. *)
Module Globals.
Definition time : pyobject := datetime_time.
End Globals.

(* ===================================================================== *)
(** * The fetcher: [safe_get] and [download_intraday_dict] *)

Module Fetcher.

Inductive pyval : Type :=
| Str (s : string)
| Int (z : Z).

Record request : Type := mk_request
  { url : string; req_headers : dict string; params : dict pyval }.

(** The body of a response as [response.json()] reads it: the [bars] object
    (a missing key reads as the empty object, line 89) and the
    [next_page_token] field ([None] when missing or null). *)
Record payload : Type := mk_payload
  { bars : dict (list bar); next_page_token : option string }.

(** [json] is [None] when the body is not JSON. *)
Record response : Type := mk_response
  { status_code : Z; headers : dict string; json : option payload }.

(** [script]: the responses the server will give, in order; [clock]: the
    time in whole seconds; [sent]: the requests issued so far; [slept]: the
    arguments of the calls to [time.sleep] so far. *)
Record world : Type := mk_world
  { script : list response; clock : Z;
    sent : list request; slept : list Z }.

(** How a call ends.  [Waits]: the request was sent and the script has no
    response left for it.  [OutOfFuel] is never the result of
    [download_intraday_dict] (see [download_intraday_dict_fuel]). *)
Inductive outcome (A : Type) : Type :=
| Returns (a : A)
| Raises (e : exn)
| Waits
| OutOfFuel.
Arguments Returns {A} a.
Arguments Raises {A} e.
Arguments Waits {A}.
Arguments OutOfFuel {A}.

Section WithGlobals.

Variable lib : library.
(** the object the global name [time] is bound to *)
Variable time : pyobject.

(** Lines 24-32.  The loop runs once per response taken from the script. *)
Fixpoint safe_get_from (script : list response) (rq : request)
         (clock : Z) (sent : list request) (slept : list Z)
  : outcome response * world :=
  match script with
  | [] => (Waits, mk_world [] clock (sent ++ [rq]) slept)
  | response :: script' =>
      let sent' := sent ++ [rq] in
      if status_code response =? 429 then
        (* the default argument [time.time() + 60] is evaluated first *)
        if negb (hasattr time "time") then
          (Raises (AttributeError "type object 'datetime.time' has no attribute 'time'"),
           mk_world script' clock sent' slept)
        else
          match
            match get (headers response) "X-RateLimit-Reset" with
            | Some s => int_of_str lib s
            | None => Some (clock + 60)
            end
          with
          | None =>
              (Raises (ValueError "invalid literal for int() with base 10"),
               mk_world script' clock sent' slept)
          | Some reset_ts =>
              let sleep_seconds := Z.max (reset_ts - clock) 1 in
              if negb (hasattr time "sleep") then
                (Raises (AttributeError "type object 'datetime.time' has no attribute 'sleep'"),
                 mk_world script' clock sent' slept)
              else
                safe_get_from script' rq (clock + sleep_seconds) sent'
                              (slept ++ [sleep_seconds])
          end
      else
        (Returns response, mk_world script' clock sent' slept)
  end.

Definition safe_get (url : string) (headers : dict string)
           (params : dict pyval) (w : world) : outcome response * world :=
  safe_get_from (script w) (mk_request url headers params)
                (clock w) (sent w) (slept w).

(** Line 90: [symbol_bars.setdefault(symbol, []).extend(barlist)]. *)
Definition setdefault_extend (symbol_bars : dict (list bar))
           (symbol : string) (barlist : list bar) : dict (list bar) :=
  match get symbol_bars symbol with
  | Some old => set symbol_bars symbol (old ++ barlist)
  | None => set symbol_bars symbol ([] ++ barlist)
  end.

(** Lines 89-95, without the progress output. *)
Definition merge_page (symbol_bars : dict (list bar))
           (page : dict (list bar)) : dict (list bar) :=
  fold_left (fun acc sb => setdefault_extend acc (fst sb) (snd sb))
            page symbol_bars.

Definition BASE_URL : string := "https://data.alpaca.markets/v2/stocks/bars".

(** Lines 73-84. *)
Definition page_params (symbols timeframe start end_ : string) (limit : Z)
           (next_token : option string) : dict pyval :=
  let params :=
    [("symbols", Str symbols); ("timeframe", Str timeframe);
     ("start", Str start); ("end", Str end_); ("adjustment", Str "raw");
     ("feed", Str "sip"); ("sort", Str "asc"); ("limit", Int limit)] in
  match next_token with
  | Some tok => if truthy next_token then set params "page_token" (Str tok)
                else params
  | None => params
  end.

(** Lines 72-99: one unit of fuel per iteration of [while True]. *)
Fixpoint fetch_loop (fuel : nat) (headers : dict string)
         (symbols timeframe start end_ : string) (limit : Z)
         (symbol_bars : dict (list bar)) (next_token : option string)
         (w : world) : outcome (dict (list bar)) * world :=
  match fuel with
  | O => (OutOfFuel, w)
  | S fuel' =>
      let params := page_params symbols timeframe start end_ limit next_token in
      match safe_get BASE_URL headers params w with
      | (Returns response, w') =>
          match json response with
          | None => (Raises JSONDecodeError, w')
          | Some data =>
              let symbol_bars := merge_page symbol_bars (bars data) in
              let next_token := next_page_token data in
              if negb (truthy next_token) then (Returns symbol_bars, w')
              else fetch_loop fuel' headers symbols timeframe start end_
                              limit symbol_bars next_token w'
          end
      | (Raises e, w') => (Raises e, w')
      | (Waits, w') => (Waits, w')
      | (OutOfFuel, w') => (OutOfFuel, w')
      end
  end.

(** Lines 34-101.  Every iteration takes at least one response from the
    script, so one unit of fuel per scripted response, and one more, is
    enough. *)
Definition download_intraday_dict (symbols timeframe start end_ : string)
           (limit : Z) (api_key secret_key : string) (stocks : bool)
           (w : world) : outcome (dict (list bar)) * world :=
  if 10000 <? limit then
    (Raises (ValueError "limit must be <= 10000 (Alpaca API restriction)"), w)
  else if negb stocks then
    (Raises (UnboundLocalError "BASE_URL"), w)
  else
    let headers :=
      [("accept", "application/json"); ("APCA-API-KEY-ID", api_key);
       ("APCA-API-SECRET-KEY", secret_key)] in
    fetch_loop (S (List.length (script w))) headers symbols timeframe
               start end_ limit [] None w.

End WithGlobals.

End Fetcher.

(* ===================================================================== *)
(** * The cleaner: [download_intraday] *)

Module Cleaner.

(** The state of the loop over the dates, lines 148-163. *)
Record loop_state : Type := mk_state
  { temp_com_day_list : list (list row); com_day_count : Z;
    first : bool; skipped_day : bool }.

Section WithLibrary.

Variable lib : library.

Definition day_ns : Z := 86400 * 1000000000.

(** [tz_convert('US/Eastern')]: the wall-clock reading of an instant. *)
Definition wall (i : Z) : Z := i + utcoffset lib i.

(** [.date]: the local calendar date, in days since 1970-01-01. *)
Definition date (i : Z) : Z := wall i / day_ns.

(** [.dt.time]: the local time of day as a [datetime.time], which has
    microsecond resolution; it is represented by its number of
    microseconds since midnight, and the order of [datetime.time] is the
    order of these numbers. *)
Definition dt_time (i : Z) : Z := (wall i mod day_ns) / 1000.

(** [time(hour, minute)], a call of the class that line 5 binds to [time]. *)
Definition time (hour minute : Z) : Z :=
  (hour * 3600 + minute * 60) * 1000000.

(** [Series.between(lo, hi)], with its default [inclusive='both']. *)
Definition between (x lo hi : Z) : bool := (lo <=? x) && (x <=? hi).

(** The mask of line 138. *)
Definition in_session (r : row) : bool :=
  between (dt_time (index r)) (time 9 30) (time 15 55).

(** Lines 153-163, without the notices. *)
Definition day_step (temp_df : list row) (st : loop_state) (d : Z)
  : loop_state :=
  let temp_day_df :=
    select (map (fun r => date (index r) =? d) temp_df) temp_df in
  if (78 <=? List.length temp_day_df)%nat then
    {| temp_com_day_list := temp_com_day_list st ++ [temp_day_df];
       com_day_count := com_day_count st + 1;
       first := first st; skipped_day := skipped_day st |}
  else
    {| temp_com_day_list := temp_com_day_list st;
       com_day_count := com_day_count st;
       first := false; skipped_day := true |}.

(** Lines 131-181 for one symbol, without the output. *)
Definition clean_symbol (symbol : string) (bars : list bar)
  : result DataFrame :=
  match bars with
  | [] => Err (KeyError "datetime")   (* line 137: the frame has no column *)
  | _ =>
      let temp_df := map rename bars in
      let temp_df := select (map in_session temp_df) temp_df in
      let temp_date_range :=
        np_unique (map (fun r => date (index r)) temp_df) in
      let st :=
        fold_left (day_step temp_df) temp_date_range
                  (mk_state [] 0 true false) in
      bind (Pandas.concat (temp_com_day_list st)) (fun temp_df =>
      let temp_df :=
        select (map negb (duplicated (map index temp_df))) temp_df in
      match temp_df with
      | [] =>                         (* line 177: [temp_df.index[0]] *)
          Err (IndexError "index 0 is out of bounds for axis 0 with size 0")
      | _ => Ok (map (fun r => mk_srow r symbol) temp_df)
      end)
  end.

(** The loop of lines 130-181 over the keys of [symbol_bars]. *)
Fixpoint clean_each (symbol_bars : dict (list bar)) (todo : list string)
         (df_dict : dict DataFrame) : result (dict DataFrame) :=
  match todo with
  | [] => Ok df_dict
  | symbol :: todo' =>
      match get symbol_bars symbol with
      | None => Err (KeyError symbol)
      | Some bars =>
          bind (clean_symbol symbol bars) (fun temp_df =>
          clean_each symbol_bars todo' (set df_dict symbol temp_df))
      end
  end.

(** Lines 103-185. *)
Definition download_intraday (symbols timeframe start end_ : string)
           (limit : Z) (api_key secret_key : string) (w : Fetcher.world)
  : Fetcher.outcome (dict DataFrame) * Fetcher.world :=
  match Fetcher.download_intraday_dict lib Globals.time symbols timeframe
          start end_ limit api_key secret_key true w with
  | (Fetcher.Returns symbol_bars, w') =>
      match clean_each symbol_bars (keys symbol_bars) [] with
      | Ok df_dict => (Fetcher.Returns df_dict, w')
      | Err e => (Fetcher.Raises e, w')
      end
  | (Fetcher.Raises e, w') => (Fetcher.Raises e, w')
  | (Fetcher.Waits, w') => (Fetcher.Waits, w')
  | (Fetcher.OutOfFuel, w') => (Fetcher.OutOfFuel, w')
  end.

End WithLibrary.

End Cleaner.

(* ===================================================================== *)
(** * The aggregator: [stack_data] *)

Module DataPrep.

Definition stack_data (df_dict : dict DataFrame) : result DataFrame :=
  let df_list := values df_dict in
  Pandas.concat df_list.

End DataPrep.

(* ===================================================================== *)
(** * The driver: [scripts/download_data.py] *)

Module Driver.

Inductive status : Type :=
| Exit (code : Z)          (* [sys.exit(code)] *)
| Uncaught (e : exn)       (* an exception ends the script *)
| Completed                (* the script ran to its end *)
| Hangs                    (* waiting for the network *)
| Unknown.                 (* no fuel; never the result of [main] *)

(** [stdout] has the lines [main] itself prints; the progress lines of
    [download_intraday] go to the same stream and are left out.  [pickled]:
    the files written, the directory [data/symbols] being there and
    writable; [g_df_dict] and [g_stack_df]: the globals [df_dict] and
    [stack_df]. *)
Record run : Type := mk_run
  { stdout : list string; ended : status;
    pickled : list (string * DataFrame);
    g_df_dict : option (dict DataFrame);
    g_stack_df : option DataFrame;
    final : Fetcher.world }.

Definition usage : string :=
  "Usage: python download_data.py <SYMBOLS> <FREQ> <START_DATE> <END_DATE> <LIMIT> <API_KEY> <SECRET_KEY> (<STACK>)".

(** ['=' * 74] *)
Definition rule : string := String.concat EmptyString (repeat "=" 74%nat).

(** [s.replace(',', ', ')] *)
Fixpoint replace_commas (s : string) : string :=
  match s with
  | EmptyString => EmptyString
  | String ch s' =>
      if Ascii.eqb ch ","%char
      then String ","%char (String " "%char (replace_commas s'))
      else String ch (replace_commas s')
  end.

Section WithLibrary.

Variable lib : library.

Definition pkl_path (symbol startDate endDate freq : string) : string :=
  ("data/symbols/" ++ symbol ++ "_" ++ startDate ++ "_" ++ endDate ++ "_"
     ++ freq ++ ".pkl")%string.

Definition stopped (out : list string) (st : status) (w : Fetcher.world)
  : run :=
  mk_run out st [] None None w.

(** Lines 9-43.  [argv] is [sys.argv]: the script's name, then the
    arguments. *)
Definition main (argv : list string) (w : Fetcher.world) : run :=
  if (List.length argv <? 8)%nat || (9 <? List.length argv)%nat then
    stopped [usage] (Exit 1) w
  else if existsb (String.eqb (nth 1 argv EmptyString)) ["-h"; "--help"] then
    stopped [usage] (Exit 0) w
  else
    let symbols := nth 1 argv EmptyString in
    let freq := nth 2 argv EmptyString in
    let start := nth 3 argv EmptyString in
    let end_ := nth 4 argv EmptyString in
    let api_key := nth 6 argv EmptyString in
    let secret_key := nth 7 argv EmptyString in
    match int_of_str lib (nth 5 argv EmptyString) with
    | None =>
        stopped [] (Uncaught (ValueError "invalid literal for int() with base 10")) w
    | Some limit =>
    match to_date lib start with
    | None => stopped [] (Uncaught (ValueError "Unknown datetime string format")) w
    | Some startDate =>
    match to_date lib end_ with
    | None => stopped [] (Uncaught (ValueError "Unknown datetime string format")) w
    | Some endDate =>
        let out :=
          [("Downloading intraday data for " ++ replace_commas symbols
              ++ " from " ++ start ++ " to " ++ end_ ++ " at " ++ freq
              ++ " resolution...")%string] in
        match Cleaner.download_intraday lib symbols freq start end_ limit
                api_key secret_key w with
        | (Fetcher.Returns df_dict, w') =>
            let files :=
              map (fun sd => (pkl_path (fst sd) startDate endDate freq, snd sd))
                  df_dict in
            let out :=
              out ++ map (fun f => ("Saved " ++ fst f ++ " data to "
                                      ++ pkl_path (fst f) startDate endDate freq)%string)
                         df_dict in
            if (List.length argv =? 9)%nat then
              if String.eqb (nth 6 argv EmptyString) "stack" then
                match DataPrep.stack_data df_dict with
                | Ok stack_df =>
                    mk_run (out ++ [rule; "Data aggregared into stacked dataframe."])
                           Completed files (Some df_dict) (Some stack_df) w'
                | Err e =>
                    mk_run out (Uncaught e) files (Some df_dict) None w'
                end
              else mk_run out Completed files (Some df_dict) None w'
            else mk_run out Completed files (Some df_dict) None w'
        | (Fetcher.Raises e, w') => stopped out (Uncaught e) w'
        | (Fetcher.Waits, w') => stopped out Hangs w'
        | (Fetcher.OutOfFuel, w') => stopped out Unknown w'
        end
    end end end.

End WithLibrary.

End Driver.

(* ===================================================================== *)
(** * Closed forms of the cleaner's steps

    What the masks and the loop of [clean_symbol] compute, written with
    [filter]; [Facts] proves the code equal to them. *)

Module Closed.

(** [temp_df[~temp_df.index.duplicated(keep='first')]], with the indices
    already seen as an argument. *)
Fixpoint drop_dups (seen : list Z) (rows : list row) : list row :=
  match rows with
  | [] => []
  | r :: rows' =>
      if existsb (Z.eqb (index r)) seen
      then drop_dups (index r :: seen) rows'
      else r :: drop_dups (index r :: seen) rows'
  end.

(** Each entry is related to the next one. *)
Fixpoint adjacent (cmp : Z -> Z -> bool) (l : list Z) : bool :=
  match l with
  | [] => true
  | x :: l' =>
      match l' with
      | [] => true
      | y :: _ => cmp x y && adjacent cmp l'
      end
  end.

Definition strictly_increasing : list Z -> bool := adjacent Z.ltb.
Definition ascending : list Z -> bool := adjacent Z.leb.

(** The timestamps of a returned frame. *)
Definition timestamps (df : DataFrame) : list Z :=
  map (fun r => index (data r)) df.

Section WithLibrary.

Variable lib : library.

(** The rows of the first [temp_df] of line 138: the renamed bars inside
    the session window. *)
Definition session_rows (bars : list bar) : list row :=
  filter (Cleaner.in_session lib) (map rename bars).

(** The rows of [rows] on the local date [d]. *)
Definition on_date (d : Z) (rows : list row) : list row :=
  filter (fun r => Cleaner.date lib (index r) =? d) rows.

(** The test of line 155 for the date [d]. *)
Definition complete (rows : list row) (d : Z) : bool :=
  (78 <=? List.length (on_date d rows))%nat.

(** The frames line 168 concatenates. *)
Definition complete_days (rows : list row) : list (list row) :=
  filter (fun g => (78 <=? List.length g)%nat)
         (map (fun d => on_date d rows)
              (np_unique (map (fun r => Cleaner.date lib (index r)) rows))).

End WithLibrary.

End Closed.

(* ===================================================================== *)
(** * Closed forms of the fetcher's loop *)

Module Paging.

Import Fetcher.

(** The accumulator after the pages [pages], lines 89-90 page after page. *)
Definition merge_pages (pages : list payload) (symbol_bars : dict (list bar))
  : dict (list bar) :=
  fold_left (fun acc page => merge_page acc (bars page)) pages symbol_bars.

(** The bars a page has for [symbol], in the page's order. *)
Definition entries (page : dict (list bar)) (symbol : string) : list bar :=
  List.concat (map snd (filter (fun sb => String.eqb symbol (fst sb)) page)).

Definition mentions (page : dict (list bar)) (symbol : string) : bool :=
  existsb (fun sb => String.eqb symbol (fst sb)) page.

(** The requests of the loop for the pages [pages], the first one with the
    token [next_token]. *)
Fixpoint page_requests (headers : dict string)
         (symbols timeframe start end_ : string) (limit : Z)
         (next_token : option string) (pages : list payload) : list request :=
  match pages with
  | [] => []
  | page :: pages' =>
      mk_request BASE_URL headers
                 (page_params symbols timeframe start end_ limit next_token)
        :: page_requests headers symbols timeframe start end_ limit
                         (next_page_token page) pages'
  end.

(** The headers of lines 64-68. *)
Definition auth_headers (api_key secret_key : string) : dict string :=
  [("accept", "application/json"); ("APCA-API-KEY-ID", api_key);
   ("APCA-API-SECRET-KEY", secret_key)].

End Paging.

(* ===================================================================== *)
(** * The cleaner with what it prints *)

Module Report.

(** A line of the output of lines 152-177, with the values its format string
    shows. *)
Inductive line : Type :=
| Rule                                    (* line 160 and line 166 *)
| Incomplete (symbol : string) (date : Z) (bars : nat)        (* line 163 *)
| DuplicateWarning (symbol : string) (dupes : nat)            (* line 172 *)
| Dashes                                                      (* line 176 *)
| Downloaded (symbol timeframe : string) (first last : Z)
             (com_day_count : Z).                             (* line 177 *)

Section WithLibrary.

Variable lib : library.

(** What one pass of the loop of lines 152-163 prints, in the state [st] it
    starts in. *)
Definition day_lines (symbol : string) (temp_df : list row)
           (st : Cleaner.loop_state) (d : Z) : list line :=
  let temp_day_df :=
    select (map (fun r => Cleaner.date lib (index r) =? d) temp_df) temp_df in
  if (78 <=? List.length temp_day_df)%nat then []
  else (if Cleaner.first st then [Rule] else [])
         ++ [Incomplete symbol d (List.length temp_day_df)].

Definition day_step_out (symbol : string) (temp_df : list row)
           (acc : list line * Cleaner.loop_state) (d : Z)
  : list line * Cleaner.loop_state :=
  (fst acc ++ day_lines symbol temp_df (snd acc) d,
   Cleaner.day_step lib temp_df (snd acc) d).

(** [temp_df.index[-1]] of a frame that is not empty. *)
Definition last_index (r0 : row) (temp_df : list row) : Z :=
  index (last temp_df r0).

(** Lines 131-181 for one symbol: the lines printed, and the table or the
    exception. *)
Definition clean_symbol_out (symbol timeframe : string) (bars : list bar)
  : list line * result DataFrame :=
  match bars with
  | [] => ([], Err (KeyError "datetime"))
  | _ =>
      let temp_df := map rename bars in
      let temp_df := select (map (Cleaner.in_session lib) temp_df) temp_df in
      let temp_date_range :=
        np_unique (map (fun r => Cleaner.date lib (index r)) temp_df) in
      let looped :=
        fold_left (day_step_out symbol temp_df) temp_date_range
                  ([], Cleaner.mk_state [] 0 true false) in
      let st := snd looped in
      let out := if Cleaner.first st then fst looped ++ [Rule] else fst looped in
      match Pandas.concat (Cleaner.temp_com_day_list st) with
      | Err e => (out, Err e)
      | Ok temp_df =>
          let dupes := mask_sum (duplicated (map index temp_df)) in
          let out :=
            if (0 <? dupes)%nat then out ++ [DuplicateWarning symbol dupes]
            else out in
          let temp_df :=
            select (map negb (duplicated (map index temp_df))) temp_df in
          let out := if Cleaner.skipped_day st then out ++ [Dashes] else out in
          match temp_df with
          | [] =>
              (out, Err (IndexError "index 0 is out of bounds for axis 0 with size 0"))
          | r0 :: _ =>
              (out ++ [Downloaded symbol timeframe (index r0)
                                  (last_index r0 temp_df)
                                  (Cleaner.com_day_count st)],
               Ok (map (fun r => mk_srow r symbol) temp_df))
          end
      end
  end.

End WithLibrary.

End Report.

(* ===================================================================== *)
(** * Closed forms of what the cleaner prints *)

Module ReportClosed.

Import Report.

Section WithLibrary.

Variable lib : library.

(** The notices of line 163 for the dates [ds]: one for each date with fewer
    than 78 rows, with its number of rows. *)
Definition notices (sym : string) (rows : list row) (ds : list Z) : list line :=
  map (fun d => Incomplete sym d (List.length (Closed.on_date lib d rows)))
      (filter (fun d => negb (Closed.complete lib rows d)) ds).

(** The dates of the rows inside the window, as line 147 lists them. *)
Definition window_dates (bars : list bar) : list Z :=
  np_unique (map (fun r => Cleaner.date lib (index r))
                 (Closed.session_rows lib bars)).

(** The rows line 168 puts together, before the duplicates are dropped. *)
Definition concatenated (bars : list bar) : list row :=
  List.concat (Closed.complete_days lib (Closed.session_rows lib bars)).

End WithLibrary.

(** A line that is neither the rule nor a notice of an incomplete date. *)
Definition after_notices (l : line) : bool :=
  match l with
  | Rule | Incomplete _ _ _ => false
  | _ => true
  end.

End ReportClosed.

(* ===================================================================== *)
(** * Changing what the server answers *)

Module Server.

Import Fetcher.

(** The response with its status replaced by 200, unless it is a 429. *)
Definition as_ok (r : response) : response :=
  if status_code r =? 429 then r
  else mk_response 200 (headers r) (json r).

(** The world with every response of its script changed by [f]. *)
Definition answering (f : response -> response) (w : world) : world :=
  mk_world (map f (script w)) (clock w) (sent w) (slept w).

End Server.

(* ===================================================================== *)
(** * Concrete inputs *)

Module Sample.

(** Eastern Standard Time, the offset [US/Eastern] has in January: five
    hours behind UTC.  The cleaner reads the offset at the instants of the
    bars only ([CleanerFacts.clean_symbol_offsets]), and the bars below are
    all of 3 January 2022.  [int] reads plain decimal numerals; the date of an
    ISO-8601 text is its first ten characters. *)
Definition est : library :=
  {| utcoffset := fun _ => - (5 * 3600 * 1000000000);
     int_of_str := fun s => option_map Z.of_int (NilZero.int_of_string s);
     to_date := fun s => if (10 <=? String.length s)%nat
                         then Some (substring 0 10 s) else None |}.

(** The instant at which the Eastern Standard wall clock reads
    [hour:minute] on the day [day] (days since 1970-01-01). *)
Definition at_ (day hour minute : Z) : Z :=
  (((day * 24 + hour + 5) * 60 + minute) * 60) * 1000000000.

Definition bar_at (i : Z) : bar :=
  Bar.mk i (Qmake 100 1) (Qmake 101 1) (Qmake 99 1) (Qmake 100 1) 1000 10 (Qmake 100 1).

(** [k] bars five minutes apart, the first at [hour:minute] on [day]. *)
Definition bars_from (day hour minute : Z) (k : nat) : list bar :=
  map (fun j => bar_at (at_ day hour (minute + 5 * Z.of_nat j))) (seq 0 k).

(** 2022-01-03, a Monday. *)
Definition monday : Z := 18995.

(** The 78 five-minute bars from 09:30 to 15:55. *)
Definition full_session : list bar := bars_from monday 9 30 78.

(** 78 bars with 77 distinct instants, the first two out of order: 09:35,
    09:30, then 09:40 to 15:50, then 09:30 again. *)
Definition swapped_with_repeat : list bar :=
  bar_at (at_ monday 9 35) :: bar_at (at_ monday 9 30)
    :: bars_from monday 9 40 75 ++ [bar_at (at_ monday 9 30)].

(** 79 bars: 09:30, 09:35, 09:30 again, then 09:40 to 15:55. *)
Definition repeat_out_of_order : list bar :=
  bar_at (at_ monday 9 30) :: bar_at (at_ monday 9 35)
    :: bar_at (at_ monday 9 30) :: bars_from monday 9 40 76.

Definition tagged (symbol : string) (bars : list bar) : DataFrame :=
  map (fun b => mk_srow (rename b) symbol) bars.

Definition ok_response (page : Fetcher.payload) : Fetcher.response :=
  Fetcher.mk_response 200 [("Content-Type", "application/json")] (Some page).

Definition throttled : Fetcher.response :=
  Fetcher.mk_response 429 [("X-RateLimit-Reset", "1641220260")] None.

Definition world_of (script : list Fetcher.response) : Fetcher.world :=
  Fetcher.mk_world script 1641220200 [] [].

(** The server answers the first request with all the bars of AAPL. *)
Definition one_page (bars : list bar) : Fetcher.world :=
  world_of [ok_response (Fetcher.mk_payload [("AAPL", bars)] None)].

(** Two pages: the morning with a continuation token, then the rest. *)
Definition morning_page : Fetcher.payload :=
  Fetcher.mk_payload [("AAPL", bars_from monday 9 30 40)] (Some "QUFQTHwyMDIy").

Definition afternoon_page : Fetcher.payload :=
  Fetcher.mk_payload [("AAPL", bars_from monday 12 50 38)] None.

Definition two_pages : Fetcher.world :=
  world_of [ok_response morning_page; ok_response afternoon_page].

(** The server throttles the first request and answers the second. *)
Definition throttled_once : Fetcher.world :=
  world_of [throttled;
            ok_response (Fetcher.mk_payload [("AAPL", full_session)] None)].

Definition start : string := "2022-01-03T09:30:00-05:00".
Definition end_ : string := "2022-01-04T09:30:00-05:00".

(** [sys.argv] of a run with the optional argument [stack]. *)
Definition argv_stack : list string :=
  ["download_data.py"; "AAPL"; "5Min"; start; end_; "10000"; "PKTEST";
   "s3cr3t"; "stack"].

(** [sys.argv] of a run whose API key is the text [stack]. *)
Definition argv_key_stack : list string :=
  ["download_data.py"; "AAPL"; "5Min"; start; end_; "10000"; "stack";
   "s3cr3t"; "no"].

(** [US/Eastern] in 2022: daylight time, four hours behind UTC, from
    13 March 07:00 UTC to 6 November 06:00 UTC, and standard time outside. *)
Definition eastern_2022 : library :=
  {| utcoffset := fun i =>
       if (1647154800000000000 <=? i) && (i <? 1667714400000000000)
       then - (4 * 3600 * 1000000000)
       else - (5 * 3600 * 1000000000);
     int_of_str := int_of_str est;
     to_date := to_date est |}.

(** 4 January 2022. *)
Definition tuesday : Z := 18996.

(** Two symbols in one page: AAPL on Monday, MSFT on Tuesday. *)
Definition both_series : dict (list bar) :=
  [("AAPL", full_session); ("MSFT", bars_from tuesday 9 30 78)].

Definition two_symbols : Fetcher.world :=
  world_of [ok_response (Fetcher.mk_payload both_series None)].

(** 40 bars on Monday, the 78 bars of Tuesday, and the bar of Tuesday 09:30
    once more. *)
Definition short_and_full_days : list bar :=
  bars_from monday 9 30 40 ++ bars_from tuesday 9 30 78
    ++ [bar_at (at_ tuesday 9 30)].

(** The server answers the first request with a page that has a token and
    throttles the second. *)
Definition throttled_after_first_page : Fetcher.world :=
  world_of [ok_response morning_page; throttled].

(** [sys.argv] of a run with a page limit of 20000. *)
Definition argv_limit_20000 : list string :=
  ["download_data.py"; "AAPL"; "5Min"; start; end_; "20000"; "PKTEST";
   "s3cr3t"].

End Sample.

(* ===================================================================== *)
(** * Facts about lists, [np.unique] and [duplicated] *)

Module ListFacts.

Lemma select_map_filter {A} (f : A -> bool) (l : list A) :
  select (map f l) l = filter f l.
Proof.
  induction l as [|x l IH]; simpl; [reflexivity|].
  rewrite IH. reflexivity.
Qed.

Lemma in_insert_unique x y l :
  In y (insert_unique x l) <-> y = x \/ In y l.
Proof.
  induction l as [|z l IH]; simpl.
  - intuition.
  - destruct (Z.ltb_spec x z) as [Hlt|Hge].
    + simpl. intuition.
    + destruct (Z.eqb_spec x z) as [->|Hne]; simpl.
      * intuition.
      * rewrite IH. intuition.
Qed.

Lemma in_np_unique y l : In y (np_unique l) <-> In y l.
Proof.
  induction l as [|x l IH]; simpl; [tauto|].
  rewrite in_insert_unique, IH. intuition.
Qed.

Lemma insert_unique_sorted x l :
  StronglySorted Z.lt l -> StronglySorted Z.lt (insert_unique x l).
Proof.
  induction 1 as [|z l Hs IH Hall]; simpl.
  - repeat constructor.
  - destruct (Z.ltb_spec x z) as [Hlt|Hge].
    + constructor; [constructor; assumption|].
      constructor; [assumption|].
      eapply Forall_impl; [|exact Hall]. intros a Ha. simpl in Ha. lia.
    + destruct (Z.eqb_spec x z) as [->|Hne].
      * constructor; assumption.
      * constructor; [assumption|].
        apply Forall_forall. intros a Ha.
        apply in_insert_unique in Ha. destruct Ha as [->|Ha]; [lia|].
        rewrite Forall_forall in Hall. auto.
Qed.

Lemma np_unique_sorted l : StronglySorted Z.lt (np_unique l).
Proof.
  induction l as [|x l IH]; simpl; [constructor|].
  apply insert_unique_sorted, IH.
Qed.

Lemma existsb_eqb_in i seen : existsb (Z.eqb i) seen = true <-> In i seen.
Proof.
  rewrite existsb_exists. split.
  - intros [x [Hin Heq]]. apply Z.eqb_eq in Heq. subst. assumption.
  - intros Hin. exists i. split; [assumption | apply Z.eqb_refl].
Qed.

(** The mask indexing of line 173 is [drop_dups]. *)
Lemma select_duplicated seen rows :
  select (map negb (duplicated_from seen (map index rows))) rows
  = Closed.drop_dups seen rows.
Proof.
  revert seen. induction rows as [|r rows IH]; intros seen; simpl.
  - reflexivity.
  - destruct (existsb (Z.eqb (index r)) seen); simpl; rewrite IH; reflexivity.
Qed.

Lemma in_drop_dups r seen rows :
  In r (Closed.drop_dups seen rows) -> In r rows /\ ~ In (index r) seen.
Proof.
  revert seen. induction rows as [|x rows IH]; intros seen; simpl.
  - tauto.
  - destruct (existsb (Z.eqb (index x)) seen) eqn:E.
    + intros H. apply IH in H. simpl in H. intuition.
    + intros [->|H].
      * split; [auto|]. rewrite <- existsb_eqb_in. congruence.
      * apply IH in H. simpl in H. intuition.
Qed.

(** Every index of the frame that was not seen before survives. *)
Lemma drop_dups_keeps_index r seen rows :
  In r rows -> ~ In (index r) seen ->
  exists r', In r' (Closed.drop_dups seen rows) /\ index r' = index r.
Proof.
  revert seen. induction rows as [|x rows IH]; intros seen; simpl.
  - tauto.
  - intros Hin Hseen.
    destruct (existsb (Z.eqb (index x)) seen) eqn:E.
    + destruct Hin as [->|Hin].
      * apply existsb_eqb_in in E. contradiction.
      * destruct (IH (index x :: seen) Hin) as [r' [H1 H2]].
        { simpl. intros [Heq|H]; [|contradiction].
          apply existsb_eqb_in in E. rewrite Heq in E. contradiction. }
        eauto.
    + destruct Hin as [->|Hin].
      * exists r. simpl. auto.
      * destruct (Z.eq_dec (index x) (index r)) as [Heq|Hne].
        -- exists x. simpl. auto.
        -- destruct (IH (index x :: seen) Hin) as [r' [H1 H2]].
           { simpl. tauto. }
           exists r'. simpl. auto.
Qed.


Lemma drop_dups_sorted (f : row -> Z) (R : Z -> Z -> Prop) seen rows :
  StronglySorted R (map f rows) ->
  StronglySorted R (map f (Closed.drop_dups seen rows)).
Proof.
  revert seen. induction rows as [|x rows IH]; intros seen; simpl.
  - constructor.
  - intros Hs. inversion Hs as [|? ? Hs' Hall]; subst.
    destruct (existsb (Z.eqb (index x)) seen); [apply IH; assumption|].
    simpl. constructor; [apply IH; assumption|].
    rewrite Forall_forall in *. intros i Hi.
    apply in_map_iff in Hi. destruct Hi as [r' [<- Hin]].
    apply in_drop_dups in Hin. destruct Hin as [Hin _].
    apply Hall, in_map, Hin.
Qed.

Lemma filter_sorted {A} (f : A -> Z) (R : Z -> Z -> Prop) (p : A -> bool) l :
  StronglySorted R (map f l) -> StronglySorted R (map f (filter p l)).
Proof.
  induction l as [|x l IH]; simpl; [constructor|].
  intros Hs. inversion Hs as [|? ? Hs' Hall]; subst.
  destruct (p x); [|apply IH; assumption].
  simpl. constructor; [apply IH; assumption|].
  rewrite Forall_forall in *. intros i Hi.
  apply in_map_iff in Hi. destruct Hi as [y [<- Hin]].
  apply filter_In in Hin. apply Hall, in_map, Hin.
Qed.

Lemma sorted_app {A} (R : A -> A -> Prop) l1 l2 :
  StronglySorted R l1 -> StronglySorted R l2 ->
  (forall x y, In x l1 -> In y l2 -> R x y) ->
  StronglySorted R (l1 ++ l2).
Proof.
  induction 1 as [|x l1 Hs IH Hall]; intros H2 Hx; simpl; [assumption|].
  constructor.
  - apply IH; [assumption|]. intros a b Ha Hb. apply Hx; simpl; auto.
  - rewrite Forall_forall in *. intros y Hy. apply in_app_or in Hy.
    destruct Hy as [Hy|Hy]; [auto | apply Hx; simpl; auto].
Qed.

(** A frame without repeated indices is left as it is. *)
Lemma drop_dups_id seen rows :
  NoDup (map index rows) ->
  (forall r, In r rows -> ~ In (index r) seen) ->
  Closed.drop_dups seen rows = rows.
Proof.
  revert seen. induction rows as [|x rows IH]; intros seen; simpl.
  - reflexivity.
  - intros Hnd Hseen. inversion Hnd as [|? ? Hx Hnd']; subst.
    destruct (existsb (Z.eqb (index x)) seen) eqn:E.
    + apply existsb_eqb_in in E. exfalso. apply (Hseen x); auto.
    + f_equal. apply IH; [assumption|].
      intros r Hr [Heq|Hin].
      * apply Hx. rewrite Heq. apply in_map, Hr.
      * apply (Hseen r); auto.
Qed.

(** Selecting the rows of some dates commutes with dropping duplicates,
    for a selection that looks at the index only. *)
Lemma filter_drop_dups (p : Z -> bool) seen1 seen2 rows :
  (forall i, p i = true -> (In i seen1 <-> In i seen2)) ->
  filter (fun r => p (index r)) (Closed.drop_dups seen1 rows)
  = Closed.drop_dups seen2 (filter (fun r => p (index r)) rows).
Proof.
  revert seen1 seen2. induction rows as [|x rows IH]; intros seen1 seen2 Hs; simpl.
  - reflexivity.
  - destruct (p (index x)) eqn:Hp; simpl.
    + assert (E : existsb (Z.eqb (index x)) seen1 = existsb (Z.eqb (index x)) seen2).
      { apply eq_true_iff_eq. rewrite !existsb_eqb_in. apply Hs, Hp. }
      rewrite <- E.
      destruct (existsb (Z.eqb (index x)) seen1); simpl; [|rewrite Hp].
      * apply IH. intros i Hi. simpl. rewrite (Hs i Hi). tauto.
      * f_equal. apply IH. intros i Hi. simpl. rewrite (Hs i Hi). tauto.
    + assert (Hs' : forall i, p i = true -> (In i (index x :: seen1) <-> In i seen2)).
      { intros i Hi. simpl. rewrite <- (Hs i Hi). split; [|tauto].
        intros [Heq|H]; [|assumption]. congruence. }
      destruct (existsb (Z.eqb (index x)) seen1); simpl; [|rewrite Hp];
        apply IH; assumption.
Qed.


Lemma adjacent_sorted cmp (R : Z -> Z -> Prop) (l : list Z) :
  (forall x y, cmp x y = true <-> R x y) ->
  Closed.adjacent cmp l = true <-> Sorted R l.
Proof.
  intros Hcmp. induction l as [|x l IH]; [split; [constructor | reflexivity]|].
  destruct l as [|y l].
  - split; [repeat constructor | reflexivity].
  - cbn [Closed.adjacent]. rewrite andb_true_iff, IH, Hcmp. split.
    + intros [Hxy Hl]. constructor; [exact Hl | constructor; exact Hxy].
    + intros H. inversion H as [|? ? Hl Hhd]; subst.
      inversion Hhd; subst. auto.
Qed.

Lemma strictly_increasing_sorted (l : list Z) :
  Closed.strictly_increasing l = true <-> StronglySorted Z.lt l.
Proof.
  unfold Closed.strictly_increasing.
  rewrite (adjacent_sorted Z.ltb Z.lt l Z.ltb_lt). split.
  - apply Sorted_StronglySorted. intros x y z. apply Z.lt_trans.
  - apply StronglySorted_Sorted.
Qed.

Lemma ascending_sorted (l : list Z) :
  Closed.ascending l = true <-> Sorted Z.le l.
Proof.
  apply adjacent_sorted. apply Z.leb_le.
Qed.


Lemma sorted_lt_NoDup (l : list Z) : StronglySorted Z.lt l -> NoDup l.
Proof.
  induction 1 as [|x l Hs IH Hall]; constructor; [|assumption].
  intros Hin. rewrite Forall_forall in Hall. specialize (Hall x Hin). lia.
Qed.


End ListFacts.

(* ===================================================================== *)
(** * The cleaner computes its closed form *)

Module CleanerFacts.

Import ListFacts Closed.

Local Arguments Nat.leb : simpl never.

Section WithLibrary.

Variable lib : library.

Local Abbreviation date := (Cleaner.date lib).
Local Abbreviation row_date := (fun r : row => Cleaner.date lib (index r)).

Lemma in_on_date r d rows :
  In r (on_date lib d rows) <-> In r rows /\ date (index r) = d.
Proof.
  unfold on_date. rewrite filter_In, Z.eqb_eq. reflexivity.
Qed.

Lemma on_date_on_date d d' rows :
  on_date lib d (on_date lib d' rows)
  = if d =? d' then on_date lib d rows else [].
Proof.
  unfold on_date. induction rows as [|r rows IH]; simpl.
  - destruct (d =? d'); reflexivity.
  - destruct (Z.eqb_spec (date (index r)) d') as [E'|E']; simpl.
    + destruct (Z.eqb_spec (date (index r)) d) as [E|E]; simpl.
      * rewrite IH. subst. rewrite Z.eqb_refl. reflexivity.
      * rewrite IH. destruct (Z.eqb_spec d d'); [congruence | reflexivity].
    + rewrite IH. destruct (Z.eqb_spec d d') as [->|Hne]; [|reflexivity].
      destruct (Z.eqb_spec (date (index r)) d'); [contradiction | reflexivity].
Qed.

(** The loop of lines 152-163 appends the frames of the complete dates, in
    the order of [temp_date_range]. *)
Lemma loop_days rows ds st :
  Cleaner.temp_com_day_list (fold_left (Cleaner.day_step lib rows) ds st)
  = Cleaner.temp_com_day_list st
      ++ filter (fun g => (78 <=? List.length g)%nat)
                (map (fun d => on_date lib d rows) ds).
Proof.
  revert st. induction ds as [|d ds IH]; intros st; simpl.
  - rewrite app_nil_r. reflexivity.
  - rewrite IH. unfold Cleaner.day_step.
    rewrite select_map_filter. fold (on_date lib d rows).
    destruct (78 <=? List.length (on_date lib d rows))%nat; simpl.
    + rewrite <- app_assoc. reflexivity.
    + reflexivity.
Qed.

(** [com_day_count] counts the frames appended. *)
Lemma loop_count rows ds st :
  Cleaner.com_day_count (fold_left (Cleaner.day_step lib rows) ds st)
  = Cleaner.com_day_count st
    + Z.of_nat (List.length
                  (filter (fun g => (78 <=? List.length g)%nat)
                          (map (fun d => on_date lib d rows) ds))).
Proof.
  revert st. induction ds as [|d ds IH]; intros st; simpl.
  - lia.
  - rewrite IH. unfold Cleaner.day_step.
    rewrite select_map_filter. fold (on_date lib d rows).
    destruct (78 <=? List.length (on_date lib d rows))%nat; simpl; lia.
Qed.

(** [clean_symbol], with the masks and the loop in closed form. *)
Lemma clean_symbol_closed symbol bars :
  Cleaner.clean_symbol lib symbol bars
  = match bars with
    | [] => Err (KeyError "datetime")
    | _ =>
        bind (Pandas.concat (complete_days lib (session_rows lib bars)))
             (fun temp_df =>
                match drop_dups [] temp_df with
                | [] => Err (IndexError "index 0 is out of bounds for axis 0 with size 0")
                | rows => Ok (map (fun r => mk_srow r symbol) rows)
                end)
    end.
Proof.
  destruct bars as [|b bars]; [reflexivity|].
  unfold Cleaner.clean_symbol.
  rewrite select_map_filter. fold (session_rows lib (b :: bars)).
  rewrite loop_days. simpl app. fold (complete_days lib (session_rows lib (b :: bars))).
  destruct (Pandas.concat (complete_days lib (session_rows lib (b :: bars))))
    as [temp_df|e]; simpl; [|reflexivity].
  unfold duplicated. rewrite select_duplicated.
  destruct (drop_dups [] temp_df); reflexivity.
Qed.

(** Rows of the concatenated frame: the rows of the complete dates. *)
Lemma in_days_of r rows ds :
  In r (List.concat (filter (fun g => (78 <=? List.length g)%nat)
                            (map (fun d => on_date lib d rows) ds)))
  <-> In r rows /\ In (date (index r)) ds
      /\ complete lib rows (date (index r)) = true.
Proof.
  rewrite in_concat. split.
  - intros [g [Hg Hr]]. apply filter_In in Hg. destruct Hg as [Hg Hbig].
    apply in_map_iff in Hg. destruct Hg as [d [<- Hd]].
    apply in_on_date in Hr. destruct Hr as [Hr Hdate]. subst d.
    unfold complete. auto.
  - intros [Hr [Hd Hbig]]. exists (on_date lib (date (index r)) rows). split.
    + apply filter_In. split; [|exact Hbig].
      apply in_map_iff. eauto.
    + apply in_on_date. auto.
Qed.

Lemma complete_has_row rows d :
  complete lib rows d = true -> exists r, In r rows /\ date (index r) = d.
Proof.
  unfold complete. intros H. apply Nat.leb_le in H.
  destruct (on_date lib d rows) as [|r g] eqn:E; [simpl in H; lia|].
  exists r. apply in_on_date. rewrite E. simpl. auto.
Qed.

Lemma in_complete_days r rows :
  In r (List.concat (complete_days lib rows))
  <-> In r rows /\ complete lib rows (date (index r)) = true.
Proof.
  unfold complete_days. rewrite in_days_of. split; [tauto|].
  intros [Hr Hc]. repeat split; try assumption.
  apply in_np_unique. apply (in_map row_date), Hr.
Qed.

(** The concatenation of line 168 fails exactly when no date is complete. *)
Lemma complete_days_nil rows :
  complete_days lib rows = [] <-> forall d, complete lib rows d = false.
Proof.
  split.
  - intros E d. destruct (complete lib rows d) eqn:Hc; [|reflexivity].
    destruct (complete_has_row _ _ Hc) as [r [Hr Hd]]. subst d.
    assert (H : In r (List.concat (complete_days lib rows))).
    { apply in_complete_days. auto. }
    rewrite E in H. destruct H.
  - intros H. unfold complete_days.
    destruct (filter _ _) as [|g gs] eqn:E; [reflexivity|].
    assert (Hg : In g (g :: gs)) by (simpl; auto).
    rewrite <- E in Hg. apply filter_In in Hg. destruct Hg as [Hg Hbig].
    apply in_map_iff in Hg. destruct Hg as [d [<- _]].
    unfold complete in H. rewrite H in Hbig. discriminate.
Qed.

Lemma complete_days_rows_nonempty rows :
  complete_days lib rows <> [] -> List.concat (complete_days lib rows) <> [].
Proof.
  intros Hne E. apply Hne. apply complete_days_nil. intros d.
  destruct (complete lib rows d) eqn:Hc; [|reflexivity].
  destruct (complete_has_row _ _ Hc) as [r [Hr Hd]]. subst d.
  assert (H : In r (List.concat (complete_days lib rows))).
  { apply in_complete_days. auto. }
  rewrite E in H. destruct H.
Qed.

Lemma drop_dups_nonempty rows : rows <> [] -> drop_dups [] rows <> [].
Proof.
  destruct rows as [|r rows]; [congruence|]. simpl. discriminate.
Qed.

(** When [clean_symbol] returns, and what. *)
Lemma clean_symbol_ok symbol bars df :
  Cleaner.clean_symbol lib symbol bars = Ok df <->
  bars <> [] /\ complete_days lib (session_rows lib bars) <> [] /\
  df = map (fun r => mk_srow r symbol)
           (drop_dups [] (List.concat (complete_days lib (session_rows lib bars)))).
Proof.
  rewrite clean_symbol_closed.
  destruct bars as [|b bars].
  - split; [discriminate | intros [H _]; congruence].
  - set (days := complete_days lib (session_rows lib (b :: bars))).
    assert (Hne := @complete_days_rows_nonempty (session_rows lib (b :: bars))).
    fold days in Hne.
    destruct days as [|g gs] eqn:E.
    + simpl. split; [discriminate | intros [_ [H _]]; congruence].
    + unfold Pandas.concat, bind.
      assert (Hc : List.concat (g :: gs) <> []) by (apply Hne; discriminate).
      apply drop_dups_nonempty in Hc.
      destruct (drop_dups [] (List.concat (g :: gs))) as [|r rs] eqn:E2;
        [congruence|].
      split.
      * intros H. inversion H. repeat split; discriminate.
      * intros [_ [_ ->]]. reflexivity.
Qed.

(** The concatenated frame is ordered by any key that is ordered inside
    each date and across dates. *)
Lemma days_sorted_by (f : row -> Z) (R : Z -> Z -> Prop) rows ds :
  StronglySorted Z.lt ds ->
  (forall d, StronglySorted R (map f (on_date lib d rows))) ->
  (forall r1 r2, In r1 rows -> In r2 rows ->
                 date (index r1) < date (index r2) -> R (f r1) (f r2)) ->
  StronglySorted R
    (map f (List.concat (filter (fun g => (78 <=? List.length g)%nat)
                                (map (fun d => on_date lib d rows) ds)))).
Proof.
  intros Hds Hin Hcross.
  induction Hds as [|d ds Hs IH Hall]; simpl; [constructor|].
  destruct (78 <=? List.length (on_date lib d rows))%nat; [|exact IH].
  simpl. rewrite map_app. apply sorted_app; [apply Hin | exact IH |].
  intros x y Hx Hy.
  apply in_map_iff in Hx. destruct Hx as [r1 [<- H1]].
  apply in_map_iff in Hy. destruct Hy as [r2 [<- H2]].
  apply in_on_date in H1. destruct H1 as [H1 E1].
  apply in_days_of in H2. destruct H2 as [H2 [Hd2 _]].
  apply Hcross; try assumption.
  rewrite Forall_forall in Hall. specialize (Hall _ Hd2). lia.
Qed.

Lemma on_date_constant d rows :
  StronglySorted Z.le (map row_date (on_date lib d rows)).
Proof.
  assert (H : forall r, In r (on_date lib d rows) -> date (index r) = d).
  { intros r Hr. apply in_on_date in Hr. tauto. }
  induction (on_date lib d rows) as [|x g IH]; simpl; [constructor|].
  constructor.
  - apply IH. intros r Hr. apply H. simpl. auto.
  - apply Forall_forall. intros i Hi. apply in_map_iff in Hi.
    destruct Hi as [r [<- Hr]].
    rewrite (H x), (H r); simpl; auto. lia.
Qed.

(** The dates of the concatenated frame never decrease. *)
Lemma complete_days_dates_sorted rows :
  StronglySorted Z.le (map row_date (List.concat (complete_days lib rows))).
Proof.
  unfold complete_days.
  apply (@days_sorted_by row_date Z.le rows).
  - apply np_unique_sorted.
  - intros d. apply on_date_constant.
  - intros. lia.
Qed.

(** The rows of one date in the concatenated frame. *)
Lemma on_date_days_of d rows ds :
  NoDup ds ->
  on_date lib d (List.concat (filter (fun g => (78 <=? List.length g)%nat)
                                     (map (fun d' => on_date lib d' rows) ds)))
  = if complete lib rows d && existsb (Z.eqb d) ds
    then on_date lib d rows else [].
Proof.
  induction 1 as [|d' ds Hd' Hnd IH].
  - simpl. rewrite andb_false_r. reflexivity.
  - cbn [map filter existsb].
    destruct (78 <=? List.length (on_date lib d' rows))%nat eqn:Hbig.
    + cbn [List.concat]. unfold on_date at 1. rewrite filter_app.
      fold (on_date lib d (on_date lib d' rows)).
      match goal with |- _ ++ ?x = _ => change x with
        (on_date lib d
           (List.concat (filter (fun g => (78 <=? List.length g)%nat)
                                (map (fun d' => on_date lib d' rows) ds)))) end.
      rewrite IH, on_date_on_date.
      destruct (Z.eqb_spec d d') as [->|Hne].
      * assert (E : existsb (Z.eqb d') ds = false).
        { apply not_true_is_false. rewrite existsb_eqb_in. assumption. }
        rewrite E, andb_false_r, app_nil_r.
        unfold complete. rewrite Hbig. reflexivity.
      * reflexivity.
    + rewrite IH.
      destruct (Z.eqb_spec d d') as [->|Hne]; [|reflexivity].
      unfold complete. rewrite Hbig. reflexivity.
Qed.

Lemma on_date_complete_days d rows :
  on_date lib d (List.concat (complete_days lib rows))
  = if complete lib rows d then on_date lib d rows else [].
Proof.
  unfold complete_days. rewrite on_date_days_of.
  - destruct (complete lib rows d) eqn:Hc; [|reflexivity].
    cbn [andb].
    match goal with |- (if ?b then _ else _) = _ => assert (E : b = true) end.
    { apply existsb_eqb_in, in_np_unique.
      destruct (complete_has_row _ _ Hc) as [r [Hr <-]].
      apply (in_map row_date), Hr. }
    rewrite E. reflexivity.
  - apply sorted_lt_NoDup, np_unique_sorted.
Qed.

(** Dropping the repeated timestamps of the frame, date by date. *)
Lemma on_date_drop_dups d rows :
  on_date lib d (drop_dups [] rows) = drop_dups [] (on_date lib d rows).
Proof.
  unfold on_date.
  apply (filter_drop_dups (fun i => date i =? d)). intros; tauto.
Qed.

End WithLibrary.

(** The cleaner reads the zone's offset at the instants of the bars only. *)
Lemma clean_symbol_offsets lib1 lib2 symbol bars :
  (forall b, In b bars -> utcoffset lib1 (Bar.t b) = utcoffset lib2 (Bar.t b)) ->
  Cleaner.clean_symbol lib1 symbol bars = Cleaner.clean_symbol lib2 symbol bars.
Proof.
  intros Hoff. rewrite !clean_symbol_closed.
  destruct bars as [|b0 bars0] eqn:Ebars; [reflexivity|]. rewrite <- Ebars in *.
  assert (Hrow : forall r, In r (map rename bars) ->
                           utcoffset lib1 (index r) = utcoffset lib2 (index r)).
  { intros r Hr. apply in_map_iff in Hr. destruct Hr as [b [<- Hb]].
    apply Hoff, Hb. }
  assert (Hsess : session_rows lib1 bars = session_rows lib2 bars).
  { unfold session_rows. apply filter_ext_in. intros r Hr.
    unfold Cleaner.in_session, Cleaner.dt_time, Cleaner.wall.
    rewrite (Hrow r Hr). reflexivity. }
  assert (Hdate : forall r, In r (session_rows lib2 bars) ->
                            Cleaner.date lib1 (index r) = Cleaner.date lib2 (index r)).
  { intros r Hr. unfold session_rows in Hr. apply filter_In in Hr.
    unfold Cleaner.date, Cleaner.wall. rewrite (Hrow r (proj1 Hr)). reflexivity. }
  assert (Hdays : complete_days lib1 (session_rows lib2 bars)
                  = complete_days lib2 (session_rows lib2 bars)).
  { unfold complete_days.
    rewrite (map_ext_in _ _ _ Hdate). f_equal.
    apply map_ext. intros d. unfold on_date. apply filter_ext_in.
    intros r Hr. rewrite (Hdate r Hr). reflexivity. }
  rewrite Hsess, Hdays. reflexivity.
Qed.

End CleanerFacts.

(* ===================================================================== *)
(** * What [download_intraday] returns *)

Module DownloadFacts.

Import ListFacts Closed CleanerFacts.

Lemma in_set {V} (d : dict V) k v k' v' :
  In (k', v') (set d k v) -> (k' = k /\ v' = v) \/ In (k', v') d.
Proof.
  induction d as [|[k0 v0] d IH]; simpl.
  - intros [H|[]]. inversion H. auto.
  - destruct (String.eqb_spec k k0) as [->|Hne]; simpl.
    + intros [H|H]; [inversion H; subst; auto | auto].
    + intros [H|H]; [auto|]. apply IH in H. tauto.
Qed.

Section WithLibrary.

Variable lib : library.

(** Every table of the result is the cleaned series of its symbol. *)
Lemma clean_each_inv symbol_bars todo init df_dict :
  Cleaner.clean_each lib symbol_bars todo init = Ok df_dict ->
  forall symbol df, In (symbol, df) df_dict ->
    In (symbol, df) init \/
    exists raw, get symbol_bars symbol = Some raw /\
                Cleaner.clean_symbol lib symbol raw = Ok df.
Proof.
  revert init. induction todo as [|s todo IH]; intros init; simpl.
  - intros H. inversion H. auto.
  - destruct (get symbol_bars s) as [bars|] eqn:Hget; [|discriminate].
    destruct (Cleaner.clean_symbol lib s bars) as [temp_df|e] eqn:Hc;
      simpl; [|discriminate].
    intros H symbol df Hin.
    destruct (IH _ H symbol df Hin) as [Hinit|Hnew]; [|auto].
    apply in_set in Hinit. destruct Hinit as [[-> ->]|Hinit]; [|auto].
    right. eauto.
Qed.

(** A symbol whose cleaning raises makes the whole loop raise. *)
Lemma clean_each_raises symbol_bars todo init symbol raw e :
  In symbol todo -> get symbol_bars symbol = Some raw ->
  Cleaner.clean_symbol lib symbol raw = Err e ->
  exists e', Cleaner.clean_each lib symbol_bars todo init = Err e'.
Proof.
  revert init. induction todo as [|s todo IH]; intros init; simpl; [tauto|].
  intros [->|Hin] Hget Hc.
  - rewrite Hget, Hc. simpl. eauto.
  - destruct (get symbol_bars s) as [bars|]; [|eauto].
    destruct (Cleaner.clean_symbol lib s bars); simpl; eauto.
Qed.

(** [download_intraday] returns the cleaned form of what the fetch
    returned. *)
Lemma download_intraday_inv symbols timeframe start end_ limit api_key
      secret_key w df_dict :
  fst (Cleaner.download_intraday lib symbols timeframe start end_ limit
         api_key secret_key w) = Fetcher.Returns df_dict ->
  exists symbol_bars,
    fst (Fetcher.download_intraday_dict lib Globals.time symbols timeframe
           start end_ limit api_key secret_key true w)
    = Fetcher.Returns symbol_bars
    /\ forall symbol df, In (symbol, df) df_dict ->
         exists raw, get symbol_bars symbol = Some raw /\
                     Cleaner.clean_symbol lib symbol raw = Ok df.
Proof.
  unfold Cleaner.download_intraday.
  destruct (Fetcher.download_intraday_dict _ _ _ _ _ _ _ _ _ _ _)
    as [[symbol_bars|e| |] w1]; try discriminate.
  destruct (Cleaner.clean_each lib symbol_bars (keys symbol_bars) [])
    as [d|e] eqn:Hc; [|discriminate].
  simpl. intros H. inversion H; subst. exists symbol_bars. split; [reflexivity|].
  intros symbol df Hin.
  destruct (clean_each_inv _ _ _ Hc _ _ Hin) as [[]|Hraw]. exact Hraw.
Qed.

Lemma get_in_keys {V} (d : dict V) k v : get d k = Some v -> In k (keys d).
Proof.
  induction d as [|[k0 v0] d IH]; simpl; [discriminate|].
  destruct (String.eqb_spec k k0) as [->|Hne]; auto.
Qed.

(** A symbol whose cleaning raises makes [download_intraday] raise. *)
Lemma download_intraday_raises symbols timeframe start end_ limit api_key
      secret_key w symbol_bars symbol raw e :
  fst (Fetcher.download_intraday_dict lib Globals.time symbols timeframe
         start end_ limit api_key secret_key true w)
  = Fetcher.Returns symbol_bars ->
  get symbol_bars symbol = Some raw ->
  Cleaner.clean_symbol lib symbol raw = Err e ->
  exists e', fst (Cleaner.download_intraday lib symbols timeframe start end_
                    limit api_key secret_key w) = Fetcher.Raises e'.
Proof.
  unfold Cleaner.download_intraday.
  destruct (Fetcher.download_intraday_dict _ _ _ _ _ _ _ _ _ _ _)
    as [[sb|e0| |] w1]; try discriminate.
  simpl. intros H Hget Hc. inversion H; subst.
  assert (Hk := get_in_keys _ _ Hget).
  destruct (@clean_each_raises symbol_bars (keys symbol_bars) [] symbol raw e
              Hk Hget Hc) as [e' He'].
  rewrite He'. simpl. eauto.
Qed.

Lemma filter_tagged (p : row -> bool) symbol rows :
  filter (fun r => p (data r)) (map (fun r => mk_srow r symbol) rows)
  = map (fun r => mk_srow r symbol) (filter p rows).
Proof.
  induction rows as [|x rows IH]; simpl; [reflexivity|].
  destruct (p x); simpl; rewrite IH; reflexivity.
Qed.

Lemma timestamps_tagged symbol rows :
  timestamps (map (fun r => mk_srow r symbol) rows) = map index rows.
Proof.
  unfold timestamps. rewrite map_map. reflexivity.
Qed.

Lemma index_renamed raw : map index (map rename raw) = map Bar.t raw.
Proof.
  rewrite map_map. reflexivity.
Qed.

(** The rows of a returned table. *)
Lemma clean_symbol_rows symbol raw df :
  Cleaner.clean_symbol lib symbol raw = Ok df ->
  df = map (fun r => mk_srow r symbol)
           (drop_dups [] (List.concat (complete_days lib (session_rows lib raw)))).
Proof.
  intros H. apply clean_symbol_ok in H. tauto.
Qed.

Lemma in_table sym raw df r :
  Cleaner.clean_symbol lib sym raw = Ok df -> In r df ->
  sym = symbol r /\
  In (data r) (session_rows lib raw) /\
  complete lib (session_rows lib raw) (Cleaner.date lib (index (data r))) = true.
Proof.
  intros H Hr. rewrite (clean_symbol_rows _ _ H) in Hr.
  apply in_map_iff in Hr. destruct Hr as [x [<- Hx]]. simpl.
  apply in_drop_dups in Hx. destruct Hx as [Hx _].
  apply in_complete_days in Hx. tauto.
Qed.

Lemma in_session_rows r raw :
  In r (session_rows lib raw) <->
  (exists b, In b raw /\ r = rename b) /\ Cleaner.in_session lib r = true.
Proof.
  unfold session_rows. rewrite filter_In, in_map_iff.
  split; intros [[b Hb] H]; (split; [exists b|]); intuition.
Qed.

Lemma in_session_bounds r :
  Cleaner.in_session lib r = true <->
  Cleaner.time 9 30 <= Cleaner.dt_time lib (index r) <= Cleaner.time 15 55.
Proof.
  unfold Cleaner.in_session, Cleaner.between.
  rewrite andb_true_iff, !Z.leb_le. reflexivity.
Qed.



End WithLibrary.

End DownloadFacts.

(* ===================================================================== *)
(** * The cleaner's guarantees *)

Module CleanerSpec.

Import ListFacts Closed CleanerFacts DownloadFacts.

Local Arguments Nat.leb : simpl never.

Section Run.

Variable lib : library.
Variables symbols timeframe start end_ api_key secret_key : string.
Variable limit : Z.
Variable w : Fetcher.world.

Local Abbreviation fetched :=
  (fst (Fetcher.download_intraday_dict lib Globals.time symbols timeframe
          start end_ limit api_key secret_key true w)).
Local Abbreviation returned :=
  (fst (Cleaner.download_intraday lib symbols timeframe start end_ limit
          api_key secret_key w)).

(** C4.  In every table [download_intraday] returns, a local calendar date
    is present if and only if the symbol's fetched series has at least 78
    bars on that date inside the session window: the dates kept had 78 bars or
    more when line 155 counted them, and a date with fewer has no row left. *)
Theorem complete_dates_retained df_dict :
  returned = Fetcher.Returns df_dict ->
  exists symbol_bars,
    fetched = Fetcher.Returns symbol_bars /\
    forall symbol df, In (symbol, df) df_dict ->
      exists raw,
        get symbol_bars symbol = Some raw /\
        forall d,
          (exists r, In r df /\ Cleaner.date lib (index (data r)) = d)
          <-> (78 <= List.length (on_date lib d (session_rows lib raw)))%nat.
Proof.
  intros Hret.
  destruct (download_intraday_inv _ _ _ _ _ _ _ _ _ Hret) as [symbol_bars [Hf Htab]].
  exists symbol_bars. split; [exact Hf|].
  intros symbol df Hin. destruct (Htab _ _ Hin) as [raw [Hget Hclean]].
  exists raw. split; [exact Hget|]. intros d. split.
  - intros [r [Hr <-]].
    destruct (in_table _ _ _ _ Hclean Hr) as [_ [_ Hc]].
    apply Nat.leb_le. exact Hc.
  - intros Hbig. apply Nat.leb_le in Hbig. fold (complete lib (session_rows lib raw) d) in Hbig.
    destruct (complete_has_row _ _ _ Hbig) as [x [Hx Hd]].
    assert (Hcat : In x (List.concat (complete_days lib (session_rows lib raw)))).
    { apply in_complete_days. rewrite Hd. auto. }
    destruct (drop_dups_keeps_index x [] _ Hcat) as [r' [Hr' Hidx]]; [tauto|].
    exists (mk_srow r' symbol). split.
    + rewrite (clean_symbol_rows _ _ _ Hclean).
      apply in_map_iff. eauto.
    + simpl. rewrite Hidx. exact Hd.
Qed.

(** C2, as amended.  Every row of every returned table has its local time
    of day in the closed interval from 09:30 to 15:55, both ends included, and
    no fetched bar with a local time outside it is a row of the table. *)
Theorem session_window_closed df_dict :
  returned = Fetcher.Returns df_dict ->
  exists symbol_bars,
    fetched = Fetcher.Returns symbol_bars /\
    forall symbol df, In (symbol, df) df_dict ->
      exists raw,
        get symbol_bars symbol = Some raw /\
        (forall r, In r df ->
           Cleaner.time 9 30 <= Cleaner.dt_time lib (index (data r))
                             <= Cleaner.time 15 55) /\
        (forall b, In b raw ->
           ~ (Cleaner.time 9 30 <= Cleaner.dt_time lib (Bar.t b)
                                <= Cleaner.time 15 55) ->
           ~ In (mk_srow (rename b) symbol) df).
Proof.
  intros Hret.
  destruct (download_intraday_inv _ _ _ _ _ _ _ _ _ Hret) as [symbol_bars [Hf Htab]].
  exists symbol_bars. split; [exact Hf|].
  intros symbol df Hin. destruct (Htab _ _ Hin) as [raw [Hget Hclean]].
  exists raw. split; [exact Hget|].
  assert (Hwin : forall r, In r df ->
            Cleaner.time 9 30 <= Cleaner.dt_time lib (index (data r))
                              <= Cleaner.time 15 55).
  { intros r Hr. destruct (in_table _ _ _ _ Hclean Hr) as [_ [Hs _]].
    apply in_session_rows in Hs. destruct Hs as [_ Hs].
    apply in_session_bounds. exact Hs. }
  split; [exact Hwin|].
  intros b _ Hout Hrow. apply Hout. exact (Hwin _ Hrow).
Qed.


(** C10, as amended.  The cleaning never sorts by timestamp.  In every
    returned table the local dates of the rows never decrease, whatever the
    order of the fetched series; the rows of one date are the first
    occurrences of the timestamps among that date's fetched bars inside the
    window, in the order in which they were fetched; so the rows of a date are
    in strictly increasing order of time if and only if those first
    occurrences were fetched in that order. *)
Theorem rows_in_fetched_order df_dict :
  returned = Fetcher.Returns df_dict ->
  exists symbol_bars,
    fetched = Fetcher.Returns symbol_bars /\
    forall symbol df, In (symbol, df) df_dict ->
      exists raw,
        get symbol_bars symbol = Some raw /\
        StronglySorted Z.le (map (Cleaner.date lib) (timestamps df)) /\
        (forall d,
           filter (fun r => Cleaner.date lib (index (data r)) =? d) df
           = if complete lib (session_rows lib raw) d
             then map (fun r => mk_srow r symbol)
                      (drop_dups [] (on_date lib d (session_rows lib raw)))
             else []) /\
        (forall d, complete lib (session_rows lib raw) d = true ->
           (StronglySorted Z.lt
              (timestamps
                 (filter (fun r => Cleaner.date lib (index (data r)) =? d) df))
            <-> StronglySorted Z.lt
                  (map index (drop_dups [] (on_date lib d (session_rows lib raw)))))).
Proof.
  intros Hret.
  destruct (download_intraday_inv _ _ _ _ _ _ _ _ _ Hret) as [symbol_bars [Hf Htab]].
  exists symbol_bars. split; [exact Hf|].
  intros symbol df Hin. destruct (Htab _ _ Hin) as [raw [Hget Hclean]].
  exists raw. split; [exact Hget|].
  assert (Hrows := clean_symbol_rows _ _ _ Hclean).
  set (F := session_rows lib raw) in *.
  assert (Hday : forall d,
            filter (fun r => Cleaner.date lib (index (data r)) =? d) df
            = if complete lib F d
              then map (fun r => mk_srow r symbol) (drop_dups [] (on_date lib d F))
              else []).
  { intros d. rewrite Hrows.
    rewrite (filter_tagged (fun x => Cleaner.date lib (index x) =? d)).
    fold (on_date lib d (drop_dups [] (List.concat (complete_days lib F)))).
    rewrite on_date_drop_dups, on_date_complete_days.
    destruct (complete lib F d); reflexivity. }
  split; [|split].
  - rewrite Hrows, timestamps_tagged, map_map.
    apply (drop_dups_sorted (fun r => Cleaner.date lib (index r))).
    apply complete_days_dates_sorted.
  - exact Hday.
  - intros d Hc. rewrite Hday, Hc, timestamps_tagged. reflexivity.
Qed.

End Run.

Section OneSymbol.

Variable lib : library.

(** C7, as amended.  When a symbol's fetched series is not empty and none
    of its dates has 78 bars inside the session window, the cleaning of that
    symbol raises the [ValueError] of [pd.concat] on an empty list and returns
    no table, and a call of [download_intraday] that fetched such a series
    raises. *)
Theorem no_complete_date_raises symbol raw :
  raw <> [] ->
  (forall d, complete lib (session_rows lib raw) d = false) ->
  Cleaner.clean_symbol lib symbol raw
  = Err (ValueError "No objects to concatenate")
  /\ forall symbols timeframe start end_ limit api_key secret_key w symbol_bars,
       fst (Fetcher.download_intraday_dict lib Globals.time symbols timeframe
              start end_ limit api_key secret_key true w)
       = Fetcher.Returns symbol_bars ->
       get symbol_bars symbol = Some raw ->
       exists e,
         fst (Cleaner.download_intraday lib symbols timeframe start end_ limit
                api_key secret_key w) = Fetcher.Raises e.
Proof.
  intros Hne Hnone.
  assert (Hc : Cleaner.clean_symbol lib symbol raw
               = Err (ValueError "No objects to concatenate")).
  { rewrite clean_symbol_closed. destruct raw as [|b raw]; [congruence|].
    apply complete_days_nil in Hnone. rewrite Hnone. reflexivity. }
  split; [exact Hc|].
  intros symbols timeframe start end_ limit api_key secret_key w symbol_bars Hf Hget.
  eapply download_intraday_raises; eassumption.
Qed.

End OneSymbol.

(** ** The guarantees on a full session, and the inputs the claims fail on *)


Lemma complete_dates_retained_witness :
  fst (Cleaner.download_intraday Sample.est "AAPL" "5Min" Sample.start
         Sample.end_ 10000 "PKTEST" "s3cr3t" (Sample.one_page Sample.full_session))
  = Fetcher.Returns [("AAPL", Sample.tagged "AAPL" Sample.full_session)]
  /\ exists symbol_bars,
       fst (Fetcher.download_intraday_dict Sample.est Globals.time "AAPL" "5Min"
              Sample.start Sample.end_ 10000 "PKTEST" "s3cr3t" true
              (Sample.one_page Sample.full_session))
       = Fetcher.Returns symbol_bars /\
       forall symbol df,
         In (symbol, df) [("AAPL", Sample.tagged "AAPL" Sample.full_session)] ->
         exists raw,
           get symbol_bars symbol = Some raw /\
           forall d,
             (exists r, In r df /\ Cleaner.date Sample.est (index (data r)) = d)
             <-> (78 <= List.length
                          (on_date Sample.est d (session_rows Sample.est raw)))%nat.
Proof.
  assert (H : fst (Cleaner.download_intraday Sample.est "AAPL" "5Min" Sample.start
                     Sample.end_ 10000 "PKTEST" "s3cr3t"
                     (Sample.one_page Sample.full_session))
              = Fetcher.Returns [("AAPL", Sample.tagged "AAPL" Sample.full_session)])
    by (vm_compute; reflexivity).
  split; [exact H|].
  exact (@complete_dates_retained Sample.est "AAPL" "5Min" Sample.start
           Sample.end_ "PKTEST" "s3cr3t" 10000
           (Sample.one_page Sample.full_session) _ H).
Defined.

Lemma session_window_closed_witness :
  fst (Cleaner.download_intraday Sample.est "AAPL" "5Min" Sample.start
         Sample.end_ 10000 "PKTEST" "s3cr3t" (Sample.one_page Sample.full_session))
  = Fetcher.Returns [("AAPL", Sample.tagged "AAPL" Sample.full_session)]
  /\ exists symbol_bars,
       fst (Fetcher.download_intraday_dict Sample.est Globals.time "AAPL" "5Min"
              Sample.start Sample.end_ 10000 "PKTEST" "s3cr3t" true
              (Sample.one_page Sample.full_session))
       = Fetcher.Returns symbol_bars /\
       forall symbol df,
         In (symbol, df) [("AAPL", Sample.tagged "AAPL" Sample.full_session)] ->
         exists raw,
           get symbol_bars symbol = Some raw /\
           (forall r, In r df ->
              Cleaner.time 9 30 <= Cleaner.dt_time Sample.est (index (data r))
                                <= Cleaner.time 15 55) /\
           (forall b, In b raw ->
              ~ (Cleaner.time 9 30 <= Cleaner.dt_time Sample.est (Bar.t b)
                                   <= Cleaner.time 15 55) ->
              ~ In (mk_srow (rename b) symbol) df).
Proof.
  assert (H : fst (Cleaner.download_intraday Sample.est "AAPL" "5Min" Sample.start
                     Sample.end_ 10000 "PKTEST" "s3cr3t"
                     (Sample.one_page Sample.full_session))
              = Fetcher.Returns [("AAPL", Sample.tagged "AAPL" Sample.full_session)])
    by (vm_compute; reflexivity).
  split; [exact H|].
  exact (@session_window_closed Sample.est "AAPL" "5Min" Sample.start
           Sample.end_ "PKTEST" "s3cr3t" 10000
           (Sample.one_page Sample.full_session) _ H).
Defined.

(** C2 fails as stated: the bar of 15:55 is a row of the table returned for a
    full session, and 15:55 is not strictly before 15:55. *)
Lemma session_window_not_half_open :
  exists r,
    fst (Cleaner.download_intraday Sample.est "AAPL" "5Min" Sample.start
           Sample.end_ 10000 "PKTEST" "s3cr3t"
           (Sample.one_page Sample.full_session))
    = Fetcher.Returns [("AAPL", Sample.tagged "AAPL" Sample.full_session)]
    /\ In r (Sample.tagged "AAPL" Sample.full_session)
    /\ Cleaner.dt_time Sample.est (index (data r)) = Cleaner.time 15 55
    /\ ~ (Cleaner.dt_time Sample.est (index (data r)) < Cleaner.time 15 55).
Proof.
  exists (mk_srow (rename (Sample.bar_at (Sample.at_ Sample.monday 15 55))) "AAPL").
  split; [vm_compute; reflexivity|].
  split; [vm_compute; repeat (first [left; reflexivity | right])|].
  split; [vm_compute; reflexivity|].
  vm_compute. discriminate.
Qed.




Lemma no_complete_date_raises_witness :
  Sample.bars_from Sample.monday 9 30 77 <> []
  /\ (forall d, complete Sample.est
                  (session_rows Sample.est (Sample.bars_from Sample.monday 9 30 77))
                  d = false)
  /\ Cleaner.clean_symbol Sample.est "AAPL" (Sample.bars_from Sample.monday 9 30 77)
     = Err (ValueError "No objects to concatenate")
  /\ fst (Cleaner.download_intraday Sample.est "AAPL" "5Min" Sample.start
            Sample.end_ 10000 "PKTEST" "s3cr3t"
            (Sample.one_page (Sample.bars_from Sample.monday 9 30 77)))
     = Fetcher.Raises (ValueError "No objects to concatenate").
Proof.
  assert (Hne : Sample.bars_from Sample.monday 9 30 77 <> [])
    by (vm_compute; discriminate).
  assert (Hnone : forall d, complete Sample.est
                    (session_rows Sample.est (Sample.bars_from Sample.monday 9 30 77))
                    d = false)
    by (apply complete_days_nil; vm_compute; reflexivity).
  split; [exact Hne|]. split; [exact Hnone|].
  split; [exact (proj1 (@no_complete_date_raises Sample.est "AAPL" _ Hne Hnone))|].
  vm_compute. reflexivity.
Defined.

(** C7 fails as stated: a symbol fetched with an empty list of bars has no
    complete date, and its cleaning raises [KeyError] at line 137, before the
    concatenation of line 168. *)
Lemma empty_series_raises_key_error :
  (forall d, complete Sample.est (session_rows Sample.est []) d = false)
  /\ Cleaner.clean_symbol Sample.est "AAPL" [] = Err (KeyError "datetime")
  /\ fst (Cleaner.download_intraday Sample.est "AAPL" "5Min" Sample.start
            Sample.end_ 10000 "PKTEST" "s3cr3t" (Sample.one_page []))
     = Fetcher.Raises (KeyError "datetime").
Proof.
  split; [intros d; reflexivity|].
  split; [reflexivity | vm_compute; reflexivity].
Qed.

Lemma rows_in_fetched_order_witness :
  fst (Cleaner.download_intraday Sample.est "AAPL" "5Min" Sample.start
         Sample.end_ 10000 "PKTEST" "s3cr3t"
         (Sample.one_page Sample.swapped_with_repeat))
  = Fetcher.Returns
      [("AAPL", Sample.tagged "AAPL" (firstn 77 Sample.swapped_with_repeat))]
  /\ exists symbol_bars,
       fst (Fetcher.download_intraday_dict Sample.est Globals.time "AAPL" "5Min"
              Sample.start Sample.end_ 10000 "PKTEST" "s3cr3t" true
              (Sample.one_page Sample.swapped_with_repeat))
       = Fetcher.Returns symbol_bars /\
       forall symbol df,
         In (symbol, df)
            [("AAPL", Sample.tagged "AAPL" (firstn 77 Sample.swapped_with_repeat))] ->
         exists raw,
           get symbol_bars symbol = Some raw /\
           StronglySorted Z.le (map (Cleaner.date Sample.est) (timestamps df)) /\
           (forall d,
              filter (fun r => Cleaner.date Sample.est (index (data r)) =? d) df
              = if complete Sample.est (session_rows Sample.est raw) d
                then map (fun r => mk_srow r symbol)
                         (drop_dups [] (on_date Sample.est d
                                                (session_rows Sample.est raw)))
                else []) /\
           (forall d, complete Sample.est (session_rows Sample.est raw) d = true ->
              (StronglySorted Z.lt
                 (timestamps
                    (filter (fun r => Cleaner.date Sample.est (index (data r)) =? d)
                            df))
               <-> StronglySorted Z.lt
                     (map index (drop_dups [] (on_date Sample.est d
                                                 (session_rows Sample.est raw)))))).
Proof.
  assert (H : fst (Cleaner.download_intraday Sample.est "AAPL" "5Min" Sample.start
                     Sample.end_ 10000 "PKTEST" "s3cr3t"
                     (Sample.one_page Sample.swapped_with_repeat))
              = Fetcher.Returns
                  [("AAPL", Sample.tagged "AAPL"
                              (firstn 77 Sample.swapped_with_repeat))])
    by (vm_compute; reflexivity).
  split; [exact H|].
  exact (@rows_in_fetched_order Sample.est "AAPL" "5Min" Sample.start
           Sample.end_ "PKTEST" "s3cr3t" 10000
           (Sample.one_page Sample.swapped_with_repeat) _ H).
Defined.

(** C10 fails as stated in its last part: all 79 fetched bars are inside the
    window on one date and are not in ascending order of time (09:35 is
    followed by a second bar of 09:30), and the table returned is in strictly
    increasing order of time. *)
Lemma chronological_without_ascending_input :
  fst (Cleaner.download_intraday Sample.est "AAPL" "5Min" Sample.start
         Sample.end_ 10000 "PKTEST" "s3cr3t"
         (Sample.one_page Sample.repeat_out_of_order))
  = Fetcher.Returns [("AAPL", Sample.tagged "AAPL" Sample.full_session)]
  /\ StronglySorted Z.lt (timestamps (Sample.tagged "AAPL" Sample.full_session))
  /\ Forall (fun b => Cleaner.in_session Sample.est (rename b) = true
                      /\ Cleaner.date Sample.est (Bar.t b) = Sample.monday)
            Sample.repeat_out_of_order
  /\ ~ Sorted Z.le (map Bar.t Sample.repeat_out_of_order).
Proof.
  split; [vm_compute; reflexivity|].
  split; [|split].
  - apply strictly_increasing_sorted. vm_compute. reflexivity.
  - apply Forall_forall. intros b Hb.
    assert (E : forallb (fun b => Cleaner.in_session Sample.est (rename b)
                                  && (Cleaner.date Sample.est (Bar.t b)
                                      =? Sample.monday))
                        Sample.repeat_out_of_order = true)
      by (vm_compute; reflexivity).
    rewrite forallb_forall in E. specialize (E b Hb).
    apply andb_true_iff in E. destruct E as [E1 E2].
    apply Z.eqb_eq in E2. auto.
  - intros H. apply ascending_sorted in H. vm_compute in H. discriminate.
Qed.

End CleanerSpec.

(* ===================================================================== *)
(** * Facts about [safe_get] and the paging loop *)

Module FetcherFacts.

Import Fetcher Paging.

Lemma get_set {V} (d : dict V) k v s :
  get (set d k v) s = if String.eqb s k then Some v else get d s.
Proof.
  induction d as [|[k0 v0] d IH]; simpl.
  - reflexivity.
  - destruct (String.eqb_spec k k0) as [->|Hne]; simpl.
    + destruct (String.eqb s k0); reflexivity.
    + rewrite IH. destruct (String.eqb_spec s k0) as [->|Hs].
      * destruct (String.eqb_spec k0 k); [congruence | reflexivity].
      * reflexivity.
Qed.

Lemma get_setdefault_extend acc k barlist s :
  get (setdefault_extend acc k barlist) s
  = if String.eqb s k
    then Some (match get acc s with Some old => old | None => [] end ++ barlist)
    else get acc s.
Proof.
  unfold setdefault_extend.
  destruct (get acc k) as [old|] eqn:E; rewrite get_set;
    destruct (String.eqb_spec s k) as [->|Hne]; try reflexivity;
    rewrite E; reflexivity.
Qed.

Lemma entries_not_mentioned page s :
  mentions page s = false -> entries page s = [].
Proof.
  unfold mentions, entries.
  induction page as [|[k b] page IH]; simpl; [reflexivity|].
  intros H. apply orb_false_iff in H. destruct H as [Hk Hl].
  rewrite Hk. apply IH, Hl.
Qed.

(** What one page adds for a symbol. *)
Lemma get_merge_page page acc s :
  get (merge_page acc page) s
  = if mentions page s
    then Some (match get acc s with Some old => old | None => [] end
                 ++ entries page s)
    else get acc s.
Proof.
  unfold merge_page.
  revert acc. induction page as [|[k barlist] page IH]; intros acc.
  - reflexivity.
  - cbn [fold_left fst snd]. rewrite IH, get_setdefault_extend.
    unfold mentions at 2, entries at 2. cbn [existsb filter fst].
    fold (mentions page s).
    destruct (String.eqb_spec s k) as [->|Hne]; cbn [orb].
    + cbn [map snd List.concat]. fold (entries page k).
      destruct (mentions page k) eqn:Hm.
      * rewrite <- app_assoc. reflexivity.
      * rewrite (entries_not_mentioned _ _ Hm), app_nil_r. reflexivity.
    + fold (entries page s). reflexivity.
Qed.

Lemma entries_pages_not_mentioned pages s :
  existsb (fun page => mentions (bars page) s) pages = false ->
  List.concat (map (fun page => entries (bars page) s) pages) = [].
Proof.
  induction pages as [|page pages IH]; simpl; [reflexivity|].
  intros H. apply orb_false_iff in H. destruct H as [Hm Hp].
  rewrite (entries_not_mentioned _ _ Hm), (IH Hp). reflexivity.
Qed.

(** What the pages add for a symbol: the bars of every page, in the order of
    the pages. *)
Lemma get_merge_pages pages acc s :
  get (merge_pages pages acc) s
  = if existsb (fun page => mentions (bars page) s) pages
    then Some (match get acc s with Some old => old | None => [] end
                 ++ List.concat (map (fun page => entries (bars page) s) pages))
    else get acc s.
Proof.
  unfold merge_pages.
  revert acc. induction pages as [|page pages IH]; intros acc.
  - reflexivity.
  - cbn [fold_left existsb map List.concat]. rewrite IH, get_merge_page.
    destruct (mentions (bars page) s) eqn:Hm; cbn [orb].
    + destruct (existsb _ pages) eqn:Hp.
      * rewrite <- app_assoc. reflexivity.
      * rewrite (entries_pages_not_mentioned _ _ Hp), app_nil_r. reflexivity.
    + rewrite (entries_not_mentioned _ _ Hm). reflexivity.
Qed.

Section WithLibrary.

Variable lib : library.

(** A response other than 429 is returned at once. *)
Lemma safe_get_from_passes time r script rq clock sent slept :
  status_code r <> 429 ->
  safe_get_from lib time (r :: script) rq clock sent slept
  = (Returns r, mk_world script clock (sent ++ [rq]) slept).
Proof.
  intros H. simpl. destruct (Z.eqb_spec (status_code r) 429); [contradiction|].
  reflexivity.
Qed.

(** With [time] bound as line 5 binds it, a 429 raises. *)
Lemma safe_get_from_429 r script rq clock sent slept :
  status_code r = 429 ->
  safe_get_from lib Globals.time (r :: script) rq clock sent slept
  = (Raises (AttributeError "type object 'datetime.time' has no attribute 'time'"),
     mk_world script clock (sent ++ [rq]) slept).
Proof.
  intros H. simpl. rewrite H. reflexivity.
Qed.

(** With [time] bound to the module [time], the loop sleeps through the 429s:
    it sends the same request once per response, sleeps at least one second
    each time, and returns the first response that is not a 429. *)
Lemma safe_get_from_recovers throttled r script rq clock sent slept :
  Forall (fun x => status_code x = 429 /\
                   match get (headers x) "X-RateLimit-Reset" with
                   | Some s => int_of_str lib s <> None
                   | None => True
                   end) throttled ->
  status_code r <> 429 ->
  exists clock' naps,
    safe_get_from lib time_module (throttled ++ r :: script) rq clock sent slept
    = (Returns r,
       mk_world script clock'
                (sent ++ repeat rq (S (List.length throttled)))
                (slept ++ naps))
    /\ List.length naps = List.length throttled
    /\ Forall (fun nap => 1 <= nap) naps
    /\ clock' = clock + fold_right Z.add 0 naps.
Proof.
  intros Hth Hr. revert clock sent slept.
  induction Hth as [|x throttled [Hx Hhdr] Hth IH]; intros clock sent slept.
  - exists clock, []. simpl app. rewrite safe_get_from_passes by assumption.
    rewrite app_nil_r. simpl. repeat split; [constructor | lia].
  - simpl app. cbn [safe_get_from]. rewrite Hx. simpl (429 =? 429).
    cbn [hasattr existsb String.eqb negb]. simpl.
    assert (Hreset : exists reset_ts,
               match get (headers x) "X-RateLimit-Reset" with
               | Some s => int_of_str lib s
               | None => Some (clock + 60)
               end = Some reset_ts).
    { destruct (get (headers x) "X-RateLimit-Reset") as [s0|]; [|eauto].
      destruct (int_of_str lib s0); [eauto | contradiction]. }
    destruct Hreset as [reset_ts ->].
    destruct (IH (clock + Z.max (reset_ts - clock) 1) (sent ++ [rq])
                 (slept ++ [Z.max (reset_ts - clock) 1]))
      as [clock' [naps [E [Hlen [Hnaps Hclock]]]]].
    exists clock', (Z.max (reset_ts - clock) 1 :: naps).
    rewrite E. repeat split.
    + f_equal. f_equal; rewrite <- app_assoc; reflexivity.
    + simpl. lia.
    + constructor; [lia | assumption].
    + simpl. lia.
Qed.

(** [safe_get] sends its request, whatever happens next. *)
Lemma safe_get_from_sent time script rq clock sent0 slept :
  exists more,
    sent (snd (safe_get_from lib time script rq clock sent0 slept))
    = sent0 ++ rq :: more.
Proof.
  revert clock sent0 slept.
  induction script as [|r script IH]; intros clock sent0 slept; simpl.
  - exists []. reflexivity.
  - destruct (status_code r =? 429); [|exists []; reflexivity].
    destruct (negb (hasattr time "time")); [exists []; reflexivity|].
    destruct (match get (headers r) "X-RateLimit-Reset" with
              | Some s => int_of_str lib s
              | None => Some (clock + 60)
              end) as [reset_ts|]; [|exists []; reflexivity].
    destruct (negb (hasattr time "sleep")); [exists []; reflexivity|].
    destruct (IH (clock + Z.max (reset_ts - clock) 1) (sent0 ++ [rq])
                 (slept ++ [Z.max (reset_ts - clock) 1])) as [more E].
    exists (rq :: more). rewrite E, <- app_assoc. reflexivity.
Qed.

(** A response returned was taken from the script. *)
Lemma safe_get_from_consumes time script rq clock sent0 slept r w' :
  safe_get_from lib time script rq clock sent0 slept = (Returns r, w') ->
  (List.length (Fetcher.script w') < List.length script)%nat.
Proof.
  revert clock sent0 slept.
  induction script as [|x script IH]; intros clock sent0 slept; simpl.
  - discriminate.
  - destruct (status_code x =? 429).
    + destruct (negb (hasattr time "time")); [discriminate|].
      destruct (match get (headers x) "X-RateLimit-Reset" with
                | Some s => int_of_str lib s
                | None => Some (clock + 60)
                end) as [reset_ts|]; [|discriminate].
      destruct (negb (hasattr time "sleep")); [discriminate|].
      intros H. apply IH in H. lia.
    + intros H. inversion H; subst. simpl. lia.
Qed.

Lemma safe_get_from_no_fuel time script rq clock sent0 slept :
  fst (safe_get_from lib time script rq clock sent0 slept) <> OutOfFuel.
Proof.
  revert clock sent0 slept.
  induction script as [|x script IH]; intros clock sent0 slept; simpl.
  - discriminate.
  - destruct (status_code x =? 429); [|discriminate].
    destruct (negb (hasattr time "time")); [discriminate|].
    destruct (match get (headers x) "X-RateLimit-Reset" with
              | Some s => int_of_str lib s
              | None => Some (clock + 60)
              end) as [reset_ts|]; [|discriminate].
    destruct (negb (hasattr time "sleep")); [discriminate|].
    apply IH.
Qed.

(** The loop never runs out of fuel when it starts with more fuel than there
    are responses in the script. *)
Lemma fetch_loop_fuel time fuel headers symbols timeframe start end_ limit
      symbol_bars next_token w :
  (List.length (script w) < fuel)%nat ->
  fst (fetch_loop lib time fuel headers symbols timeframe start end_ limit
                  symbol_bars next_token w) <> OutOfFuel.
Proof.
  revert symbol_bars next_token w.
  induction fuel as [|fuel IH]; intros symbol_bars next_token w Hlen; [lia|].
  cbn [fetch_loop]. unfold safe_get.
  destruct (safe_get_from lib time (script w) _ (clock w) (sent w) (slept w))
    as [[r|e| |] w1] eqn:E; try discriminate.
  - destruct (json r) as [data|]; [|discriminate].
    destruct (negb (truthy (next_page_token data))); [discriminate|].
    apply IH. apply safe_get_from_consumes in E. lia.
  - exfalso. apply (@safe_get_from_no_fuel time (script w)
                      (mk_request BASE_URL headers
                         (page_params symbols timeframe start end_ limit next_token))
                      (clock w) (sent w) (slept w)).
    rewrite E. reflexivity.
Qed.

(** [download_intraday_dict] has fuel enough. *)
Lemma download_intraday_dict_fuel time symbols timeframe start end_ limit
      api_key secret_key stocks w :
  fst (download_intraday_dict lib time symbols timeframe start end_ limit
                              api_key secret_key stocks w) <> OutOfFuel.
Proof.
  unfold download_intraday_dict.
  destruct (10000 <? limit); [discriminate|].
  destruct (negb stocks); [discriminate|].
  apply fetch_loop_fuel. lia.
Qed.

(** The loop only adds to the requests sent. *)
Lemma fetch_loop_sent time fuel headers symbols timeframe start end_ limit
      symbol_bars next_token w :
  exists more,
    sent (snd (fetch_loop lib time fuel headers symbols timeframe start end_
                          limit symbol_bars next_token w))
    = sent w ++ more.
Proof.
  revert symbol_bars next_token w.
  induction fuel as [|fuel IH]; intros symbol_bars next_token w.
  - exists []. simpl. rewrite app_nil_r. reflexivity.
  - cbn [fetch_loop]. unfold safe_get.
    destruct (safe_get_from_sent time (script w)
                (mk_request BASE_URL headers
                   (page_params symbols timeframe start end_ limit next_token))
                (clock w) (sent w) (slept w)) as [more Hs].
    destruct (safe_get_from lib time (script w) _ (clock w) (sent w) (slept w))
      as [[r|e| |] w1]; simpl in Hs; try (eexists; exact Hs).
    destruct (json r) as [data|]; [|eexists; exact Hs].
    destruct (negb (truthy (next_page_token data))); [eexists; exact Hs|].
    destruct (IH (merge_page symbol_bars (bars data)) (next_page_token data) w1)
      as [more' Hs'].
    rewrite Hs', Hs, <- app_assoc. eexists. reflexivity.
Qed.

End WithLibrary.

End FetcherFacts.

(* ===================================================================== *)
(** * The fetcher's guarantees *)

Module FetcherSpec.

Import Fetcher Paging FetcherFacts.

(** The loop over a script that begins with the pages [pages ++ [last]]. *)
Lemma fetch_loop_pages lib time pages :
  forall last rs rest fuel headers symbols timeframe start end_ limit
         symbol_bars next_token clock sent0 slept,
    Forall2 (fun r page => status_code r <> 429 /\ json r = Some page)
            rs (pages ++ [last]) ->
    Forall (fun page => truthy (next_page_token page) = true) pages ->
    truthy (next_page_token last) = false ->
    (List.length rs <= fuel)%nat ->
    fetch_loop lib time fuel headers symbols timeframe start end_ limit
               symbol_bars next_token (mk_world (rs ++ rest) clock sent0 slept)
    = (Returns (merge_pages (pages ++ [last]) symbol_bars),
       mk_world rest clock
                (sent0 ++ page_requests headers symbols timeframe start end_
                                        limit next_token (pages ++ [last]))
                slept).
Proof.
  induction pages as [|page pages IH];
    intros last rs rest fuel headers symbols timeframe start end_ limit
           symbol_bars next_token clock sent0 slept Hrs Hpages Hlast Hfuel.
  - simpl app in Hrs. inversion Hrs as [|r p rs' ps' [Hst Hjs] Hnil]; subst.
    inversion Hnil; subst.
    destruct fuel as [|fuel]; [simpl in Hfuel; lia|].
    cbn [fetch_loop]. unfold safe_get.
    cbn [Fetcher.script Fetcher.clock Fetcher.sent Fetcher.slept app].
    rewrite safe_get_from_passes by assumption.
    rewrite Hjs, Hlast. reflexivity.
  - simpl app in Hrs. inversion Hrs as [|r p rs' ps' [Hst Hjs] Hrest]; subst.
    inversion Hpages as [|? ? Htok Hpages']; subst.
    destruct fuel as [|fuel]; [simpl in Hfuel; lia|].
    cbn [fetch_loop]. unfold safe_get.
    cbn [Fetcher.script Fetcher.clock Fetcher.sent Fetcher.slept app].
    rewrite safe_get_from_passes by assumption.
    rewrite Hjs, Htok. cbn [negb].
    rewrite (IH last rs' rest fuel) by (try assumption; simpl in Hfuel; lia).
    cbn [app merge_pages fold_left page_requests].
    rewrite <- app_assoc. reflexivity.
Qed.

(** C5.  When the server answers with pages (responses other than 429 that
    carry JSON) of which every one but the last has a continuation token,
    [download_intraday_dict] sends one request per page, each with the token
    of the page before, stops at the page without token and returns, for every
    symbol, the bars of all the pages in the order of the pages.  With one
    page that has a token and a second one that has none this is two
    requests. *)
Theorem pagination lib symbols timeframe start end_ limit api_key secret_key
        w rs pages last rest :
  limit <= 10000 ->
  script w = rs ++ rest ->
  Forall2 (fun r page => status_code r <> 429 /\ json r = Some page)
          rs (pages ++ [last]) ->
  Forall (fun page => truthy (next_page_token page) = true) pages ->
  truthy (next_page_token last) = false ->
  let result :=
    download_intraday_dict lib Globals.time symbols timeframe start end_ limit
                           api_key secret_key true w in
  fst result = Returns (merge_pages (pages ++ [last]) [])
  /\ (forall symbol,
        get (merge_pages (pages ++ [last]) []) symbol
        = if existsb (fun page => mentions (bars page) symbol) (pages ++ [last])
          then Some (List.concat (map (fun page => entries (bars page) symbol)
                                      (pages ++ [last])))
          else None)
  /\ sent (snd result)
     = sent w ++ page_requests (auth_headers api_key secret_key) symbols
                               timeframe start end_ limit None (pages ++ [last])
  /\ List.length (sent (snd result))
     = (List.length (sent w) + S (List.length pages))%nat
  /\ script (snd result) = rest.
Proof.
  intros Hlimit Hscript Hrs Hpages Hlast result.
  assert (E : result
              = (Returns (merge_pages (pages ++ [last]) []),
                 mk_world rest (clock w)
                          (sent w ++ page_requests (auth_headers api_key secret_key)
                                       symbols timeframe start end_ limit None
                                       (pages ++ [last]))
                          (slept w))).
  { unfold result, download_intraday_dict.
    destruct (Z.ltb_spec 10000 limit); [lia|]. cbn [negb].
    destruct w as [sc cl se sl]. cbn [script clock sent slept] in *. subst sc.
    apply fetch_loop_pages; try assumption. rewrite length_app. lia. }
  rewrite E. cbn [fst snd sent script].
  split; [reflexivity|]. split; [|split; [reflexivity|split; [|reflexivity]]].
  - intros symbol. rewrite get_merge_pages. reflexivity.
  - rewrite length_app. f_equal.
    assert (Hlen : forall tok ps,
               List.length (page_requests (auth_headers api_key secret_key) symbols
                              timeframe start end_ limit tok ps)
               = List.length ps).
    { intros tok ps. revert tok. induction ps as [|x ps IHp]; intros tok; simpl;
        [reflexivity | rewrite IHp; reflexivity]. }
    rewrite Hlen, length_app. simpl. lia.
Qed.

Lemma pagination_witness :
  let result :=
    download_intraday_dict Sample.est Globals.time "AAPL" "5Min" Sample.start
      Sample.end_ 10000 "PKTEST" "s3cr3t" true Sample.two_pages in
  (fst result
   = Returns (merge_pages ([Sample.morning_page] ++ [Sample.afternoon_page]) [])
   /\ (forall symbol,
         get (merge_pages ([Sample.morning_page] ++ [Sample.afternoon_page]) [])
             symbol
         = if existsb (fun page => mentions (bars page) symbol)
                      ([Sample.morning_page] ++ [Sample.afternoon_page])
           then Some (List.concat
                        (map (fun page => entries (bars page) symbol)
                             ([Sample.morning_page] ++ [Sample.afternoon_page])))
           else None)
   /\ sent (snd result)
      = sent Sample.two_pages
          ++ page_requests (auth_headers "PKTEST" "s3cr3t") "AAPL" "5Min"
               Sample.start Sample.end_ 10000 None
               ([Sample.morning_page] ++ [Sample.afternoon_page])
   /\ List.length (sent (snd result))
      = (List.length (sent Sample.two_pages) + 2)%nat
   /\ script (snd result) = [])
  /\ fst result = Returns [("AAPL", Sample.full_session)]
  /\ List.length (sent (snd result)) = 2%nat.
Proof.
  split; [|split; vm_compute; reflexivity].
  apply (@pagination Sample.est "AAPL" "5Min" Sample.start Sample.end_ 10000
           "PKTEST" "s3cr3t" Sample.two_pages
           [Sample.ok_response Sample.morning_page;
            Sample.ok_response Sample.afternoon_page]
           [Sample.morning_page] Sample.afternoon_page []).
  - lia.
  - reflexivity.
  - repeat constructor; simpl; discriminate.
  - repeat constructor.
  - reflexivity.
Defined.

(** C6.  A page limit above 10000 makes [download_intraday_dict] raise
    [ValueError] with the world as it was, so no request is sent; with a limit
    of 10000 or less the first request of the loop is sent. *)
Theorem page_limit_checked lib symbols timeframe start end_ limit api_key
        secret_key w :
  (10000 < limit ->
   forall stocks,
     download_intraday_dict lib Globals.time symbols timeframe start end_
                            limit api_key secret_key stocks w
     = (Raises (ValueError "limit must be <= 10000 (Alpaca API restriction)"), w))
  /\ (limit <= 10000 ->
      exists more,
        sent (snd (download_intraday_dict lib Globals.time symbols timeframe
                     start end_ limit api_key secret_key true w))
        = sent w
            ++ mk_request BASE_URL (auth_headers api_key secret_key)
                 (page_params symbols timeframe start end_ limit None)
            :: more).
Proof.
  unfold download_intraday_dict. split; intros Hlimit.
  - intros stocks. destruct (Z.ltb_spec 10000 limit); [reflexivity | lia].
  - destruct (Z.ltb_spec 10000 limit); [lia|]. cbn [negb].
    cbn [fetch_loop]. unfold safe_get.
    destruct (safe_get_from_sent lib Globals.time (script w)
                (mk_request BASE_URL (auth_headers api_key secret_key)
                   (page_params symbols timeframe start end_ limit None))
                (clock w) (sent w) (slept w)) as [more Hs].
    unfold auth_headers in *.
    destruct (safe_get_from lib Globals.time (script w) _ (clock w) (sent w) (slept w))
      as [[r|e| |] w1]; simpl in Hs; try (eexists; exact Hs).
    destruct (json r) as [data|]; [|eexists; exact Hs].
    destruct (negb (truthy (next_page_token data))); [eexists; exact Hs|].
    match goal with
    | |- context [fetch_loop ?l ?t ?f ?h ?a ?b ?c ?d ?e ?sb ?tok w1] =>
        destruct (fetch_loop_sent l t f h a b c d e sb tok w1) as [more' Hs']
    end.
    rewrite Hs', Hs, <- app_assoc. eexists. reflexivity.
Qed.

Lemma page_limit_checked_witness :
  download_intraday_dict Sample.est Globals.time "AAPL" "5Min" Sample.start
    Sample.end_ 10001 "PKTEST" "s3cr3t" true (Sample.one_page Sample.full_session)
  = (Raises (ValueError "limit must be <= 10000 (Alpaca API restriction)"),
     Sample.one_page Sample.full_session)
  /\ exists more,
       sent (snd (download_intraday_dict Sample.est Globals.time "AAPL" "5Min"
                    Sample.start Sample.end_ 10000 "PKTEST" "s3cr3t" true
                    (Sample.one_page Sample.full_session)))
       = sent (Sample.one_page Sample.full_session)
           ++ mk_request BASE_URL (auth_headers "PKTEST" "s3cr3t")
                (page_params "AAPL" "5Min" Sample.start Sample.end_ 10000 None)
           :: more.
Proof.
  split.
  - apply (proj1 (@page_limit_checked Sample.est "AAPL" "5Min" Sample.start
                    Sample.end_ 10001 "PKTEST" "s3cr3t"
                    (Sample.one_page Sample.full_session))).
    lia.
  - apply (proj2 (@page_limit_checked Sample.est "AAPL" "5Min" Sample.start
                    Sample.end_ 10000 "PKTEST" "s3cr3t"
                    (Sample.one_page Sample.full_session))).
    lia.
Defined.

(** C1 does not hold of the code.  Line 5 binds [time] to the class
    [datetime.time], which has no attribute [time]: whatever its headers and
    its body, a 429 makes [safe_get] raise [AttributeError] at line 27, after
    one request and without sleeping or trying again; with a server that
    throttles the first request and would answer the second, the error leaves
    [download_intraday_dict] and [download_intraday]. *)
Theorem throttled_request_raises lib url headers params hdrs body rest now
        sent0 slept0 :
  safe_get lib Globals.time url headers params
           (mk_world (mk_response 429 hdrs body :: rest) now sent0 slept0)
  = (Raises (AttributeError "type object 'datetime.time' has no attribute 'time'"),
     mk_world rest now (sent0 ++ [mk_request url headers params]) slept0)
  /\ fst (download_intraday_dict Sample.est Globals.time "AAPL" "5Min"
            Sample.start Sample.end_ 10000 "PKTEST" "s3cr3t" true
            Sample.throttled_once)
     = Raises (AttributeError "type object 'datetime.time' has no attribute 'time'")
  /\ fst (Cleaner.download_intraday Sample.est "AAPL" "5Min" Sample.start
            Sample.end_ 10000 "PKTEST" "s3cr3t" Sample.throttled_once)
     = Raises (AttributeError "type object 'datetime.time' has no attribute 'time'").
Proof.
  split; [|split].
  - unfold safe_get. cbn [script clock sent slept].
    rewrite safe_get_from_429 by reflexivity. reflexivity.
  - vm_compute. reflexivity.
  - vm_compute. reflexivity.
Qed.

(** Were [time] the module [time], the same world would be recovered from:
    one sleep of 60 seconds, the same request sent twice, the second response
    returned. *)
Example throttled_request_with_time_module :
  safe_get Sample.est time_module BASE_URL (auth_headers "PKTEST" "s3cr3t")
           (page_params "AAPL" "5Min" Sample.start Sample.end_ 10000 None)
           Sample.throttled_once
  = (Returns (Sample.ok_response (mk_payload [("AAPL", Sample.full_session)] None)),
     mk_world []
       (clock Sample.throttled_once + 60)
       (repeat (mk_request BASE_URL (auth_headers "PKTEST" "s3cr3t")
                  (page_params "AAPL" "5Min" Sample.start Sample.end_ 10000 None))
               2)
       [60]).
Proof.
  vm_compute. reflexivity.
Qed.

End FetcherSpec.

(* ===================================================================== *)
(** * The driver and the aggregator *)

Module DriverSpec.

Import Driver.

(** [stack_data] returns the rows of the tables in the order of the
    dictionary, each table's rows in their own order, with their indices. *)
Lemma stack_data_concat df_dict stack_df :
  DataPrep.stack_data df_dict = Ok stack_df ->
  stack_df = List.concat (values df_dict).
Proof.
  unfold DataPrep.stack_data, Pandas.concat.
  destruct (values df_dict); [discriminate|]. intros H. inversion H. reflexivity.
Qed.

Section WithLibrary.

Variable lib : library.

(** A wrong number of arguments: the usage text and status 1. *)
Lemma wrong_count_exits_one argv w :
  (List.length argv < 8 \/ 9 < List.length argv)%nat ->
  main lib argv w = stopped [usage] (Exit 1) w.
Proof.
  intros H. unfold main.
  assert (E : (List.length argv <? 8)%nat || (9 <? List.length argv)%nat = true).
  { apply orb_true_iff. rewrite !Nat.ltb_lt. exact H. }
  rewrite E. reflexivity.
Qed.

(** A help flag followed by six or seven more arguments: the usage text and
    status 0. *)
Lemma help_with_arguments_exits_zero argv w :
  (8 <= List.length argv <= 9)%nat ->
  nth 1 argv EmptyString = "-h" \/ nth 1 argv EmptyString = "--help" ->
  main lib argv w = stopped [usage] (Exit 0) w.
Proof.
  intros Hlen Hflag. unfold main.
  assert (E : (List.length argv <? 8)%nat || (9 <? List.length argv)%nat = false).
  { apply orb_false_iff. rewrite !Nat.ltb_ge. lia. }
  rewrite E. destruct Hflag as [-> | ->]; reflexivity.
Qed.

(** The combined table is made only when line 38 finds the text [stack] in
    [sys.argv[6]], the API key. *)
Lemma stack_df_only_for_key_stack argv w stack_df :
  g_stack_df (main lib argv w) = Some stack_df ->
  List.length argv = 9%nat /\ nth 6 argv EmptyString = "stack"
  /\ exists df_dict, g_df_dict (main lib argv w) = Some df_dict
                     /\ stack_df = List.concat (values df_dict).
Proof.
  unfold main.
  destruct ((List.length argv <? 8)%nat || (9 <? List.length argv)%nat);
    [discriminate|].
  destruct (existsb (String.eqb (nth 1 argv EmptyString)) ["-h"; "--help"]);
    [discriminate|].
  destruct (int_of_str lib (nth 5 argv EmptyString)) as [limit|]; [|discriminate].
  destruct (to_date lib (nth 3 argv EmptyString)) as [startDate|]; [|discriminate].
  destruct (to_date lib (nth 4 argv EmptyString)) as [endDate|]; [|discriminate].
  destruct (Cleaner.download_intraday _ _ _ _ _ _ _ _ _)
    as [[df_dict|e| |] w']; try discriminate.
  destruct (Nat.eqb_spec (List.length argv) 9) as [Hlen|]; [|discriminate].
  destruct (String.eqb_spec (nth 6 argv EmptyString) "stack") as [Hkey|]; [|discriminate].
  destruct (DataPrep.stack_data df_dict) as [df|e] eqn:Hs; [|discriminate].
  simpl. intros H. inversion H; subst.
  repeat split; try assumption.
  exists df_dict. split; [reflexivity | apply stack_data_concat, Hs].
Qed.

(** [main] has fuel enough. *)
Lemma main_fuel argv w : ended (main lib argv w) <> Unknown.
Proof.
  unfold main.
  destruct ((List.length argv <? 8)%nat || (9 <? List.length argv)%nat);
    [discriminate|].
  destruct (existsb (String.eqb (nth 1 argv EmptyString)) ["-h"; "--help"]);
    [discriminate|].
  destruct (int_of_str lib (nth 5 argv EmptyString)) as [limit|]; [|discriminate].
  destruct (to_date lib (nth 3 argv EmptyString)) as [startDate|]; [|discriminate].
  destruct (to_date lib (nth 4 argv EmptyString)) as [endDate|]; [|discriminate].
  destruct (Cleaner.download_intraday lib (nth 1 argv EmptyString) (nth 2 argv EmptyString)
              (nth 3 argv EmptyString) (nth 4 argv EmptyString) limit (nth 6 argv EmptyString)
              (nth 7 argv EmptyString) w) as [[df_dict|e| |] w'] eqn:E; try discriminate.
  - destruct (List.length argv =? 9)%nat; [|discriminate].
    destruct (String.eqb (nth 6 argv EmptyString) "stack"); [|discriminate].
    destruct (DataPrep.stack_data df_dict); discriminate.
  - exfalso. unfold Cleaner.download_intraday in E.
    assert (Hf := @FetcherFacts.download_intraday_dict_fuel lib Globals.time
                    (nth 1 argv EmptyString) (nth 2 argv EmptyString) (nth 3 argv EmptyString)
                    (nth 4 argv EmptyString) limit (nth 6 argv EmptyString) (nth 7 argv EmptyString) true w).
    destruct (Fetcher.download_intraday_dict _ _ _ _ _ _ _ _ _ _ _)
      as [[sb|e| |] w1]; try discriminate.
    + destruct (Cleaner.clean_each lib sb (keys sb) []); discriminate.
    + apply Hf. reflexivity.
Qed.

(** C9 does not hold of the code.  The count of line 9 comes before the test
    of the help flag: a help flag alone prints the usage text and exits with
    status 1, not 0. *)
Theorem help_flag_alone_exits_one w :
  stdout (main lib ["download_data.py"; "-h"] w) = [usage]
  /\ ended (main lib ["download_data.py"; "-h"] w) = Exit 1
  /\ stdout (main lib ["download_data.py"; "--help"] w) = [usage]
  /\ ended (main lib ["download_data.py"; "--help"] w) = Exit 1.
Proof.
  repeat split; reflexivity.
Qed.

End WithLibrary.

(** C8 does not hold of the code.  Line 38 compares [sys.argv[6]], the API
    key, with [stack], not the optional argument [sys.argv[8]]: a run with the
    optional argument [stack] cleans and saves the table of AAPL and makes no
    combined table, and a run whose API key is [stack] makes one whatever the
    optional argument is. *)
Theorem stack_flag_not_consulted :
  nth 8 Sample.argv_stack EmptyString = "stack"
  /\ ended (main Sample.est Sample.argv_stack (Sample.one_page Sample.full_session))
     = Completed
  /\ g_df_dict (main Sample.est Sample.argv_stack
                     (Sample.one_page Sample.full_session))
     = Some [("AAPL", Sample.tagged "AAPL" Sample.full_session)]
  /\ g_stack_df (main Sample.est Sample.argv_stack
                      (Sample.one_page Sample.full_session))
     = None
  /\ nth 8 Sample.argv_key_stack EmptyString = "no"
  /\ g_stack_df (main Sample.est Sample.argv_key_stack
                      (Sample.one_page Sample.full_session))
     = Some (Sample.tagged "AAPL" Sample.full_session).
Proof.
  repeat split; vm_compute; reflexivity.
Qed.

End DriverSpec.

(* ===================================================================== *)
(** * More on the fetcher *)

Module FetcherMore.

Import Fetcher Paging FetcherFacts.

Section WithLibrary.

Variable lib : library.

(** [safe_get] sends the same request each time round its loop. *)
Lemma safe_get_from_sent_repeat time script rq clock0 sent0 slept0 :
  exists k,
    sent (snd (safe_get_from lib time script rq clock0 sent0 slept0))
    = sent0 ++ repeat rq (S k).
Proof.
  revert clock0 sent0 slept0.
  induction script as [|r script IH]; intros clock0 sent0 slept0; simpl.
  - exists 0%nat. reflexivity.
  - destruct (status_code r =? 429); [|exists 0%nat; reflexivity].
    destruct (negb (hasattr time "time")); [exists 0%nat; reflexivity|].
    destruct (match get (headers r) "X-RateLimit-Reset" with
              | Some s => int_of_str lib s
              | None => Some (clock0 + 60)
              end) as [reset_ts|]; [|exists 0%nat; reflexivity].
    destruct (negb (hasattr time "sleep")); [exists 0%nat; reflexivity|].
    destruct (IH (clock0 + Z.max (reset_ts - clock0) 1) (sent0 ++ [rq])
                 (slept0 ++ [Z.max (reset_ts - clock0) 1])) as [k E].
    exists (S k). rewrite E, <- app_assoc. reflexivity.
Qed.

(** Every request of the paging loop is a request for a page. *)
Lemma fetch_loop_requests time fuel headers symbols timeframe start end_ limit
      symbol_bars next_token w :
  exists more,
    sent (snd (fetch_loop lib time fuel headers symbols timeframe start end_
                          limit symbol_bars next_token w))
    = sent w ++ more
    /\ Forall (fun rq => exists tok,
                   rq = mk_request BASE_URL headers
                          (page_params symbols timeframe start end_ limit tok))
              more.
Proof.
  revert symbol_bars next_token w.
  induction fuel as [|fuel IH]; intros symbol_bars next_token w.
  - exists []. simpl. rewrite app_nil_r. split; [reflexivity | constructor].
  - cbn [fetch_loop]. unfold safe_get.
    destruct (safe_get_from_sent_repeat time (script w)
                (mk_request BASE_URL headers
                   (page_params symbols timeframe start end_ limit next_token))
                (clock w) (sent w) (slept w)) as [k Hs].
    assert (Hrep : Forall (fun rq => exists tok,
                      rq = mk_request BASE_URL headers
                             (page_params symbols timeframe start end_ limit tok))
                     (repeat (mk_request BASE_URL headers
                                (page_params symbols timeframe start end_ limit
                                             next_token)) (S k))).
    { apply Forall_forall. intros rq Hrq. apply repeat_spec in Hrq. eauto. }
    destruct (safe_get_from lib time (script w) _ (clock w) (sent w) (slept w))
      as [[r|e| |] w1]; cbn [snd] in Hs; try (eexists; split; [exact Hs | exact Hrep]).
    destruct (json r) as [data|]; [|eexists; split; [exact Hs | exact Hrep]].
    destruct (negb (truthy (next_page_token data)));
      [eexists; split; [exact Hs | exact Hrep]|].
    destruct (IH (merge_page symbol_bars (bars data)) (next_page_token data) w1)
      as [more' [Hs' Hall']].
    exists (repeat (mk_request BASE_URL headers
                      (page_params symbols timeframe start end_ limit next_token))
                   (S k) ++ more').
    split; [rewrite Hs', Hs, <- app_assoc; reflexivity|].
    apply Forall_app. split; assumption.
Qed.

(** What a page request asks for. *)
Lemma page_params_lookup symbols timeframe start end_ limit tok :
  let params := page_params symbols timeframe start end_ limit tok in
  get params "symbols" = Some (Str symbols)
  /\ get params "timeframe" = Some (Str timeframe)
  /\ get params "start" = Some (Str start)
  /\ get params "end" = Some (Str end_)
  /\ get params "adjustment" = Some (Str "raw")
  /\ get params "feed" = Some (Str "sip")
  /\ get params "sort" = Some (Str "asc")
  /\ get params "limit" = Some (Int limit)
  /\ get params "page_token"
     = match tok with
       | Some text => if truthy tok then Some (Str text) else None
       | None => None
       end
  /\ NoDup (keys params).
Proof.
  intros params. subst params.
  destruct tok as [text|]; unfold page_params; [destruct (truthy (Some text))|];
    simpl; (repeat (split; [reflexivity|]));
    repeat (constructor; [simpl; intuition discriminate|]); constructor.
Qed.

(** X1.  Every request [download_intraday_dict] sends goes to the bars
    endpoint with the two credentials in its headers and asks for the same
    symbols, timeframe, start, end and limit, with [adjustment=raw],
    [feed=sip] and [sort=asc]; only the page token differs from one request to
    the next, and it is absent or a text that is not empty. *)
Theorem requests_differ_in_token_only time symbols timeframe start end_ limit
        api_key secret_key stocks w :
  exists more,
    sent (snd (download_intraday_dict lib time symbols timeframe start end_
                 limit api_key secret_key stocks w))
    = sent w ++ more
    /\ Forall
         (fun rq =>
            url rq = BASE_URL
            /\ req_headers rq = auth_headers api_key secret_key
            /\ get (req_headers rq) "APCA-API-KEY-ID" = Some api_key
            /\ get (req_headers rq) "APCA-API-SECRET-KEY" = Some secret_key
            /\ get (params rq) "symbols" = Some (Str symbols)
            /\ get (params rq) "timeframe" = Some (Str timeframe)
            /\ get (params rq) "start" = Some (Str start)
            /\ get (params rq) "end" = Some (Str end_)
            /\ get (params rq) "adjustment" = Some (Str "raw")
            /\ get (params rq) "feed" = Some (Str "sip")
            /\ get (params rq) "sort" = Some (Str "asc")
            /\ get (params rq) "limit" = Some (Int limit)
            /\ NoDup (keys (params rq))
            /\ (get (params rq) "page_token" = None
                \/ exists text, text <> EmptyString
                                /\ get (params rq) "page_token" = Some (Str text)))
         more.
Proof.
  unfold download_intraday_dict.
  destruct (10000 <? limit).
  { exists []. rewrite app_nil_r. split; [reflexivity | constructor]. }
  destruct (negb stocks).
  { exists []. rewrite app_nil_r. split; [reflexivity | constructor]. }
  match goal with
  | |- context [fetch_loop ?l ?t ?f ?h ?a ?b ?c ?d ?e ?sb ?tok w] =>
      destruct (fetch_loop_requests t f h a b c d e sb tok w) as [more [Hs Hall]]
  end.
  exists more. split; [exact Hs|].
  eapply Forall_impl; [|exact Hall].
  intros rq [tok ->]. cbn [url req_headers params].
  destruct (page_params_lookup symbols timeframe start end_ limit tok)
    as (H1 & H2 & H3 & H4 & H5 & H6 & H7 & H8 & H9 & H10).
  repeat (split; [first [reflexivity | assumption]|]).
  rewrite H9. destruct tok as [text|]; [|left; reflexivity].
  destruct (truthy (Some text)) eqn:Ht; [|left; reflexivity].
  right. exists text. split; [|reflexivity].
  intros ->. discriminate.
Qed.

End WithLibrary.

End FetcherMore.

(* ===================================================================== *)
(** * The fetcher as the module binds [time] *)

Module FetcherActual.

Import Fetcher Paging FetcherFacts.

Section WithLibrary.

Variable lib : library.

(** With [time] bound as line 5 binds it, [safe_get] goes round its loop
    once. *)
Lemma safe_get_from_once script rq clock0 sent0 slept0 :
  safe_get_from lib Globals.time script rq clock0 sent0 slept0
  = match script with
    | [] => (Waits, mk_world [] clock0 (sent0 ++ [rq]) slept0)
    | r :: rest =>
        (if status_code r =? 429
         then Raises (AttributeError "type object 'datetime.time' has no attribute 'time'")
         else Returns r,
         mk_world rest clock0 (sent0 ++ [rq]) slept0)
    end.
Proof.
  destruct script as [|r rest]; [reflexivity|].
  simpl. destruct (status_code r =? 429); reflexivity.
Qed.

Lemma fetch_loop_reads_one_per_request fuel headers symbols timeframe start
      end_ limit symbol_bars next_token w o w' :
  fetch_loop lib Globals.time fuel headers symbols timeframe start end_ limit
             symbol_bars next_token w = (o, w') ->
  clock w' = clock w
  /\ slept w' = slept w
  /\ exists k,
       List.length (sent w') = (List.length (sent w) + k)%nat
       /\ script w' = skipn k (script w)
       /\ (o <> Waits -> (k <= List.length (script w))%nat)
       /\ (o = Waits -> k = S (List.length (script w))).
Proof.
  revert symbol_bars next_token w.
  induction fuel as [|fuel IH]; intros symbol_bars next_token w.
  - simpl. intros H. inversion H; subst. repeat split. exists 0%nat.
    repeat split; try lia; discriminate.
  - cbn [fetch_loop]. unfold safe_get. rewrite safe_get_from_once.
    destruct (script w) as [|r rest] eqn:Escript.
    + intros H. inversion H; subst. cbn [clock slept sent script].
      repeat split. exists 1%nat. rewrite length_app. simpl.
      repeat split; try lia; congruence.
    + assert (Hone : forall o1 : outcome (dict (list bar)),
                 o1 <> Waits ->
                 (o1, mk_world rest (clock w)
                        (sent w ++ [mk_request BASE_URL headers
                           (page_params symbols timeframe start end_ limit
                                        next_token)])
                        (slept w)) = (o, w') ->
                 clock w' = clock w
                 /\ slept w' = slept w
                 /\ exists k,
                      List.length (sent w') = (List.length (sent w) + k)%nat
                      /\ script w' = skipn k (r :: rest)
                      /\ (o <> Waits -> (k <= List.length (r :: rest))%nat)
                      /\ (o = Waits -> k = S (List.length (r :: rest)))).
      { intros o1 Ho H. inversion H; subst. cbn [clock slept sent script].
        repeat split. exists 1%nat. rewrite length_app. simpl.
        repeat split; try lia; contradiction. }
      destruct (status_code r =? 429); [apply Hone; discriminate|].
      destruct (json r) as [data|]; [|apply Hone; discriminate].
      destruct (negb (truthy (next_page_token data))); [apply Hone; discriminate|].
      intros H. apply IH in H.
      cbn [clock slept sent script] in H.
      destruct H as (Hc & Hs & k & Hlen & Hscr & Hnw & Hw).
      split; [exact Hc|]. split; [exact Hs|].
      exists (S k). rewrite Hlen, length_app. simpl.
      split; [lia|]. split; [exact Hscr|]. split.
      * intros H. specialize (Hnw H). lia.
      * intros H. rewrite (Hw H). reflexivity.
Qed.

(** X2.  As the module binds [time], [download_intraday_dict] never sleeps:
    it reads one response for every request it sends, in the order of the
    server's answers, and waits only when it has sent one request more than
    there are answers. *)
Theorem one_response_per_request symbols timeframe start end_ limit api_key
        secret_key stocks w :
  let result := download_intraday_dict lib Globals.time symbols timeframe
                  start end_ limit api_key secret_key stocks w in
  fst result <> OutOfFuel
  /\ clock (snd result) = clock w
  /\ slept (snd result) = slept w
  /\ exists k,
       List.length (sent (snd result)) = (List.length (sent w) + k)%nat
       /\ script (snd result) = skipn k (script w)
       /\ (fst result = Waits <-> k = S (List.length (script w))).
Proof.
  intros result.
  split; [apply download_intraday_dict_fuel|].
  subst result. unfold download_intraday_dict.
  assert (Hnone : forall e : exn,
             let res := (@Raises (dict (list bar)) e, w) in
             clock (snd res) = clock w
             /\ slept (snd res) = slept w
             /\ exists k,
                  List.length (sent (snd res)) = (List.length (sent w) + k)%nat
                  /\ script (snd res) = skipn k (script w)
                  /\ (fst res = Waits <-> k = S (List.length (script w)))).
  { intros e res. subst res. cbn [fst snd]. repeat split. exists 0%nat.
    repeat split; try lia; discriminate. }
  destruct (10000 <? limit); [apply Hnone|].
  destruct (negb stocks); [apply Hnone|].
  match goal with
  | |- context [fetch_loop ?l ?t ?f ?h ?a ?b ?c ?d ?e ?sb ?tok w] =>
      destruct (fetch_loop l t f h a b c d e sb tok w) as [o w'] eqn:E
  end.
  apply fetch_loop_reads_one_per_request in E.
  destruct E as (Hc & Hs & k & Hlen & Hscr & Hnw & Hw).
  cbn [fst snd].
  split; [exact Hc|]. split; [exact Hs|].
  exists k. repeat split; try assumption.
  intros Hk. destruct o; try reflexivity;
    (assert (Hle : (k <= List.length (script w))%nat)
      by (apply Hnw; discriminate)); lia.
Qed.

End WithLibrary.

End FetcherActual.

(* ===================================================================== *)
(** * What the paging loop does with what the server sends *)

Module FetcherResponses.

Import Fetcher Paging FetcherFacts Server.

Section WithLibrary.

Variable lib : library.

Lemma as_ok_status r : (status_code (as_ok r) =? 429) = (status_code r =? 429).
Proof.
  unfold as_ok. destruct (status_code r =? 429) eqn:E; [exact E | reflexivity].
Qed.

Lemma as_ok_headers r : headers (as_ok r) = headers r.
Proof.
  unfold as_ok. destruct (status_code r =? 429); reflexivity.
Qed.

Lemma as_ok_json r : json (as_ok r) = json r.
Proof.
  unfold as_ok. destruct (status_code r =? 429); reflexivity.
Qed.

Lemma safe_get_from_as_ok time script rq clock0 sent0 slept0 :
  safe_get_from lib time (map as_ok script) rq clock0 sent0 slept0
  = (match fst (safe_get_from lib time script rq clock0 sent0 slept0) with
     | Returns r => Returns (as_ok r)
     | o => o
     end,
     answering as_ok (snd (safe_get_from lib time script rq clock0 sent0 slept0))).
Proof.
  revert clock0 sent0 slept0.
  induction script as [|r script IH]; intros clock0 sent0 slept0.
  - reflexivity.
  - cbn [map safe_get_from]. rewrite as_ok_status, as_ok_headers.
    destruct (status_code r =? 429); [|reflexivity].
    destruct (negb (hasattr time "time")); [reflexivity|].
    destruct (match get (headers r) "X-RateLimit-Reset" with
              | Some s => int_of_str lib s
              | None => Some (clock0 + 60)
              end) as [reset_ts|]; [|reflexivity].
    destruct (negb (hasattr time "sleep")); [reflexivity|].
    apply IH.
Qed.

Lemma fetch_loop_as_ok time fuel headers symbols timeframe start end_ limit
      symbol_bars next_token w :
  fetch_loop lib time fuel headers symbols timeframe start end_ limit
             symbol_bars next_token (answering as_ok w)
  = (fst (fetch_loop lib time fuel headers symbols timeframe start end_ limit
                     symbol_bars next_token w),
     answering as_ok
       (snd (fetch_loop lib time fuel headers symbols timeframe start end_
                        limit symbol_bars next_token w))).
Proof.
  revert symbol_bars next_token w.
  induction fuel as [|fuel IH]; intros symbol_bars next_token w.
  - reflexivity.
  - cbn [fetch_loop]. unfold safe_get.
    cbn [answering script clock sent slept].
    rewrite safe_get_from_as_ok.
    destruct (safe_get_from lib time (script w) _ (clock w) (sent w) (slept w))
      as [[r|e| |] w1]; cbn [fst snd]; try reflexivity.
    rewrite as_ok_json.
    destruct (json r) as [data|]; [|reflexivity].
    destruct (negb (truthy (next_page_token data))); [reflexivity|].
    apply IH.
Qed.

(** X3.  [download_intraday_dict] looks at the status of a response only to
    tell a 429 from the rest: were every other status the server sends
    replaced by 200, the result or the exception, the requests sent and the
    answers read would all be the same.  A response with an error status and
    a JSON body is read as a page. *)
Theorem status_other_than_429_not_read time symbols timeframe start end_ limit
        api_key secret_key stocks w :
  download_intraday_dict lib time symbols timeframe start end_ limit api_key
                         secret_key stocks (answering as_ok w)
  = (fst (download_intraday_dict lib time symbols timeframe start end_ limit
            api_key secret_key stocks w),
     answering as_ok
       (snd (download_intraday_dict lib time symbols timeframe start end_
               limit api_key secret_key stocks w))).
Proof.
  unfold download_intraday_dict.
  destruct (10000 <? limit); [reflexivity|].
  destruct (negb stocks); [reflexivity|].
  replace (List.length (script (answering as_ok w)))
    with (List.length (script w))
    by (cbn [answering script]; rewrite length_map; reflexivity).
  apply fetch_loop_as_ok.
Qed.

(** The loop after the pages [pages], each with a continuation token. *)
Lemma fetch_loop_prefix time pages :
  forall rs rest fuel headers symbols timeframe start end_ limit symbol_bars
         next_token clock0 sent0 slept0,
    Forall2 (fun r page => status_code r <> 429 /\ json r = Some page) rs pages ->
    Forall (fun page => truthy (next_page_token page) = true) pages ->
    fetch_loop lib time (List.length rs + fuel) headers symbols timeframe
               start end_ limit symbol_bars next_token
               (mk_world (rs ++ rest) clock0 sent0 slept0)
    = fetch_loop lib time fuel headers symbols timeframe start end_ limit
                 (merge_pages pages symbol_bars)
                 (fold_left (fun _ page => next_page_token page) pages next_token)
                 (mk_world rest clock0
                           (sent0 ++ page_requests headers symbols timeframe
                                       start end_ limit next_token pages)
                           slept0).
Proof.
  induction pages as [|page pages IH];
    intros rs rest fuel headers symbols timeframe start end_ limit symbol_bars
           next_token clock0 sent0 slept0 Hrs Hpages.
  - inversion Hrs; subst. simpl. rewrite app_nil_r. reflexivity.
  - inversion Hrs as [|r p rs' ps' [Hst Hjs] Hrest]; subst.
    inversion Hpages as [|? ? Htok Hpages']; subst.
    cbn [List.length Nat.add app fetch_loop]. unfold safe_get.
    cbn [Fetcher.script Fetcher.clock Fetcher.sent Fetcher.slept].
    rewrite safe_get_from_passes by assumption.
    rewrite Hjs, Htok. cbn [negb].
    rewrite (IH rs' rest fuel) by assumption.
    cbn [merge_pages fold_left page_requests].
    rewrite <- app_assoc. reflexivity.
Qed.

(** X4.  Nothing is kept of the pages read when the paging stops short.
    After any number of pages that carry a continuation token, as the module
    binds [time]: a 429 makes [download_intraday_dict] raise
    [AttributeError], a response other than 429 whose body is not JSON makes
    it raise the decoding error, and with no answer left it waits; in none of
    these cases are the bars of the pages read returned. *)
Theorem pages_lost_when_paging_stops symbols timeframe start end_ limit
        api_key secret_key w rs pages rest :
  limit <= 10000 ->
  script w = rs ++ rest ->
  Forall2 (fun r page => status_code r <> 429 /\ json r = Some page) rs pages ->
  Forall (fun page => truthy (next_page_token page) = true) pages ->
  let result :=
    download_intraday_dict lib Globals.time symbols timeframe start end_ limit
                           api_key secret_key true w in
  match rest with
  | [] => fst result = Waits
  | r :: _ =>
      (status_code r = 429 ->
       fst result
       = Raises (AttributeError "type object 'datetime.time' has no attribute 'time'"))
      /\ (status_code r <> 429 -> json r = None ->
          fst result = Raises JSONDecodeError)
  end.
Proof.
  intros Hlimit Hscript Hrs Hpages result. subst result.
  unfold download_intraday_dict.
  destruct (Z.ltb_spec 10000 limit); [lia|]. cbn [negb].
  destruct w as [sc cl se sl]. cbn [script] in *. subst sc.
  replace (S (List.length (rs ++ rest)))
    with (List.length rs + S (List.length rest))%nat
    by (rewrite length_app; lia).
  rewrite (@fetch_loop_prefix Globals.time pages rs rest) by assumption.
  cbn [fetch_loop]. unfold safe_get.
  cbn [Fetcher.script Fetcher.clock Fetcher.sent Fetcher.slept].
  destruct rest as [|r rest'].
  - reflexivity.
  - split.
    + intros H429. rewrite safe_get_from_429 by assumption. reflexivity.
    + intros Hst Hjs. rewrite safe_get_from_passes by assumption.
      rewrite Hjs. reflexivity.
Qed.

End WithLibrary.

End FetcherResponses.

(* ===================================================================== *)
(** * The accumulated bars *)

Module MergeFacts.

Import Fetcher Paging FetcherFacts.

Lemma get_none_not_key {V} (d : dict V) k : get d k = None -> ~ In k (keys d).
Proof.
  induction d as [|[k0 v0] d IH]; simpl; [tauto|].
  destruct (String.eqb_spec k k0) as [->|Hne]; [discriminate|].
  intros H [Heq|Hin]; [congruence | exact (IH H Hin)].
Qed.

Lemma set_new {V} (d : dict V) k v : get d k = None -> set d k v = d ++ [(k, v)].
Proof.
  induction d as [|[k0 v0] d IH]; simpl; [reflexivity|].
  destruct (String.eqb_spec k k0) as [->|Hne]; [discriminate|].
  intros H. rewrite (IH H). reflexivity.
Qed.

Lemma keys_set_old {V} (d : dict V) k v old :
  get d k = Some old -> keys (set d k v) = keys d.
Proof.
  induction d as [|[k0 v0] d IH]; simpl; [discriminate|].
  destruct (String.eqb_spec k k0) as [->|Hne]; [reflexivity|].
  intros H. simpl. f_equal. apply IH, H.
Qed.

Lemma setdefault_extend_keys acc k barlist :
  NoDup (keys acc) -> NoDup (keys (setdefault_extend acc k barlist)).
Proof.
  intros Hnd. unfold setdefault_extend.
  destruct (get acc k) as [old|] eqn:E.
  - rewrite (keys_set_old _ _ _ E). exact Hnd.
  - rewrite (set_new _ _ _ E). unfold keys. rewrite map_app. simpl.
    apply NoDup_app; [exact Hnd | repeat constructor; simpl; tauto |].
    intros x Hx [<-|[]]. exact (get_none_not_key _ _ E Hx).
Qed.

Lemma merge_page_keys page acc :
  NoDup (keys acc) -> NoDup (keys (merge_page acc page)).
Proof.
  unfold merge_page. revert acc.
  induction page as [|[k b] page IH]; intros acc Hnd; simpl; [exact Hnd|].
  apply IH, setdefault_extend_keys, Hnd.
Qed.

Lemma merge_pages_keys pages acc :
  NoDup (keys acc) -> NoDup (keys (merge_pages pages acc)).
Proof.
  unfold merge_pages. revert acc.
  induction pages as [|page pages IH]; intros acc Hnd; simpl; [exact Hnd|].
  apply IH, merge_page_keys, Hnd.
Qed.

(** The dictionary the paging loop returns has every symbol once. *)
Lemma fetch_loop_keys lib time fuel headers symbols timeframe start end_ limit
      symbol_bars next_token w result :
  NoDup (keys symbol_bars) ->
  fst (fetch_loop lib time fuel headers symbols timeframe start end_ limit
                  symbol_bars next_token w) = Returns result ->
  NoDup (keys result).
Proof.
  revert symbol_bars next_token w.
  induction fuel as [|fuel IH]; intros symbol_bars next_token w Hnd;
    [discriminate|].
  cbn [fetch_loop].
  destruct (safe_get lib time BASE_URL headers _ w) as [[r|e| |] w1];
    try discriminate.
  destruct (json r) as [data|]; [|discriminate].
  destruct (negb (truthy (next_page_token data))).
  - cbn [fst]. intros H. inversion H; subst. apply merge_page_keys, Hnd.
  - apply IH, merge_page_keys, Hnd.
Qed.

Lemma download_intraday_dict_keys lib time symbols timeframe start end_ limit
      api_key secret_key stocks w result :
  fst (download_intraday_dict lib time symbols timeframe start end_ limit
                              api_key secret_key stocks w) = Returns result ->
  NoDup (keys result).
Proof.
  unfold download_intraday_dict.
  destruct (10000 <? limit); [discriminate|].
  destruct (negb stocks); [discriminate|].
  apply fetch_loop_keys. constructor.
Qed.

Lemma values_app {V} (d1 d2 : dict V) : values (d1 ++ d2) = values d1 ++ values d2.
Proof.
  unfold values. apply map_app.
Qed.

Lemma setdefault_extend_bars acc k barlist :
  Permutation (List.concat (values (setdefault_extend acc k barlist)))
              (List.concat (values acc) ++ barlist).
Proof.
  unfold setdefault_extend.
  destruct (get acc k) as [old|] eqn:E.
  - revert E. induction acc as [|[k0 v0] acc IH]; simpl; [discriminate|].
    destruct (String.eqb_spec k k0) as [->|Hne].
    + intros H. inversion H; subst. simpl.
      rewrite <- !app_assoc. apply Permutation_app_head, Permutation_app_comm.
    + intros H. simpl. rewrite <- app_assoc.
      apply Permutation_app_head, IH, H.
  - rewrite (set_new _ _ _ E), values_app, concat_app. simpl.
    rewrite app_nil_r. reflexivity.
Qed.

Lemma merge_page_bars page acc :
  Permutation (List.concat (values (merge_page acc page)))
              (List.concat (values acc) ++ List.concat (values page)).
Proof.
  unfold merge_page. revert acc.
  induction page as [|[k b] page IH]; intros acc; simpl.
  - rewrite app_nil_r. reflexivity.
  - rewrite IH, setdefault_extend_bars, <- app_assoc. reflexivity.
Qed.

Lemma merge_pages_bars pages acc :
  Permutation
    (List.concat (values (merge_pages pages acc)))
    (List.concat (values acc)
       ++ List.concat (map (fun page => List.concat (values (bars page))) pages)).
Proof.
  unfold merge_pages. revert acc.
  induction pages as [|page pages IH]; intros acc; simpl.
  - rewrite app_nil_r. reflexivity.
  - rewrite IH, merge_page_bars, <- app_assoc. reflexivity.
Qed.

(** X5.  When the server answers with pages of which every one but the last
    has a continuation token, the dictionary [download_intraday_dict] returns
    has every symbol once, and its bars taken together are the bars of the
    pages taken together, each as many times as the pages have it: no bar is
    lost and none is added. *)
Theorem no_bar_lost_or_added lib symbols timeframe start end_ limit api_key
        secret_key w rs pages last rest :
  limit <= 10000 ->
  script w = rs ++ rest ->
  Forall2 (fun r page => status_code r <> 429 /\ json r = Some page)
          rs (pages ++ [last]) ->
  Forall (fun page => truthy (next_page_token page) = true) pages ->
  truthy (next_page_token last) = false ->
  exists symbol_bars,
    fst (download_intraday_dict lib Globals.time symbols timeframe start end_
           limit api_key secret_key true w) = Returns symbol_bars
    /\ NoDup (keys symbol_bars)
    /\ Permutation
         (List.concat (values symbol_bars))
         (List.concat (map (fun page => List.concat (values (bars page)))
                           (pages ++ [last]))).
Proof.
  intros Hlimit Hscript Hrs Hpages Hlast.
  exists (merge_pages (pages ++ [last]) []).
  split; [|split].
  - unfold download_intraday_dict.
    destruct (Z.ltb_spec 10000 limit); [lia|]. cbn [negb].
    destruct w as [sc cl se sl]. cbn [script] in *. subst sc.
    rewrite (@FetcherSpec.fetch_loop_pages lib Globals.time pages last rs rest);
      try assumption; [reflexivity | rewrite length_app; lia].
  - apply merge_pages_keys. constructor.
  - apply (merge_pages_bars (pages ++ [last]) []).
Qed.

End MergeFacts.

(* ===================================================================== *)
(** * More on the cleaner *)

Module CleanerMore.

Import ListFacts Closed CleanerFacts DownloadFacts.

Local Arguments Nat.leb : simpl never.

Lemma complete_days_some lib rows :
  complete_days lib rows <> [] -> exists d, complete lib rows d = true.
Proof.
  unfold complete_days.
  destruct (filter _ _) as [|g gs] eqn:E; [congruence|]. intros _.
  assert (Hg : In g (g :: gs)) by (simpl; auto).
  rewrite <- E in Hg. apply filter_In in Hg. destruct Hg as [Hg Hbig].
  apply in_map_iff in Hg. destruct Hg as [d [<- _]].
  exists d. exact Hbig.
Qed.

(** A date with 78 bars inside the window is enough for a table. *)
Lemma complete_gives_table lib sym bars d :
  complete lib (session_rows lib bars) d = true ->
  exists df, Cleaner.clean_symbol lib sym bars = Ok df.
Proof.
  intros Hc. eexists. apply clean_symbol_ok.
  split; [|split; [|reflexivity]].
  - intros ->. destruct (complete_has_row _ _ _ Hc) as [r [Hr _]]. exact Hr.
  - intros E. rewrite complete_days_nil in E. rewrite E in Hc. discriminate.
Qed.

(** A table comes from a date with 78 bars inside the window. *)
Lemma table_gives_complete lib sym bars df :
  Cleaner.clean_symbol lib sym bars = Ok df ->
  exists d, complete lib (session_rows lib bars) d = true.
Proof.
  intros H. apply clean_symbol_ok in H. destruct H as (_ & Hdays & _).
  apply complete_days_some. exact Hdays.
Qed.

(** X6.  The cleaning of a symbol returns a table as soon as one date has 78
    bars inside the session window; a table it returns is never empty, so
    [temp_df.index[0]] of line 177 never raises. *)
Theorem table_returned_and_not_empty lib sym bars :
  (forall d, complete lib (session_rows lib bars) d = true ->
             exists df, Cleaner.clean_symbol lib sym bars = Ok df)
  /\ (forall df, Cleaner.clean_symbol lib sym bars = Ok df ->
                 df <> [] /\ exists d, complete lib (session_rows lib bars) d = true)
  /\ (forall msg, Cleaner.clean_symbol lib sym bars <> Err (IndexError msg)).
Proof.
  split; [|split].
  - intros d Hc. exact (complete_gives_table lib sym bars d Hc).
  - intros df H. split; [|exact (table_gives_complete _ _ _ H)].
    apply clean_symbol_ok in H. destruct H as (Hne & Hdays & ->).
    intros E. apply map_eq_nil in E.
    apply complete_days_rows_nonempty, drop_dups_nonempty in Hdays.
    contradiction.
  - intros msg H.
    destruct (Cleaner.clean_symbol lib sym bars) as [df|e] eqn:E;
      [discriminate|].
    rewrite clean_symbol_closed in E. destruct bars as [|b bars]; [congruence|].
    destruct (complete_days lib (session_rows lib (b :: bars))) as [|g gs] eqn:Ed;
      [simpl in E; congruence|].
    unfold Pandas.concat, bind in E.
    assert (Hne : complete_days lib (session_rows lib (b :: bars)) <> [])
      by (rewrite Ed; discriminate).
    apply complete_days_rows_nonempty, drop_dups_nonempty in Hne.
    rewrite Ed in Hne.
    destruct (drop_dups [] (List.concat (g :: gs))); [congruence | discriminate].
Qed.

Section Run.

Variable lib : library.
Variables symbols timeframe start end_ api_key secret_key : string.
Variable limit : Z.
Variable w : Fetcher.world.

Local Abbreviation fetched :=
  (fst (Fetcher.download_intraday_dict lib Globals.time symbols timeframe
          start end_ limit api_key secret_key true w)).
Local Abbreviation returned :=
  (fst (Cleaner.download_intraday lib symbols timeframe start end_ limit
          api_key secret_key w)).

(** X7.  Every table [download_intraday] returns is labelled with its key
    and holds no instant that was not fetched for it: each row of the table
    stored under a symbol has that symbol in its [symbol] column (lines 179
    and 181), and its timestamp is the timestamp of a bar fetched for that
    same symbol. *)
Theorem table_rows_of_own_symbol df_dict :
  returned = Fetcher.Returns df_dict ->
  exists symbol_bars,
    fetched = Fetcher.Returns symbol_bars /\
    forall sym df, In (sym, df) df_dict ->
      exists raw,
        get symbol_bars sym = Some raw /\
        forall r, In r df ->
          symbol r = sym /\ In (index (data r)) (map Bar.t raw).
Proof.
  intros Hret.
  destruct (download_intraday_inv _ _ _ _ _ _ _ _ _ Hret) as [symbol_bars [Hf Htab]].
  exists symbol_bars. split; [exact Hf|].
  intros sym df Hin. destruct (Htab _ _ Hin) as [raw [Hget Hclean]].
  exists raw. split; [exact Hget|]. intros r Hr.
  destruct (in_table _ _ _ _ Hclean Hr) as [Hsym [Hs _]].
  split; [symmetry; exact Hsym|].
  apply in_session_rows in Hs. destruct Hs as [[b [Hb ->]] _].
  apply in_map_iff. exists b. split; [reflexivity | exact Hb].
Qed.

End Run.

End CleanerMore.

(* ===================================================================== *)
(** * Which of the bars with one timestamp is kept *)

Module KeepFirst.

Import ListFacts Closed CleanerFacts DownloadFacts.

Local Arguments Nat.leb : simpl never.

Lemma find_filter {A} (p q : A -> bool) (l : list A) :
  (forall x, In x l -> p x = true -> q x = true) ->
  find p (filter q l) = find p l.
Proof.
  induction l as [|x l IH]; intros H; simpl; [reflexivity|].
  destruct (q x) eqn:Hq; simpl.
  - destruct (p x); [reflexivity|]. apply IH. intros y Hy. apply H. simpl. auto.
  - destruct (p x) eqn:Hp.
    + rewrite (H x (or_introl eq_refl) Hp) in Hq. discriminate.
    + apply IH. intros y Hy. apply H. simpl. auto.
Qed.

Lemma find_map {A B} (f : A -> B) (p : B -> bool) (l : list A) :
  find p (map f l) = option_map f (find (fun a => p (f a)) l).
Proof.
  induction l as [|x l IH]; simpl; [reflexivity|].
  destruct (p (f x)); [reflexivity | exact IH].
Qed.

(** A row that [drop_dups] keeps is the first one of the frame with its
    index. *)
Lemma drop_dups_first x seen rows :
  In x (drop_dups seen rows) ->
  find (fun y => index y =? index x) rows = Some x.
Proof.
  revert seen. induction rows as [|y rows IH]; intros seen; simpl; [tauto|].
  destruct (existsb (Z.eqb (index y)) seen) eqn:E.
  - intros H. pose proof (in_drop_dups _ _ _ H) as [_ Hseen].
    destruct (Z.eqb_spec (index y) (index x)) as [Heq|Hne].
    + exfalso. apply Hseen. simpl. auto.
    + exact (IH _ H).
  - intros [->|H].
    + rewrite Z.eqb_refl. reflexivity.
    + pose proof (in_drop_dups _ _ _ H) as [_ Hseen].
      destruct (Z.eqb_spec (index y) (index x)) as [Heq|Hne].
      * exfalso. apply Hseen. simpl. auto.
      * exact (IH _ H).
Qed.

Section WithLibrary.

Variable lib : library.

Lemma in_session_by_index x y :
  index x = index y -> Cleaner.in_session lib x = Cleaner.in_session lib y.
Proof.
  unfold Cleaner.in_session. intros ->. reflexivity.
Qed.

(** X8.  Of the fetched bars of a symbol that have the same timestamp, the
    table keeps the one fetched first: every row of the table carries the
    values of the first fetched bar with its timestamp. *)
Theorem first_of_equal_timestamps_kept sym raw df :
  Cleaner.clean_symbol lib sym raw = Ok df ->
  forall r, In r df ->
    exists b,
      find (fun b => Bar.t b =? index (data r)) raw = Some b
      /\ data r = rename b.
Proof.
  intros Hclean r Hr.
  destruct (in_table _ _ _ _ Hclean Hr) as [_ [Hs Hc]].
  rewrite (clean_symbol_rows _ _ _ Hclean) in Hr.
  apply in_map_iff in Hr. destruct Hr as [x [<- Hx]]. cbn [data] in *.
  apply drop_dups_first in Hx.
  set (F := session_rows lib raw) in *.
  set (p := fun y : row => index y =? index x) in *.
  assert (Hdate : forall y, p y = true ->
                    (Cleaner.date lib (index y) =? Cleaner.date lib (index x)) = true).
  { intros y Hy. unfold p in Hy. apply Z.eqb_eq in Hy. rewrite Hy.
    apply Z.eqb_refl. }
  assert (HF : find p F = Some x).
  { rewrite <- Hx.
    rewrite <- (find_filter p (fun y => Cleaner.date lib (index y)
                                       =? Cleaner.date lib (index x))
                           (List.concat (complete_days lib F)))
      by (intros y _; apply Hdate).
    fold (on_date lib (Cleaner.date lib (index x))
                  (List.concat (complete_days lib F))).
    rewrite on_date_complete_days, Hc. unfold on_date.
    symmetry. apply find_filter. intros y _. apply Hdate. }
  unfold F, session_rows in HF.
  rewrite find_filter in HF.
  - rewrite find_map in HF.
    destruct (find (fun a => p (rename a)) raw) as [b|] eqn:Eb; [|discriminate].
    exists b. split; [|inversion HF; reflexivity].
    exact Eb.
  - intros y _ Hy. unfold p in Hy. apply Z.eqb_eq in Hy.
    rewrite (in_session_by_index y x Hy).
    apply in_session_rows in Hs. tauto.
Qed.

End WithLibrary.

End KeepFirst.

(* ===================================================================== *)
(** * A series that is clean already *)

Module CleanSeries.

Import ListFacts Closed CleanerFacts DownloadFacts.

Local Arguments Nat.leb : simpl never.

Lemma filter_all {A} (p : A -> bool) (l : list A) :
  Forall (fun x => p x = true) l -> filter p l = l.
Proof.
  induction 1 as [|x l Hx Hl IH]; simpl; [reflexivity|].
  rewrite Hx, IH. reflexivity.
Qed.

Lemma filter_none {A} (p : A -> bool) (l : list A) :
  Forall (fun x => p x = false) l -> filter p l = [].
Proof.
  induction 1 as [|x l Hx Hl IH]; simpl; [reflexivity|].
  rewrite Hx. exact IH.
Qed.

Lemma filter_of_map {A B} (f : A -> B) (p : B -> bool) (l : list A) :
  filter p (map f l) = map f (filter (fun a => p (f a)) l).
Proof.
  induction l as [|x l IH]; simpl; [reflexivity|].
  destruct (p (f x)); simpl; rewrite IH; reflexivity.
Qed.

Section WithLibrary.

Variable lib : library.

Local Abbreviation row_date := (fun r : row => Cleaner.date lib (index r)).

(** In a frame ordered by date whose dates are all [d] or later, the rows of
    [d] come first. *)
Lemma rows_of_first_date d rows :
  StronglySorted Z.le (map row_date rows) ->
  (forall r, In r rows -> d <= Cleaner.date lib (index r)) ->
  rows = on_date lib d rows
           ++ filter (fun r => negb (Cleaner.date lib (index r) =? d)) rows.
Proof.
  unfold on_date.
  induction rows as [|r rows IH]; intros Hs Hge; [reflexivity|].
  inversion Hs as [|? ? Hs' Hall]; subst.
  simpl. destruct (Z.eqb_spec (Cleaner.date lib (index r)) d) as [E|E]; simpl.
  - f_equal. apply IH; [exact Hs'|]. intros x Hx. apply Hge. simpl. auto.
  - assert (Hlater : Forall (fun x => (Cleaner.date lib (index x) =? d) = false) rows).
    { apply Forall_forall. intros x Hx. apply Z.eqb_neq.
      rewrite Forall_forall in Hall.
      specialize (Hall _ (in_map row_date _ _ Hx)). simpl in Hall.
      specialize (Hge r (or_introl eq_refl)). lia. }
    rewrite (filter_none _ Hlater). simpl. f_equal.
    symmetry. apply filter_all.
    eapply Forall_impl; [|exact Hlater]. intros x Hx. simpl in Hx.
    rewrite Hx. reflexivity.
Qed.

(** Grouping a frame ordered by date by its dates in ascending order, and
    putting the groups together again, gives the frame back. *)
Lemma groups_of_sorted_frame ds :
  forall rows,
    StronglySorted Z.lt ds ->
    (forall r, In r rows -> In (Cleaner.date lib (index r)) ds) ->
    StronglySorted Z.le (map row_date rows) ->
    List.concat (map (fun d => on_date lib d rows) ds) = rows.
Proof.
  induction ds as [|d ds IH]; intros rows Hds Hin Hs.
  - destruct rows as [|r rows]; [reflexivity|].
    destruct (Hin r (or_introl eq_refl)).
  - inversion Hds as [|? ? Hds' Hall]; subst.
    set (later := filter (fun r => negb (Cleaner.date lib (index r) =? d)) rows).
    assert (Hsplit : rows = on_date lib d rows ++ later).
    { apply rows_of_first_date; [exact Hs|].
      intros r Hr. destruct (Hin r Hr) as [<-|Hd]; [lia|].
      rewrite Forall_forall in Hall. specialize (Hall _ Hd). lia. }
    simpl.
    assert (Hmap : map (fun d' => on_date lib d' rows) ds
                   = map (fun d' => on_date lib d' later) ds).
    { apply map_ext_in. intros d' Hd'.
      rewrite Hsplit at 1. unfold on_date at 1. rewrite filter_app.
      fold (on_date lib d' (on_date lib d rows)). fold (on_date lib d' later).
      rewrite on_date_on_date.
      rewrite Forall_forall in Hall. specialize (Hall _ Hd').
      destruct (Z.eqb_spec d' d); [lia | reflexivity]. }
    rewrite Hmap, (IH later).
    + symmetry. exact Hsplit.
    + exact Hds'.
    + intros r Hr. unfold later in Hr. apply filter_In in Hr.
      destruct Hr as [Hr Hne]. apply negb_true_iff, Z.eqb_neq in Hne.
      destruct (Hin r Hr) as [E|Hd]; [congruence | exact Hd].
    + unfold later. apply filter_sorted. exact Hs.
Qed.

(** X9.  A series that is clean is left as it is.  When the fetched bars of a
    symbol are all inside the session window, have distinct timestamps, come
    date after date, and every date has at least 78 of them, the table
    returned has exactly these bars, in the order in which they were
    fetched. *)
Theorem clean_series_unchanged sym raw :
  raw <> [] ->
  Forall (fun b => Cleaner.in_session lib (rename b) = true) raw ->
  NoDup (map Bar.t raw) ->
  StronglySorted Z.le (map (fun b => Cleaner.date lib (Bar.t b)) raw) ->
  (forall b, In b raw ->
     (78 <= List.length
               (filter (fun b' => (Cleaner.date lib (Bar.t b')
                                   =? Cleaner.date lib (Bar.t b))%Z) raw))%nat) ->
  Cleaner.clean_symbol lib sym raw
  = Ok (map (fun b => mk_srow (rename b) sym) raw).
Proof.
  intros Hne Hwin Hnd Hsorted Hfull.
  assert (HF : session_rows lib raw = map rename raw).
  { unfold session_rows. apply filter_all.
    apply Forall_forall. intros r Hr. apply in_map_iff in Hr.
    destruct Hr as [b [<- Hb]]. rewrite Forall_forall in Hwin. auto. }
  assert (Hdates : map row_date (map rename raw)
                   = map (fun b => Cleaner.date lib (Bar.t b)) raw)
    by (rewrite map_map; reflexivity).
  assert (Hcomplete : forall r, In r (map rename raw) ->
            complete lib (map rename raw) (Cleaner.date lib (index r)) = true).
  { intros r Hr. apply in_map_iff in Hr. destruct Hr as [b [<- Hb]].
    unfold complete, on_date. apply Nat.leb_le.
    rewrite filter_of_map, length_map. exact (Hfull b Hb). }
  assert (Hdays : List.concat (complete_days lib (map rename raw)) = map rename raw).
  { unfold complete_days. rewrite filter_all.
    - apply groups_of_sorted_frame.
      + apply np_unique_sorted.
      + intros r Hr. apply in_np_unique. apply (in_map row_date), Hr.
      + rewrite Hdates. exact Hsorted.
    - apply Forall_forall. intros g Hg. apply in_map_iff in Hg.
      destruct Hg as [d [<- Hd]]. rewrite in_np_unique in Hd.
      apply in_map_iff in Hd. destruct Hd as [r [<- Hr]].
      exact (Hcomplete r Hr). }
  apply clean_symbol_ok. rewrite HF, Hdays.
  split; [exact Hne|]. split.
  - intros E. rewrite E in Hdays. simpl in Hdays.
    destruct raw; [congruence | discriminate].
  - rewrite drop_dups_id.
    + rewrite map_map. reflexivity.
    + rewrite index_renamed. exact Hnd.
    + intros; tauto.
Qed.

End WithLibrary.

End CleanSeries.

(* ===================================================================== *)
(** * The tables of a batch of symbols *)

Module Batch.

Import ListFacts Closed CleanerFacts DownloadFacts MergeFacts CleanerMore.

Lemma not_key_get_none {V} (d : dict V) k : ~ In k (keys d) -> get d k = None.
Proof.
  induction d as [|[k0 v0] d IH]; simpl; [reflexivity|].
  intros H. destruct (String.eqb_spec k k0) as [->|Hne]; [tauto|].
  apply IH. tauto.
Qed.

Lemma key_has_value {V} (d : dict V) k : In k (keys d) -> exists v, get d k = Some v.
Proof.
  intros H. destruct (get d k) as [v|] eqn:E; [eauto|].
  exfalso. exact (get_none_not_key _ _ E H).
Qed.

Lemma key_has_entry {V} (d : dict V) k : In k (keys d) -> exists v, In (k, v) d.
Proof.
  unfold keys. intros H. apply in_map_iff in H.
  destruct H as [[k0 v] [E Hin]]. simpl in E. subst. eauto.
Qed.

Section WithLibrary.

Variable lib : library.

(** The loop over the symbols adds one table for each, in their order. *)
Lemma clean_each_keys symbol_bars todo init df_dict :
  NoDup todo ->
  (forall k, In k todo -> ~ In k (keys init)) ->
  Cleaner.clean_each lib symbol_bars todo init = Ok df_dict ->
  keys df_dict = keys init ++ todo.
Proof.
  revert init. induction todo as [|s todo IH]; intros init Hnd Hnew; simpl.
  - intros H. inversion H. rewrite app_nil_r. reflexivity.
  - destruct (get symbol_bars s) as [bars|]; [|discriminate].
    destruct (Cleaner.clean_symbol lib s bars) as [temp_df|e]; simpl;
      [|discriminate].
    inversion Hnd as [|? ? Hs Hnd']; subst.
    assert (Hset : set init s temp_df = init ++ [(s, temp_df)]).
    { apply set_new, not_key_get_none, Hnew. simpl. auto. }
    rewrite Hset. intros H. apply IH in H; [| exact Hnd' |].
    + rewrite H. unfold keys. rewrite map_app, <- app_assoc. reflexivity.
    + intros k Hk. unfold keys. rewrite map_app, in_app_iff. simpl.
      intros [Hin|[<-|[]]]; [|contradiction].
      apply (Hnew k); simpl; auto.
Qed.

(** The loop returns when every symbol has a complete date. *)
Lemma clean_each_returns symbol_bars todo init :
  (forall s, In s todo ->
     exists raw, get symbol_bars s = Some raw
                 /\ exists d, complete lib (session_rows lib raw) d = true) ->
  exists df_dict, Cleaner.clean_each lib symbol_bars todo init = Ok df_dict.
Proof.
  revert init. induction todo as [|s todo IH]; intros init H; simpl; [eauto|].
  destruct (H s (or_introl eq_refl)) as (raw & Hget & d & Hc).
  rewrite Hget.
  destruct (complete_gives_table lib s raw d Hc) as [df Hdf].
  rewrite Hdf. simpl. apply IH. intros s' Hs'. apply H. simpl. auto.
Qed.

Variables symbols timeframe start end_ api_key secret_key : string.
Variable limit : Z.
Variable w : Fetcher.world.

Local Abbreviation fetched :=
  (fst (Fetcher.download_intraday_dict lib Globals.time symbols timeframe
          start end_ limit api_key secret_key true w)).
Local Abbreviation returned :=
  (fst (Cleaner.download_intraday lib symbols timeframe start end_ limit
          api_key secret_key w)).

(** The keys of what [download_intraday] returns are those of what the fetch
    returned. *)
Lemma tables_keys symbol_bars df_dict :
  fetched = Fetcher.Returns symbol_bars ->
  returned = Fetcher.Returns df_dict ->
  keys df_dict = keys symbol_bars /\ NoDup (keys df_dict).
Proof.
  intros Hf.
  assert (Hnd := download_intraday_dict_keys _ _ _ _ _ _ _ _ _ _ _ Hf).
  unfold Cleaner.download_intraday.
  destruct (Fetcher.download_intraday_dict lib Globals.time symbols timeframe
              start end_ limit api_key secret_key true w) as [o w1].
  cbn [fst] in Hf. subst o.
  destruct (Cleaner.clean_each lib symbol_bars (keys symbol_bars) [])
    as [d0|e0] eqn:Hc; cbn [fst]; [|discriminate].
  intros H. inversion H; subst.
  apply clean_each_keys in Hc; [| exact Hnd | intros k _ []].
  split; [exact Hc | rewrite Hc; exact Hnd].
Qed.

(** X10.  The symbols of a call are cleaned all or none.  When the fetch
    returns, [download_intraday] returns exactly when every fetched symbol has
    a date with 78 bars inside the session window, and raises otherwise; what
    it returns has one table for each fetched symbol, in the order in which
    the symbols were first fetched. *)
Theorem all_symbols_or_none symbol_bars :
  fetched = Fetcher.Returns symbol_bars ->
  ((exists df_dict, returned = Fetcher.Returns df_dict)
   <-> forall sym raw, get symbol_bars sym = Some raw ->
         exists d, complete lib (session_rows lib raw) d = true)
  /\ ((exists df_dict, returned = Fetcher.Returns df_dict)
      \/ exists e, returned = Fetcher.Raises e)
  /\ forall df_dict, returned = Fetcher.Returns df_dict ->
       keys df_dict = keys symbol_bars /\ NoDup (keys df_dict).
Proof.
  intros Hf.
  assert (Hnd := download_intraday_dict_keys _ _ _ _ _ _ _ _ _ _ _ Hf).
  unfold Cleaner.download_intraday.
  destruct (Fetcher.download_intraday_dict lib Globals.time symbols timeframe
              start end_ limit api_key secret_key true w) as [o w1].
  cbn [fst] in Hf. subst o.
  destruct (Cleaner.clean_each lib symbol_bars (keys symbol_bars) [])
    as [d0|e0] eqn:Hc; cbn [fst].
  - assert (Hkeys : keys d0 = keys symbol_bars).
    { apply clean_each_keys in Hc; [exact Hc | exact Hnd | intros k _ []]. }
    split; [|split].
    + split; [|eauto]. intros _ sym raw Hget.
      assert (Hk : In sym (keys d0)) by (rewrite Hkeys; eapply get_in_keys, Hget).
      destruct (key_has_entry _ _ Hk) as [df Hin].
      destruct (clean_each_inv _ _ _ _ Hc _ _ Hin) as [[]|(raw' & Hget' & Hclean)].
      rewrite Hget in Hget'. inversion Hget'; subst raw'.
      exact (table_gives_complete _ _ _ Hclean).
    + left. eauto.
    + intros df_dict H. inversion H; subst.
      split; [exact Hkeys | rewrite Hkeys; exact Hnd].
  - split; [|split].
    + split; [intros [df_dict H]; discriminate|].
      intros Hall. exfalso.
      destruct (clean_each_returns symbol_bars (keys symbol_bars) []) as [d Hd].
      * intros s Hs. destruct (key_has_value _ _ Hs) as [raw Hget].
        exists raw. split; [exact Hget | exact (Hall s raw Hget)].
      * congruence.
    + right. eauto.
    + intros df_dict H. discriminate.
Qed.

End WithLibrary.

End Batch.

(* ===================================================================== *)
(** * The threshold of 78 bars and the five-minute grid *)

Module Grid.

Import ListFacts Closed CleanerFacts DownloadFacts.

Local Arguments Nat.leb : simpl never.

Section WithLibrary.

Variable lib : library.

Local Abbreviation clock_of := (fun r : row => Cleaner.dt_time lib (index r)).

(** The 78 times of day from 09:30 to 15:55, five minutes apart, in
    microseconds. *)
Lemma session_slot (x : Z) :
  Cleaner.time 9 30 <= x <= Cleaner.time 15 55 ->
  x mod 300000000 = 0 ->
  In x (map (fun k => Cleaner.time 9 30 + Z.of_nat k * 300000000) (seq 0 78)).
Proof.
  unfold Cleaner.time. intros Hwin Hgrid.
  pose proof (Z.div_mod x 300000000 ltac:(lia)) as Hx. rewrite Hgrid in Hx.
  apply in_map_iff. exists (Z.to_nat (x / 300000000 - 114)). split.
  - rewrite Z2Nat.id by lia. lia.
  - apply in_seq. lia.
Qed.

(** X11.  The threshold of 78 is the number of five-minute bars from 09:30 to
    15:55.  When the bars of a date inside the session window lie on the
    five-minute grid and have distinct local times, there are at most 78 of
    them; the date is complete exactly when there are 78, and then every
    five-minute time from 09:30 to 15:55 has its bar. *)
Theorem complete_date_has_every_five_minute_bar raw d :
  Forall (fun r => Cleaner.dt_time lib (index r) mod 300000000 = 0)
         (on_date lib d (session_rows lib raw)) ->
  NoDup (map clock_of (on_date lib d (session_rows lib raw))) ->
  (List.length (on_date lib d (session_rows lib raw)) <= 78)%nat
  /\ (complete lib (session_rows lib raw) d = true
      <-> List.length (on_date lib d (session_rows lib raw)) = 78%nat)
  /\ (complete lib (session_rows lib raw) d = true ->
      forall k, (k < 78)%nat ->
        exists r, In r (on_date lib d (session_rows lib raw))
                  /\ Cleaner.dt_time lib (index r)
                     = Cleaner.time 9 30 + Z.of_nat k * 300000000).
Proof.
  intros Hgrid Hnd.
  set (G := on_date lib d (session_rows lib raw)) in *.
  set (slots := map (fun k => Cleaner.time 9 30 + Z.of_nat k * 300000000)
                    (seq 0 78)).
  assert (Hslots : List.length slots = 78%nat)
    by (unfold slots; rewrite length_map, length_seq; reflexivity).
  assert (Hincl : incl (map clock_of G) slots).
  { intros x Hx. apply in_map_iff in Hx. destruct Hx as [r [<- Hr]].
    apply session_slot.
    - apply in_session_bounds. unfold G in Hr. apply in_on_date in Hr.
      destruct Hr as [Hr _]. apply in_session_rows in Hr. tauto.
    - rewrite Forall_forall in Hgrid. exact (Hgrid r Hr). }
  assert (Hle : (List.length G <= 78)%nat).
  { rewrite <- Hslots, <- (length_map clock_of G).
    apply NoDup_incl_length; assumption. }
  split; [exact Hle|]. split.
  - unfold complete. fold G. rewrite Nat.leb_le. lia.
  - intros Hc k Hk. unfold complete in Hc. fold G in Hc. apply Nat.leb_le in Hc.
    assert (Hback : incl slots (map clock_of G)).
    { apply NoDup_length_incl; [exact Hnd | | exact Hincl].
      rewrite Hslots, length_map. exact Hc. }
    assert (Hin : In (Cleaner.time 9 30 + Z.of_nat k * 300000000) slots).
    { unfold slots. apply in_map_iff. exists k. split; [reflexivity|].
      apply in_seq. lia. }
    apply Hback, in_map_iff in Hin. destruct Hin as [r [E Hr]]. eauto.
Qed.

End WithLibrary.

End Grid.

(* ===================================================================== *)
(** * What the cleaner prints *)

Module ReportFacts.

Import ListFacts Closed CleanerFacts DownloadFacts CleanSeries Report ReportClosed.

Local Arguments Nat.leb : simpl never.

Lemma duplicated_count seen rows :
  (mask_sum (duplicated_from seen (map index rows))
   + List.length (drop_dups seen rows) = List.length rows)%nat.
Proof.
  unfold mask_sum. revert seen.
  induction rows as [|r rows IH]; intros seen; simpl; [reflexivity|].
  destruct (existsb (Z.eqb (index r)) seen); simpl; rewrite <- (IH (index r :: seen)); lia.
Qed.

Lemma sorted_same_members (l1 l2 : list Z) :
  StronglySorted Z.lt l1 -> StronglySorted Z.lt l2 ->
  (forall x, In x l1 <-> In x l2) -> l1 = l2.
Proof.
  intros H1. revert l2.
  induction H1 as [|x l1 Hs1 IH Hall1]; intros l2 H2 Hmem.
  - destruct l2 as [|y l2]; [reflexivity|].
    destruct (proj2 (Hmem y) (or_introl eq_refl)).
  - destruct H2 as [|y l2 Hs2 Hall2].
    + destruct (proj1 (Hmem x) (or_introl eq_refl)).
    + rewrite Forall_forall in Hall1, Hall2.
      assert (Hxy : x = y).
      { destruct (proj1 (Hmem x) (or_introl eq_refl)) as [E|Hin]; [auto|].
        destruct (proj2 (Hmem y) (or_introl eq_refl)) as [E|Hin']; [auto|].
        specialize (Hall1 _ Hin'). specialize (Hall2 _ Hin). lia. }
      subst y. f_equal. apply IH; [exact Hs2|].
      intros z. split; intros Hz.
      * destruct (proj1 (Hmem z) (or_intror Hz)) as [E|Hin]; [|exact Hin].
        specialize (Hall1 _ Hz). lia.
      * destruct (proj2 (Hmem z) (or_intror Hz)) as [E|Hin]; [|exact Hin].
        specialize (Hall2 _ Hz). lia.
Qed.

Lemma filter_sorted_lt (p : Z -> bool) l :
  StronglySorted Z.lt l -> StronglySorted Z.lt (filter p l).
Proof.
  intros H. rewrite <- (map_id (filter p l)).
  apply filter_sorted. rewrite map_id. exact H.
Qed.

Lemma last_of_map {A B} (f : A -> B) (l : list A) (d : A) (d' : B) :
  l <> [] -> last (map f l) d' = f (last l d).
Proof.
  induction l as [|x l IH]; [congruence|]. intros _.
  destruct l as [|y l]; [reflexivity|].
  change (last (map f (y :: l)) d' = f (last (y :: l) d)).
  apply IH. discriminate.
Qed.

Section WithLibrary.

Variable lib : library.

Lemma day_lines_eq sym rows st d :
  day_lines lib sym rows st d
  = if complete lib rows d then []
    else (if Cleaner.first st then [Rule] else [])
           ++ [Incomplete sym d (List.length (on_date lib d rows))].
Proof.
  unfold day_lines, complete. rewrite select_map_filter. reflexivity.
Qed.

Lemma day_step_flags rows st d :
  Cleaner.first (Cleaner.day_step lib rows st d)
  = Cleaner.first st && complete lib rows d
  /\ Cleaner.skipped_day (Cleaner.day_step lib rows st d)
     = Cleaner.skipped_day st || negb (complete lib rows d).
Proof.
  unfold Cleaner.day_step, complete. rewrite select_map_filter.
  fold (on_date lib d rows).
  destruct (78 <=? List.length (on_date lib d rows))%nat;
    cbn [Cleaner.first Cleaner.skipped_day negb].
  - rewrite andb_true_r, orb_false_r. auto.
  - rewrite andb_false_r, orb_true_r. auto.
Qed.

Lemma notices_cons sym rows d ds :
  notices lib sym rows (d :: ds)
  = if complete lib rows d then notices lib sym rows ds
    else Incomplete sym d (List.length (on_date lib d rows))
           :: notices lib sym rows ds.
Proof.
  unfold notices. cbn [filter]. destruct (complete lib rows d); reflexivity.
Qed.

(** What the loop of lines 152-163 has printed and the state it is in. *)
Lemma loop_out sym rows ds :
  forall out0 st0,
    fold_left (day_step_out lib sym rows) ds (out0, st0)
    = (out0 ++ (if Cleaner.first st0
                then match notices lib sym rows ds with
                     | [] => []
                     | ns => Rule :: ns
                     end
                else notices lib sym rows ds),
       fold_left (Cleaner.day_step lib rows) ds st0).
Proof.
  induction ds as [|d ds IH]; intros out0 st0.
  - simpl. destruct (Cleaner.first st0); rewrite app_nil_r; reflexivity.
  - cbn [fold_left]. unfold day_step_out at 2. cbn [fst snd].
    rewrite IH. f_equal.
    rewrite day_lines_eq, notices_cons, (proj1 (day_step_flags rows st0 d)).
    destruct (complete lib rows d), (Cleaner.first st0); cbn [andb];
      rewrite ?app_nil_r, <- ?app_assoc; reflexivity.
Qed.

(** The flags after the loop. *)
Lemma loop_flags rows ds st0 :
  Cleaner.first (fold_left (Cleaner.day_step lib rows) ds st0)
  = Cleaner.first st0 && forallb (complete lib rows) ds
  /\ Cleaner.skipped_day (fold_left (Cleaner.day_step lib rows) ds st0)
     = Cleaner.skipped_day st0 || negb (forallb (complete lib rows) ds).
Proof.
  revert st0. induction ds as [|d ds IH]; intros st0.
  - simpl. rewrite andb_true_r, orb_false_r. auto.
  - cbn [fold_left forallb].
    destruct (IH (Cleaner.day_step lib rows st0 d)) as [H1 H2].
    destruct (day_step_flags rows st0 d) as [F1 F2].
    rewrite H1, H2, F1, F2.
    destruct (complete lib rows d), (Cleaner.first st0),
             (Cleaner.skipped_day st0), (forallb (complete lib rows) ds);
      auto.
Qed.

Lemma notices_nil sym rows ds :
  forallb (complete lib rows) ds = true <-> notices lib sym rows ds = [].
Proof.
  unfold notices. induction ds as [|d ds IH]; simpl; [tauto|].
  destruct (complete lib rows d); simpl; [exact IH|].
  split; discriminate.
Qed.

(** After the loop and line 166: the rule, then the notices. *)
Lemma printed_after_loop sym rows ds :
  let looped := fold_left (day_step_out lib sym rows) ds
                          ([], Cleaner.mk_state [] 0 true false) in
  (if Cleaner.first (snd looped) then fst looped ++ [Rule] else fst looped)
  = Rule :: notices lib sym rows ds.
Proof.
  intros looped. subst looped. rewrite loop_out. cbn [fst snd Cleaner.first app].
  destruct (loop_flags rows ds (Cleaner.mk_state [] 0 true false)) as [H1 _].
  rewrite H1. cbn [Cleaner.first andb].
  destruct (forallb (complete lib rows) ds) eqn:E.
  - apply (notices_nil sym) in E. rewrite E. reflexivity.
  - destruct (notices lib sym rows ds) eqn:En; [|reflexivity].
    apply (notices_nil sym) in En. congruence.
Qed.

(** [clean_symbol_out], with the masks and the loop in closed form. *)
Lemma clean_symbol_out_closed sym tf bars :
  clean_symbol_out lib sym tf bars
  = match bars with
    | [] => ([], Err (KeyError "datetime"))
    | _ =>
        let F := session_rows lib bars in
        let ns := notices lib sym F (window_dates lib bars) in
        match complete_days lib F with
        | [] => (Rule :: ns, Err (ValueError "No objects to concatenate"))
        | _ =>
            let T := drop_dups [] (concatenated lib bars) in
            let dupes := (List.length (concatenated lib bars) - List.length T)%nat in
            let out :=
              ((Rule :: ns)
                 ++ (if (0 <? dupes)%nat then [DuplicateWarning sym dupes] else []))
                ++ (if forallb (complete lib F) (window_dates lib bars)
                    then [] else [Dashes]) in
            match T with
            | [] =>
                (out, Err (IndexError "index 0 is out of bounds for axis 0 with size 0"))
            | r0 :: _ =>
                (out ++ [Downloaded sym tf (index r0) (index (last T r0))
                                    (Z.of_nat (List.length (complete_days lib F)))],
                 Ok (map (fun r => mk_srow r sym) T))
            end
        end
    end.
Proof.
  destruct bars as [|b bars]; [reflexivity|].
  unfold clean_symbol_out.
  rewrite select_map_filter. fold (session_rows lib (b :: bars)).
  fold (window_dates lib (b :: bars)).
  set (F := session_rows lib (b :: bars)).
  set (ds := window_dates lib (b :: bars)).
  cbv zeta.
  rewrite (printed_after_loop sym F ds).
  rewrite loop_out. cbn [snd].
  rewrite loop_days, loop_count.
  destruct (loop_flags F ds (Cleaner.mk_state [] 0 true false)) as [_ Hskip].
  rewrite Hskip. cbn [Cleaner.temp_com_day_list Cleaner.com_day_count
                      Cleaner.skipped_day app orb Z.add].
  change (filter (fun g => (78 <=? List.length g)%nat)
                 (map (fun d => on_date lib d F) ds))
    with (complete_days lib F).
  destruct (complete_days lib F) as [|g gs] eqn:Ed; [reflexivity|].
  unfold Pandas.concat. unfold concatenated. fold F. rewrite Ed.
  set (C := List.concat (g :: gs)).
  unfold duplicated. rewrite select_duplicated.
  assert (Hd : mask_sum (duplicated_from [] (map index C))
               = (List.length C - List.length (drop_dups [] C))%nat).
  { pose proof (duplicated_count [] C). lia. }
  rewrite Hd. unfold last_index.
  destruct (forallb (complete lib F) ds); cbn [negb];
    destruct (0 <? List.length C - List.length (drop_dups [] C))%nat;
    destruct (drop_dups [] C); rewrite ?app_nil_r; reflexivity.
Qed.

(** The printing does not change what is returned. *)
Lemma clean_symbol_out_result sym tf bars :
  snd (clean_symbol_out lib sym tf bars) = Cleaner.clean_symbol lib sym bars.
Proof.
  rewrite clean_symbol_out_closed, clean_symbol_closed.
  destruct bars as [|b bars]; [reflexivity|]. cbv zeta.
  unfold concatenated.
  destruct (complete_days lib (session_rows lib (b :: bars))) as [|g gs];
    [reflexivity|].
  unfold Pandas.concat, bind.
  destruct (drop_dups [] (List.concat (g :: gs))); reflexivity.
Qed.

Lemma in_notices sym rows ds s d n :
  In (Incomplete s d n) (notices lib sym rows ds)
  <-> s = sym /\ In d ds /\ n = List.length (on_date lib d rows) /\ (n < 78)%nat.
Proof.
  unfold notices. rewrite in_map_iff. split.
  - intros [d' [E Hd']]. inversion E; subst. apply filter_In in Hd'.
    destruct Hd' as [Hin Hc]. apply negb_true_iff in Hc.
    unfold complete in Hc. apply Nat.leb_gt in Hc. auto.
  - intros (-> & Hin & -> & Hlt). exists d. split; [reflexivity|].
    apply filter_In. split; [exact Hin|]. apply negb_true_iff.
    unfold complete. apply Nat.leb_gt. exact Hlt.
Qed.

Lemma notices_are_notices sym rows ds l :
  In l (notices lib sym rows ds) -> exists d n, l = Incomplete sym d n.
Proof.
  unfold notices. rewrite in_map_iff. intros [d [<- _]]. eauto.
Qed.

Lemma in_window_dates bars d :
  In d (window_dates lib bars)
  <-> exists r, In r (session_rows lib bars) /\ Cleaner.date lib (index r) = d.
Proof.
  unfold window_dates. rewrite in_np_unique, in_map_iff.
  split; intros [r [H1 H2]]; exists r; auto.
Qed.

(** X12.  For every symbol except one fetched with no bar, the cleaning
    prints the rule of 74 signs exactly once, before anything else, then one
    notice for every date that has bars inside the window but fewer than 78,
    in ascending order of date and with that number of bars, whether or not it
    then raises; a symbol fetched with no bar prints nothing.  What is
    printed changes nothing in what is returned. *)
Theorem rule_then_notices sym tf bars :
  snd (clean_symbol_out lib sym tf bars) = Cleaner.clean_symbol lib sym bars
  /\ (bars = [] -> fst (clean_symbol_out lib sym tf bars) = [])
  /\ (bars <> [] ->
      (exists rest,
         fst (clean_symbol_out lib sym tf bars)
         = Rule :: notices lib sym (session_rows lib bars) (window_dates lib bars)
                ++ rest
         /\ forallb after_notices rest = true)
      /\ (forall s d n,
            In (Incomplete s d n) (fst (clean_symbol_out lib sym tf bars))
            <-> s = sym
                /\ (exists r, In r (session_rows lib bars)
                              /\ Cleaner.date lib (index r) = d)
                /\ n = List.length (on_date lib d (session_rows lib bars))
                /\ (n < 78)%nat)).
Proof.
  split; [apply clean_symbol_out_result|].
  split; [intros ->; reflexivity|].
  intros Hne.
  assert (Hrest : exists rest,
             fst (clean_symbol_out lib sym tf bars)
             = Rule :: notices lib sym (session_rows lib bars) (window_dates lib bars)
                    ++ rest
             /\ forallb after_notices rest = true).
  { rewrite clean_symbol_out_closed.
    destruct bars as [|b bars]; [congruence|]. cbv zeta.
    set (F := session_rows lib (b :: bars)).
    set (ns := notices lib sym F (window_dates lib (b :: bars))).
    destruct (complete_days lib F) as [|g gs].
    - exists []. cbn [fst]. rewrite app_nil_r. auto.
    - set (T := drop_dups [] (concatenated lib (b :: bars))).
      set (dupes := (List.length (concatenated lib (b :: bars)) - List.length T)%nat).
      destruct T as [|r0 T'].
      + exists ((if (0 <? dupes)%nat then [DuplicateWarning sym dupes] else [])
                  ++ (if forallb (complete lib F) (window_dates lib (b :: bars))
                      then [] else [Dashes])).
        cbn [fst]. split.
        * cbn [app]. rewrite <- app_assoc. reflexivity.
        * destruct (0 <? dupes)%nat,
                   (forallb (complete lib F) (window_dates lib (b :: bars)));
            reflexivity.
      + eexists (((if (0 <? dupes)%nat then [DuplicateWarning sym dupes] else [])
                   ++ (if forallb (complete lib F) (window_dates lib (b :: bars))
                       then [] else [Dashes]))
                  ++ [Downloaded sym tf _ _ _]).
        cbn [fst]. split.
        * cbn [app]. rewrite <- !app_assoc. reflexivity.
        * destruct (0 <? dupes)%nat,
                   (forallb (complete lib F) (window_dates lib (b :: bars)));
            reflexivity. }
  split; [exact Hrest|].
  destruct Hrest as [rest [E Hafter]]. intros s d n. rewrite E.
  rewrite <- in_window_dates, <- in_notices.
  split.
  - intros [H|H]; [discriminate|].
    apply in_app_or in H. destruct H as [H|H]; [exact H|].
    rewrite forallb_forall in Hafter. specialize (Hafter _ H). discriminate.
  - intros H. right. apply in_or_app. left. exact H.
Qed.

(** The number of dates in the table. *)
Lemma dates_of_table rows :
  List.length (complete_days lib rows)
  = List.length
      (np_unique (map (Cleaner.date lib)
                      (map index (drop_dups [] (List.concat (complete_days lib rows)))))).
Proof.
  set (ds := np_unique (map (fun r => Cleaner.date lib (index r)) rows)).
  assert (Hlen : List.length (complete_days lib rows)
                 = List.length (filter (complete lib rows) ds)).
  { unfold complete_days. fold ds. rewrite filter_of_map, length_map. reflexivity. }
  rewrite Hlen. f_equal. apply sorted_same_members.
  - apply filter_sorted_lt, np_unique_sorted.
  - apply np_unique_sorted.
  - intros d. rewrite filter_In, in_np_unique, map_map, in_map_iff. split.
    + intros [Hd Hc]. destruct (complete_has_row _ _ _ Hc) as [x [Hx Hdx]].
      assert (Hcat : In x (List.concat (complete_days lib rows))).
      { apply in_complete_days. rewrite Hdx. auto. }
      destruct (drop_dups_keeps_index x [] _ Hcat) as [r' [Hr' Hidx]]; [tauto|].
      exists r'. rewrite Hidx. auto.
    + intros [r [<- Hr]]. apply in_drop_dups in Hr. destruct Hr as [Hr _].
      apply in_complete_days in Hr. destruct Hr as [Hr Hc]. split; [|exact Hc].
      unfold ds. apply in_np_unique. apply (in_map (fun r => Cleaner.date lib (index r))), Hr.
Qed.

Lemma some_date_incomplete rows ds :
  forallb (complete lib rows) ds = false
  <-> exists d, In d ds /\ complete lib rows d = false.
Proof.
  induction ds as [|d ds IH]; simpl.
  - split; [discriminate | intros [d [[] _]]].
  - destruct (complete lib rows d) eqn:E; simpl.
    + rewrite IH. split; intros [d' [H1 H2]]; exists d'; [auto|].
      destruct H1 as [<-|H1]; [congruence | auto].
    + split; [eauto | reflexivity].
Qed.

(** X13.  When the cleaning of a symbol returns a table, the last line it
    prints names the symbol and the timeframe and gives the first and the last
    timestamp of the table and the number of distinct dates in it.  A
    warning about duplicates is printed exactly when rows were dropped as
    duplicates, with their number; the line of dashes is printed exactly when
    some date was dropped as incomplete. *)
Theorem summary_line sym tf bars df :
  snd (clean_symbol_out lib sym tf bars) = Ok df ->
  exists before,
    fst (clean_symbol_out lib sym tf bars)
    = before
        ++ [Downloaded sym tf (hd 0 (timestamps df)) (last (timestamps df) 0)
              (Z.of_nat (List.length
                           (np_unique (map (Cleaner.date lib) (timestamps df)))))]
    /\ (List.length df <= List.length (concatenated lib bars))%nat
    /\ (forall s k,
          In (DuplicateWarning s k) before
          <-> s = sym
              /\ k = (List.length (concatenated lib bars) - List.length df)%nat
              /\ (0 < k)%nat)
    /\ (In Dashes before
        <-> exists d, In d (window_dates lib bars)
                      /\ complete lib (session_rows lib bars) d = false)
    /\ (forall s t0 t1 k, ~ In (Downloaded s tf t0 t1 k) before).
Proof.
  rewrite clean_symbol_out_closed.
  destruct bars as [|b bars]; [discriminate|]. cbv zeta.
  set (F := session_rows lib (b :: bars)).
  set (ds := window_dates lib (b :: bars)).
  set (ns := notices lib sym F ds).
  pose proof (dates_of_table F) as Hdates.
  destruct (complete_days lib F) as [|g gs] eqn:Ed; [discriminate|].
  pose proof (duplicated_count [] (concatenated lib (b :: bars))) as Hcount.
  unfold concatenated in *. fold F in Hcount |- *. rewrite Ed in *.
  set (C := List.concat (g :: gs)) in *.
  destruct (drop_dups [] C) as [|r0 T'] eqn:ET; [discriminate|].
  cbn [fst snd]. intros H.
  assert (Hdf : df = map (fun r => mk_srow r sym) (r0 :: T')) by congruence.
  clear H. rewrite Hdf. clear Hdf df.
  rewrite timestamps_tagged, length_map.
  set (dupes := (List.length C - List.length (r0 :: T'))%nat).
  exists (((Rule :: ns)
             ++ (if (0 <? dupes)%nat then [DuplicateWarning sym dupes] else []))
            ++ (if forallb (complete lib F) ds then [] else [Dashes])).
  assert (Hns : forall l, In l ns -> exists d n, l = Incomplete sym d n)
    by (intros l; apply notices_are_notices).
  split; [|split; [|split; [|split]]].
  - f_equal. f_equal. f_equal.
    + rewrite (@last_of_map _ _ index (r0 :: T') r0 0) by discriminate. reflexivity.
    + rewrite Hdates. reflexivity.
  - lia.
  - intros s k. rewrite !in_app_iff. split.
    + intros [[H|H]|H].
      * destruct H as [H|H]; [discriminate|].
        destruct (Hns _ H) as (d & n & E). discriminate.
      * destruct (Nat.ltb_spec 0 dupes) as [Hpos|]; [|destruct H].
        destruct H as [H|[]]. inversion H; subst. auto.
      * destruct (forallb (complete lib F) ds); [destruct H|].
        destruct H as [H|[]]. discriminate.
    + intros (-> & -> & Hpos). left. right. fold dupes in Hpos |- *.
      destruct (Nat.ltb_spec 0 dupes); [simpl; auto | lia].
  - rewrite !in_app_iff, <- some_date_incomplete. split.
    + intros [[H|H]|H].
      * destruct H as [H|H]; [discriminate|].
        destruct (Hns _ H) as (d & n & E). discriminate.
      * destruct (0 <? dupes)%nat; [|destruct H].
        destruct H as [H|[]]. discriminate.
      * destruct (forallb (complete lib F) ds); [destruct H | reflexivity].
    + intros E. right. fold ds in E. rewrite E. simpl. auto.
  - intros s t0 t1 k. rewrite !in_app_iff. intros [[H|H]|H].
    + destruct H as [H|H]; [discriminate|].
      destruct (Hns _ H) as (d & n & E). discriminate.
    + destruct (0 <? dupes)%nat; [|destruct H].
      destruct H as [H|[]]. discriminate.
    + destruct (forallb (complete lib F) ds); [destruct H|].
      destruct H as [H|[]]. discriminate.
Qed.

End WithLibrary.

End ReportFacts.

(* ===================================================================== *)
(** * More on the driver and the aggregator *)

Module DriverMore.

Import ListFacts Closed CleanerFacts DownloadFacts MergeFacts Batch Driver.

Section WithLibrary.

Variable lib : library.

(** How the script can leave through [sys.exit]. *)
Lemma exit_cases argv w code :
  ended (main lib argv w) = Exit code ->
  main lib argv w = stopped [usage] (Exit code) w
  /\ ((code = 1 /\ (List.length argv < 8 \/ 9 < List.length argv)%nat)
      \/ (code = 0 /\ (8 <= List.length argv <= 9)%nat
          /\ (nth 1 argv EmptyString = "-h"
              \/ nth 1 argv EmptyString = "--help"))).
Proof.
  unfold main.
  destruct ((List.length argv <? 8)%nat || (9 <? List.length argv)%nat) eqn:Ecount.
  - apply orb_true_iff in Ecount. rewrite !Nat.ltb_lt in Ecount.
    cbn [stopped ended]. intros H. inversion H; subst. auto.
  - apply orb_false_iff in Ecount. rewrite !Nat.ltb_ge in Ecount.
    destruct (existsb (String.eqb (nth 1 argv EmptyString)) ["-h"; "--help"])
      eqn:Ehelp.
    + cbn [stopped ended]. intros H. inversion H; subst.
      split; [reflexivity|]. right. split; [reflexivity|]. split; [lia|].
      simpl in Ehelp. rewrite orb_false_r in Ehelp.
      apply orb_true_iff in Ehelp. rewrite !String.eqb_eq in Ehelp. exact Ehelp.
    + destruct (int_of_str lib (nth 5 argv EmptyString)) as [limit|];
        [|discriminate].
      destruct (to_date lib (nth 3 argv EmptyString)) as [startDate|];
        [|discriminate].
      destruct (to_date lib (nth 4 argv EmptyString)) as [endDate|];
        [|discriminate].
      destruct (Cleaner.download_intraday _ _ _ _ _ _ _ _ _)
        as [[df_dict|e| |] w']; try discriminate.
      destruct (List.length argv =? 9)%nat; [|discriminate].
      destruct (String.eqb (nth 6 argv EmptyString) "stack"); [|discriminate].
      destruct (DataPrep.stack_data df_dict); discriminate.
Qed.

(** X14.  The script leaves through [sys.exit] in two cases only: with
    status 1 exactly when the number of arguments is wrong, and with status 0
    exactly when the number is right and the first argument is [-h] or
    [--help].  In both it has printed the usage text and nothing else, sent no
    request and written no file. *)
Theorem exits_of_main argv w :
  (ended (main lib argv w) = Exit 1
   <-> (List.length argv < 8 \/ 9 < List.length argv)%nat)
  /\ (ended (main lib argv w) = Exit 0
      <-> (8 <= List.length argv <= 9)%nat
          /\ (nth 1 argv EmptyString = "-h" \/ nth 1 argv EmptyString = "--help"))
  /\ (forall code, ended (main lib argv w) = Exit code ->
        (code = 0 \/ code = 1)
        /\ main lib argv w = stopped [usage] (Exit code) w).
Proof.
  split; [|split].
  - split.
    + intros H. destruct (exit_cases _ _ H) as [_ [[_ Hc]|[Hc _]]];
        [exact Hc | discriminate].
    + intros H. rewrite (DriverSpec.wrong_count_exits_one lib argv w H).
      reflexivity.
  - split.
    + intros H. destruct (exit_cases _ _ H) as [_ [[Hc _]|[_ Hc]]];
        [discriminate | exact Hc].
    + intros [Hlen Hflag].
      rewrite (DriverSpec.help_with_arguments_exits_zero lib argv w Hlen Hflag).
      reflexivity.
  - intros code H. destruct (exit_cases _ _ H) as [E [[-> _]|[-> _]]]; auto.
Qed.

(** X15.  A page limit that is not a number, or one above 10000, ends the
    script with an uncaught [ValueError] before any request is sent and
    before any file is written. *)
Theorem bad_limit_stops_before_network argv w :
  (8 <= List.length argv <= 9)%nat ->
  nth 1 argv EmptyString <> "-h" ->
  nth 1 argv EmptyString <> "--help" ->
  (int_of_str lib (nth 5 argv EmptyString) = None ->
   main lib argv w
   = stopped [] (Uncaught (ValueError "invalid literal for int() with base 10")) w)
  /\ (forall limit startDate endDate,
        int_of_str lib (nth 5 argv EmptyString) = Some limit ->
        10000 < limit ->
        to_date lib (nth 3 argv EmptyString) = Some startDate ->
        to_date lib (nth 4 argv EmptyString) = Some endDate ->
        ended (main lib argv w)
        = Uncaught (ValueError "limit must be <= 10000 (Alpaca API restriction)")
        /\ final (main lib argv w) = w
        /\ pickled (main lib argv w) = []
        /\ g_df_dict (main lib argv w) = None).
Proof.
  intros Hlen Hh Hhelp. unfold main.
  assert (Ecount : (List.length argv <? 8)%nat || (9 <? List.length argv)%nat = false).
  { apply orb_false_iff. rewrite !Nat.ltb_ge. lia. }
  assert (Ehelp : existsb (String.eqb (nth 1 argv EmptyString)) ["-h"; "--help"] = false).
  { simpl. rewrite orb_false_r. apply orb_false_iff.
    rewrite !String.eqb_neq. auto. }
  rewrite Ecount, Ehelp. split.
  - intros ->. reflexivity.
  - intros limit startDate endDate -> Hbig -> ->.
    unfold Cleaner.download_intraday, Fetcher.download_intraday_dict.
    destruct (Z.ltb_spec 10000 limit); [|lia].
    cbn [stopped ended final pickled g_df_dict]. auto.
Qed.

End WithLibrary.

(** A symbol that is no key of the dictionary has no row in the combined
    frame. *)
Lemma no_rows_of_other_symbols (d : dict DataFrame) sym :
  (forall k df r, In (k, df) d -> In r df -> symbol r = k) ->
  ~ In sym (keys d) ->
  filter (fun r => String.eqb (symbol r) sym) (List.concat (values d)) = [].
Proof.
  induction d as [|[k0 t0] d IH]; intros Htag Hkey; simpl; [reflexivity|].
  rewrite filter_app, IH.
  - rewrite app_nil_r. apply CleanSeries.filter_none.
    apply Forall_forall. intros r Hr. apply String.eqb_neq.
    rewrite (Htag k0 t0 r (or_introl eq_refl) Hr).
    intros ->. apply Hkey. simpl. auto.
  - intros k df r Hin. apply (Htag k df r). simpl. auto.
  - intros Hin. apply Hkey. simpl. auto.
Qed.

Lemma rows_of_symbol (d : dict DataFrame) sym t :
  NoDup (keys d) ->
  (forall k df r, In (k, df) d -> In r df -> symbol r = k) ->
  In (sym, t) d ->
  filter (fun r => String.eqb (symbol r) sym) (List.concat (values d)) = t.
Proof.
  induction d as [|[k0 t0] d IH]; intros Hnd Htag Hin; [destruct Hin|].
  inversion Hnd as [|? ? Hk0 Hnd']; subst.
  simpl. rewrite filter_app.
  assert (Htag' : forall k df r, In (k, df) d -> In r df -> symbol r = k)
    by (intros k df r H; apply (Htag k df r); simpl; auto).
  destruct Hin as [E|Hin].
  - inversion E; subst.
    rewrite (@no_rows_of_other_symbols d sym Htag' Hk0), app_nil_r.
    apply CleanSeries.filter_all. apply Forall_forall. intros r Hr.
    apply String.eqb_eq. exact (Htag sym t r (or_introl eq_refl) Hr).
  - rewrite (IH Hnd' Htag' Hin).
    assert (Hne : sym <> k0).
    { intros ->. apply Hk0. unfold keys. apply in_map_iff.
      exists (k0, t). auto. }
    rewrite CleanSeries.filter_none; [reflexivity|].
    apply Forall_forall. intros r Hr. apply String.eqb_neq.
    rewrite (Htag k0 t0 r (or_introl eq_refl) Hr). congruence.
Qed.

Section Run.

Variable lib : library.
Variables symbols timeframe start end_ api_key secret_key : string.
Variable limit : Z.
Variable w : Fetcher.world.

(** X16.  The combined table takes the tables of the symbols one after the
    other, in the order of the dictionary, with their rows as they are: the
    rows of the combined table that carry a symbol are that symbol's table,
    and it has as many rows as the tables together.  On a dictionary without
    symbols [stack_data] raises. *)
Theorem stacked_rows_by_symbol df_dict :
  fst (Cleaner.download_intraday lib symbols timeframe start end_ limit
         api_key secret_key w) = Fetcher.Returns df_dict ->
  (df_dict = [] ->
   DataPrep.stack_data df_dict = Err (ValueError "No objects to concatenate"))
  /\ (df_dict <> [] ->
      exists stack_df,
        DataPrep.stack_data df_dict = Ok stack_df
        /\ stack_df = List.concat (values df_dict)
        /\ List.length stack_df
           = fold_right (fun df n => (List.length df + n)%nat) 0%nat
                        (values df_dict)
        /\ forall sym df, In (sym, df) df_dict ->
             filter (fun r => String.eqb (symbol r) sym) stack_df = df).
Proof.
  intros Hret. split; [intros ->; reflexivity|].
  intros Hne. exists (List.concat (values df_dict)).
  split; [|split; [reflexivity|split]].
  - unfold DataPrep.stack_data, Pandas.concat.
    destruct df_dict as [|[k t] d]; [congruence | reflexivity].
  - clear. induction (values df_dict) as [|t l IH]; simpl; [reflexivity|].
    rewrite length_app, IH. reflexivity.
  - destruct (download_intraday_inv _ _ _ _ _ _ _ _ _ Hret)
      as [symbol_bars [Hf Htab]].
    destruct (@tables_keys lib symbols timeframe start end_ api_key secret_key
                limit w symbol_bars df_dict Hf Hret) as [_ Hnd].
    intros sym df Hin. apply rows_of_symbol; [| |exact Hin].
    + exact Hnd.
    + intros k t r Hk Hr. destruct (Htab _ _ Hk) as [raw [_ Hclean]].
      destruct (in_table _ _ _ _ Hclean Hr) as [Hsym _]. auto.
Qed.

End Run.

End DriverMore.

(* ===================================================================== *)
(** * Where the time zone is read *)

Module Zone.

Import ListFacts Closed CleanerFacts DownloadFacts FetcherActual.

Lemma get_in {V} (d : dict V) k v : get d k = Some v -> In (k, v) d.
Proof.
  induction d as [|[k0 v0] d IH]; simpl; [discriminate|].
  destruct (String.eqb_spec k k0) as [->|Hne].
  - intros H. inversion H. auto.
  - auto.
Qed.

(** As the module binds [time], the fetch does not call the library. *)
Lemma fetch_loop_any_library lib1 lib2 fuel headers symbols timeframe start
      end_ limit symbol_bars next_token w :
  Fetcher.fetch_loop lib1 Globals.time fuel headers symbols timeframe start
                     end_ limit symbol_bars next_token w
  = Fetcher.fetch_loop lib2 Globals.time fuel headers symbols timeframe start
                       end_ limit symbol_bars next_token w.
Proof.
  revert symbol_bars next_token w.
  induction fuel as [|fuel IH]; intros symbol_bars next_token w; [reflexivity|].
  cbn [Fetcher.fetch_loop]. unfold Fetcher.safe_get.
  rewrite !safe_get_from_once.
  destruct (Fetcher.script w) as [|r rest]; [reflexivity|].
  destruct (Fetcher.status_code r =? 429); [reflexivity|].
  destruct (Fetcher.json r) as [data|]; [|reflexivity].
  destruct (negb (truthy (Fetcher.next_page_token data))); [reflexivity|].
  apply IH.
Qed.

Lemma clean_each_offsets lib1 lib2 (symbol_bars : dict (list bar)) todo init :
  (forall sym raw b, In (sym, raw) symbol_bars -> In b raw ->
     utcoffset lib1 (Bar.t b) = utcoffset lib2 (Bar.t b)) ->
  Cleaner.clean_each lib1 symbol_bars todo init
  = Cleaner.clean_each lib2 symbol_bars todo init.
Proof.
  intros Hoff. revert init.
  induction todo as [|s todo IH]; intros init; simpl; [reflexivity|].
  destruct (get symbol_bars s) as [raw|] eqn:Hget; [|reflexivity].
  rewrite (clean_symbol_offsets lib1 lib2 s raw)
    by (intros b Hb; exact (Hoff s raw b (get_in _ _ Hget) Hb)).
  destruct (Cleaner.clean_symbol lib2 s raw); simpl; [apply IH | reflexivity].
Qed.

(** X17.  The time zone is read at the instants of the fetched bars and
    nowhere else: two zone tables that give the same offset at the instant of
    every fetched bar give the same tables, or the same exception, for the
    same answers of the server. *)
Theorem zone_read_at_fetched_bars_only lib1 lib2 symbols timeframe start end_
        limit api_key secret_key w symbol_bars :
  fst (Fetcher.download_intraday_dict lib1 Globals.time symbols timeframe
         start end_ limit api_key secret_key true w)
  = Fetcher.Returns symbol_bars ->
  (forall sym raw b, In (sym, raw) symbol_bars -> In b raw ->
     utcoffset lib1 (Bar.t b) = utcoffset lib2 (Bar.t b)) ->
  Cleaner.download_intraday lib1 symbols timeframe start end_ limit api_key
                            secret_key w
  = Cleaner.download_intraday lib2 symbols timeframe start end_ limit api_key
                              secret_key w.
Proof.
  intros Hf Hoff. unfold Cleaner.download_intraday.
  assert (E : Fetcher.download_intraday_dict lib1 Globals.time symbols timeframe
                start end_ limit api_key secret_key true w
              = Fetcher.download_intraday_dict lib2 Globals.time symbols
                  timeframe start end_ limit api_key secret_key true w).
  { unfold Fetcher.download_intraday_dict.
    destruct (10000 <? limit); [reflexivity|]. cbn [negb].
    apply fetch_loop_any_library. }
  rewrite <- E.
  destruct (Fetcher.download_intraday_dict lib1 Globals.time symbols timeframe
              start end_ limit api_key secret_key true w) as [o w1].
  cbn [fst] in Hf. subst o.
  rewrite (clean_each_offsets lib1 lib2 symbol_bars (keys symbol_bars) [] Hoff).
  reflexivity.
Qed.

End Zone.

(* ===================================================================== *)
(** * The properties above on concrete runs *)

Module Runs.

Import ListFacts Closed CleanerFacts DownloadFacts Fetcher Paging.

Local Arguments Nat.leb : simpl never.

Lemma sorted_le_of_ascending (l : list Z) :
  ascending l = true -> StronglySorted Z.le l.
Proof.
  intros H. apply Sorted_StronglySorted; [intros x y z; apply Z.le_trans|].
  apply ascending_sorted, H.
Qed.

Lemma pages_lost_when_paging_stops_witness :
  fst (download_intraday_dict Sample.est Globals.time "AAPL" "5Min"
         Sample.start Sample.end_ 10000 "PKTEST" "s3cr3t" true
         Sample.throttled_after_first_page)
  = Raises (AttributeError "type object 'datetime.time' has no attribute 'time'").
Proof.
  assert (Hrs : Forall2 (fun r page => status_code r <> 429 /\ json r = Some page)
                        [Sample.ok_response Sample.morning_page]
                        [Sample.morning_page])
    by (repeat constructor; simpl; discriminate).
  assert (Htok : Forall (fun page => truthy (next_page_token page) = true)
                        [Sample.morning_page])
    by (repeat constructor).
  assert (Hlimit : 10000 <= 10000) by lia.
  exact (proj1 (@FetcherResponses.pages_lost_when_paging_stops Sample.est "AAPL"
                  "5Min" Sample.start Sample.end_ 10000 "PKTEST" "s3cr3t"
                  Sample.throttled_after_first_page
                  [Sample.ok_response Sample.morning_page]
                  [Sample.morning_page] [Sample.throttled]
                  Hlimit eq_refl Hrs Htok)
               eq_refl).
Defined.

Lemma no_bar_lost_or_added_witness :
  exists symbol_bars,
    fst (download_intraday_dict Sample.est Globals.time "AAPL" "5Min"
           Sample.start Sample.end_ 10000 "PKTEST" "s3cr3t" true
           Sample.two_pages) = Returns symbol_bars
    /\ NoDup (keys symbol_bars)
    /\ Permutation
         (List.concat (values symbol_bars))
         (List.concat (map (fun page => List.concat (values (bars page)))
                           ([Sample.morning_page] ++ [Sample.afternoon_page]))).
Proof.
  assert (Hrs : Forall2 (fun r page => status_code r <> 429 /\ json r = Some page)
                        [Sample.ok_response Sample.morning_page;
                         Sample.ok_response Sample.afternoon_page]
                        ([Sample.morning_page] ++ [Sample.afternoon_page]))
    by (repeat constructor; simpl; discriminate).
  assert (Htok : Forall (fun page => truthy (next_page_token page) = true)
                        [Sample.morning_page])
    by (repeat constructor).
  assert (Hlimit : 10000 <= 10000) by lia.
  exact (@MergeFacts.no_bar_lost_or_added Sample.est "AAPL" "5Min" Sample.start
           Sample.end_ 10000 "PKTEST" "s3cr3t" Sample.two_pages
           [Sample.ok_response Sample.morning_page;
            Sample.ok_response Sample.afternoon_page]
           [Sample.morning_page] Sample.afternoon_page []
           Hlimit eq_refl Hrs Htok eq_refl).
Defined.

Lemma table_rows_of_own_symbol_witness :
  fst (Cleaner.download_intraday Sample.est "AAPL,MSFT" "5Min" Sample.start
         Sample.end_ 10000 "PKTEST" "s3cr3t" Sample.two_symbols)
  = Returns [("AAPL", Sample.tagged "AAPL" Sample.full_session);
             ("MSFT", Sample.tagged "MSFT" (Sample.bars_from Sample.tuesday 9 30 78))]
  /\ exists symbol_bars,
       fst (download_intraday_dict Sample.est Globals.time "AAPL,MSFT" "5Min"
              Sample.start Sample.end_ 10000 "PKTEST" "s3cr3t" true
              Sample.two_symbols) = Returns symbol_bars /\
       forall sym df,
         In (sym, df)
            [("AAPL", Sample.tagged "AAPL" Sample.full_session);
             ("MSFT", Sample.tagged "MSFT" (Sample.bars_from Sample.tuesday 9 30 78))] ->
         exists raw,
           get symbol_bars sym = Some raw /\
           forall r, In r df ->
             symbol r = sym /\ In (index (data r)) (map Bar.t raw).
Proof.
  assert (H : fst (Cleaner.download_intraday Sample.est "AAPL,MSFT" "5Min"
                     Sample.start Sample.end_ 10000 "PKTEST" "s3cr3t"
                     Sample.two_symbols)
              = Returns [("AAPL", Sample.tagged "AAPL" Sample.full_session);
                         ("MSFT", Sample.tagged "MSFT"
                                    (Sample.bars_from Sample.tuesday 9 30 78))])
    by (vm_compute; reflexivity).
  split; [exact H|].
  exact (@CleanerMore.table_rows_of_own_symbol Sample.est "AAPL,MSFT" "5Min"
           Sample.start Sample.end_ "PKTEST" "s3cr3t" 10000 Sample.two_symbols
           _ H).
Defined.

Lemma first_of_equal_timestamps_kept_witness :
  Cleaner.clean_symbol Sample.est "AAPL" Sample.repeat_out_of_order
  = Ok (Sample.tagged "AAPL" Sample.full_session)
  /\ forall r, In r (Sample.tagged "AAPL" Sample.full_session) ->
       exists b,
         find (fun b => Bar.t b =? index (data r)) Sample.repeat_out_of_order
         = Some b
         /\ data r = rename b.
Proof.
  assert (H : Cleaner.clean_symbol Sample.est "AAPL" Sample.repeat_out_of_order
              = Ok (Sample.tagged "AAPL" Sample.full_session))
    by (vm_compute; reflexivity).
  split; [exact H|].
  exact (@KeepFirst.first_of_equal_timestamps_kept Sample.est "AAPL"
           Sample.repeat_out_of_order _ H).
Defined.

Lemma clean_series_unchanged_witness :
  Cleaner.clean_symbol Sample.est "AAPL" Sample.full_session
  = Ok (map (fun b => mk_srow (rename b) "AAPL") Sample.full_session).
Proof.
  apply CleanSeries.clean_series_unchanged.
  - vm_compute. discriminate.
  - apply Forall_forall. intros b Hb.
    assert (E : forallb (fun b => Cleaner.in_session Sample.est (rename b))
                        Sample.full_session = true) by (vm_compute; reflexivity).
    rewrite forallb_forall in E. exact (E b Hb).
  - apply sorted_lt_NoDup, strictly_increasing_sorted. vm_compute. reflexivity.
  - apply sorted_le_of_ascending. vm_compute. reflexivity.
  - intros b Hb.
    assert (E : forallb
                  (fun b =>
                     (78 <=? List.length
                               (filter (fun b' => (Cleaner.date Sample.est (Bar.t b')
                                                   =? Cleaner.date Sample.est (Bar.t b))%Z)
                                       Sample.full_session))%nat)
                  Sample.full_session = true) by (vm_compute; reflexivity).
    rewrite forallb_forall in E. apply Nat.leb_le. exact (E b Hb).
Defined.

Lemma all_symbols_or_none_witness :
  fst (download_intraday_dict Sample.est Globals.time "AAPL,MSFT" "5Min"
         Sample.start Sample.end_ 10000 "PKTEST" "s3cr3t" true Sample.two_symbols)
  = Returns Sample.both_series
  /\ (exists df_dict,
        fst (Cleaner.download_intraday Sample.est "AAPL,MSFT" "5Min"
               Sample.start Sample.end_ 10000 "PKTEST" "s3cr3t"
               Sample.two_symbols) = Returns df_dict)
  /\ forall df_dict,
       fst (Cleaner.download_intraday Sample.est "AAPL,MSFT" "5Min" Sample.start
              Sample.end_ 10000 "PKTEST" "s3cr3t" Sample.two_symbols)
       = Returns df_dict ->
       keys df_dict = keys Sample.both_series /\ NoDup (keys df_dict).
Proof.
  assert (H : fst (download_intraday_dict Sample.est Globals.time "AAPL,MSFT"
                     "5Min" Sample.start Sample.end_ 10000 "PKTEST" "s3cr3t"
                     true Sample.two_symbols)
              = Returns Sample.both_series) by (vm_compute; reflexivity).
  split; [exact H|].
  destruct (@Batch.all_symbols_or_none Sample.est "AAPL,MSFT" "5Min" Sample.start
              Sample.end_ "PKTEST" "s3cr3t" 10000 Sample.two_symbols
              Sample.both_series H) as (Hiff & _ & Hkeys).
  split; [|exact Hkeys].
  apply Hiff. intros sym raw Hget.
  assert (E : forallb
                (fun sr => existsb
                             (complete Sample.est (session_rows Sample.est (snd sr)))
                             [Sample.monday; Sample.tuesday])
                Sample.both_series = true) by (vm_compute; reflexivity).
  rewrite forallb_forall in E.
  specialize (E (sym, raw) (Zone.get_in _ _ Hget)). cbn [snd] in E.
  apply existsb_exists in E. destruct E as [d [_ Hd]]. eauto.
Defined.

Lemma complete_date_has_every_five_minute_bar_witness :
  (List.length (on_date Sample.est Sample.monday
                        (session_rows Sample.est Sample.full_session)) <= 78)%nat
  /\ (complete Sample.est (session_rows Sample.est Sample.full_session)
               Sample.monday = true
      <-> List.length (on_date Sample.est Sample.monday
                               (session_rows Sample.est Sample.full_session))
          = 78%nat)
  /\ (complete Sample.est (session_rows Sample.est Sample.full_session)
               Sample.monday = true ->
      forall k, (k < 78)%nat ->
        exists r, In r (on_date Sample.est Sample.monday
                                (session_rows Sample.est Sample.full_session))
                  /\ Cleaner.dt_time Sample.est (index r)
                     = Cleaner.time 9 30 + Z.of_nat k * 300000000).
Proof.
  apply Grid.complete_date_has_every_five_minute_bar.
  - apply Forall_forall. intros r Hr.
    assert (E : forallb (fun r => Cleaner.dt_time Sample.est (index r)
                                    mod 300000000 =? 0)
                        (on_date Sample.est Sample.monday
                                 (session_rows Sample.est Sample.full_session))
                = true) by (vm_compute; reflexivity).
    rewrite forallb_forall in E. apply Z.eqb_eq. exact (E r Hr).
  - apply sorted_lt_NoDup, strictly_increasing_sorted. vm_compute. reflexivity.
Defined.

Lemma summary_line_witness :
  Report.clean_symbol_out Sample.est "AAPL" "5Min" Sample.short_and_full_days
  = ([Report.Rule; Report.Incomplete "AAPL" Sample.monday 40;
      Report.DuplicateWarning "AAPL" 1; Report.Dashes;
      Report.Downloaded "AAPL" "5Min" (Sample.at_ Sample.tuesday 9 30)
                        (Sample.at_ Sample.tuesday 15 55) 1],
     Ok (Sample.tagged "AAPL" (Sample.bars_from Sample.tuesday 9 30 78)))
  /\ exists before,
       fst (Report.clean_symbol_out Sample.est "AAPL" "5Min"
              Sample.short_and_full_days)
       = before
           ++ [Report.Downloaded "AAPL" "5Min"
                 (hd 0 (timestamps (Sample.tagged "AAPL"
                                      (Sample.bars_from Sample.tuesday 9 30 78))))
                 (last (timestamps (Sample.tagged "AAPL"
                                      (Sample.bars_from Sample.tuesday 9 30 78))) 0)
                 (Z.of_nat
                    (List.length
                       (np_unique
                          (map (Cleaner.date Sample.est)
                               (timestamps
                                  (Sample.tagged "AAPL"
                                     (Sample.bars_from Sample.tuesday 9 30 78)))))))]
       /\ (List.length (Sample.tagged "AAPL" (Sample.bars_from Sample.tuesday 9 30 78))
           <= List.length (ReportClosed.concatenated Sample.est
                             Sample.short_and_full_days))%nat
       /\ (forall s k,
             In (Report.DuplicateWarning s k) before
             <-> s = "AAPL"
                 /\ k = (List.length (ReportClosed.concatenated Sample.est
                                        Sample.short_and_full_days)
                         - List.length (Sample.tagged "AAPL"
                                          (Sample.bars_from Sample.tuesday 9 30 78)))%nat
                 /\ (0 < k)%nat)
       /\ (In Report.Dashes before
           <-> exists d,
                 In d (ReportClosed.window_dates Sample.est
                         Sample.short_and_full_days)
                 /\ complete Sample.est
                      (session_rows Sample.est Sample.short_and_full_days) d
                    = false)
       /\ (forall s t0 t1 k, ~ In (Report.Downloaded s "5Min" t0 t1 k) before).
Proof.
  assert (H : Report.clean_symbol_out Sample.est "AAPL" "5Min"
                Sample.short_and_full_days
              = ([Report.Rule; Report.Incomplete "AAPL" Sample.monday 40;
                  Report.DuplicateWarning "AAPL" 1; Report.Dashes;
                  Report.Downloaded "AAPL" "5Min" (Sample.at_ Sample.tuesday 9 30)
                                    (Sample.at_ Sample.tuesday 15 55) 1],
                 Ok (Sample.tagged "AAPL" (Sample.bars_from Sample.tuesday 9 30 78))))
    by (vm_compute; reflexivity).
  split; [exact H|].
  apply ReportFacts.summary_line. rewrite H. reflexivity.
Defined.

Lemma bad_limit_stops_before_network_witness :
  Driver.ended (Driver.main Sample.est Sample.argv_limit_20000
                            (Sample.one_page Sample.full_session))
  = Driver.Uncaught (ValueError "limit must be <= 10000 (Alpaca API restriction)")
  /\ Driver.final (Driver.main Sample.est Sample.argv_limit_20000
                               (Sample.one_page Sample.full_session))
     = Sample.one_page Sample.full_session
  /\ Driver.pickled (Driver.main Sample.est Sample.argv_limit_20000
                                 (Sample.one_page Sample.full_session)) = []
  /\ Driver.g_df_dict (Driver.main Sample.est Sample.argv_limit_20000
                                   (Sample.one_page Sample.full_session)) = None.
Proof.
  assert (Hlen : (8 <= List.length Sample.argv_limit_20000 <= 9)%nat)
    by (simpl; lia).
  assert (Hh : nth 1 Sample.argv_limit_20000 EmptyString <> "-h")
    by (simpl; discriminate).
  assert (Hhelp : nth 1 Sample.argv_limit_20000 EmptyString <> "--help")
    by (simpl; discriminate).
  assert (Hbig : 10000 < 20000) by lia.
  exact (proj2 (@DriverMore.bad_limit_stops_before_network Sample.est
                  Sample.argv_limit_20000 (Sample.one_page Sample.full_session)
                  Hlen Hh Hhelp)
               20000 "2022-01-03" "2022-01-04" eq_refl Hbig eq_refl eq_refl).
Defined.

Lemma stacked_rows_by_symbol_witness :
  fst (Cleaner.download_intraday Sample.est "AAPL,MSFT" "5Min" Sample.start
         Sample.end_ 10000 "PKTEST" "s3cr3t" Sample.two_symbols)
  = Returns [("AAPL", Sample.tagged "AAPL" Sample.full_session);
             ("MSFT", Sample.tagged "MSFT" (Sample.bars_from Sample.tuesday 9 30 78))]
  /\ exists stack_df,
       DataPrep.stack_data
         [("AAPL", Sample.tagged "AAPL" Sample.full_session);
          ("MSFT", Sample.tagged "MSFT" (Sample.bars_from Sample.tuesday 9 30 78))]
       = Ok stack_df
       /\ List.length stack_df = 156%nat
       /\ filter (fun r => String.eqb (symbol r) "MSFT") stack_df
          = Sample.tagged "MSFT" (Sample.bars_from Sample.tuesday 9 30 78).
Proof.
  assert (H : fst (Cleaner.download_intraday Sample.est "AAPL,MSFT" "5Min"
                     Sample.start Sample.end_ 10000 "PKTEST" "s3cr3t"
                     Sample.two_symbols)
              = Returns [("AAPL", Sample.tagged "AAPL" Sample.full_session);
                         ("MSFT", Sample.tagged "MSFT"
                                    (Sample.bars_from Sample.tuesday 9 30 78))])
    by (vm_compute; reflexivity).
  split; [exact H|].
  destruct (proj2 (@DriverMore.stacked_rows_by_symbol Sample.est "AAPL,MSFT"
                     "5Min" Sample.start Sample.end_ "PKTEST" "s3cr3t" 10000
                     Sample.two_symbols _ H))
    as (stack_df & Hs & _ & Hlen & Hrows); [discriminate|].
  exists stack_df. split; [exact Hs|]. split.
  - rewrite Hlen. vm_compute. reflexivity.
  - apply Hrows. simpl. auto.
Defined.

Lemma zone_read_at_fetched_bars_only_witness :
  Cleaner.download_intraday Sample.est "AAPL,MSFT" "5Min" Sample.start
    Sample.end_ 10000 "PKTEST" "s3cr3t" Sample.two_symbols
  = Cleaner.download_intraday Sample.eastern_2022 "AAPL,MSFT" "5Min"
      Sample.start Sample.end_ 10000 "PKTEST" "s3cr3t" Sample.two_symbols.
Proof.
  assert (H : fst (download_intraday_dict Sample.est Globals.time "AAPL,MSFT"
                     "5Min" Sample.start Sample.end_ 10000 "PKTEST" "s3cr3t"
                     true Sample.two_symbols)
              = Returns Sample.both_series) by (vm_compute; reflexivity).
  apply (Zone.zone_read_at_fetched_bars_only Sample.est Sample.eastern_2022 _ _
           _ _ _ _ _ _ H).
  intros sym raw b Hin Hb.
  assert (E : forallb
                (fun sr => forallb
                             (fun b => utcoffset Sample.est (Bar.t b)
                                       =? utcoffset Sample.eastern_2022 (Bar.t b))
                             (snd sr))
                Sample.both_series = true) by (vm_compute; reflexivity).
  rewrite forallb_forall in E. specialize (E (sym, raw) Hin). cbn [snd] in E.
  rewrite forallb_forall in E. apply Z.eqb_eq. exact (E b Hb).
Defined.

End Runs.
